(** * The mock chat-completion server of scripts/mock-llm-server.py

    A shallow embedding of [MockLLMHandler.do_POST] and
    [MockLLMHandler.generate_mock_response], and the properties of the
    HTTP contract that follow from them.

    Conventions of the embedding.
    - A Python [str] is a Rocq [string]; a character stands for the code
      point of the same number, so the development covers text over
      U+0000..U+00FF.  [lower], [split] and slicing are those of Python on
      that alphabet.
    - A Python [bytes] is a [list Byte.byte].
    - A Python [float] is a [spec_float] at the binary64 format, with the
      operations of the Standard Library's IEEE 754 specification.
    - The objects produced by [json.loads] are the values of [pyval];
      a [dict] keeps its items in insertion order.
    - The handler runs in a monad that threads the observable world (log
      records, what has been sent to the client, how much of the request
      body has been read, how many times the clock has been read) and may
      end in a raised exception; the effects made before a raise stay.
    - Functions of the Python runtime that the script only calls
      ([urlparse], [int], [bytes.decode], [json.loads], [str] of a
      non-string object, the allocator behind [read]) are fields of a
      [Library] record over which the development is parametric;
      [Reference.library] is an executable instance.  Integers that reach
      C are those of a 64-bit build of CPython.
    - [send_error], [send_response], [send_header], [end_headers] and
      [wfile.write] are recorded as events.  Those that write to the
      socket fail with an [OSError] when the client has gone: the handler
      is written over a line to the client, and [do_POST] is the handler
      on a line that takes every write.  The access-log lines that
      [BaseHTTPRequestHandler] itself emits through [log_message] are not
      part of the model: the log holds the records of the script's own
      calls of [logger]. *)

From Stdlib Require Import String Ascii List ZArith Lia Bool Arith.
From Stdlib Require Import SpecFloat DecimalString.
Import ListNotations.
Open Scope string_scope.
Set Warnings "-register-all,-abstract-large-number".

(** ** Python strings *)

Module Str.

Definition nl : string := String (ascii_of_nat 10) "".
Definition dquote : string := String (ascii_of_nat 34) "".

(** [str.lower] on one character: A..Z and the Latin-1 capitals
    U+00C0..U+00DE (the multiplication sign U+00D7 apart) move up by 32. *)
Definition lower_char (c : ascii) : ascii :=
  let n := nat_of_ascii c in
  if (((65 <=? n) && (n <=? 90))
      || ((192 <=? n) && (n <=? 222) && negb (n =? 215)))%nat
  then ascii_of_nat (n + 32) else c.

Fixpoint lower (s : string) : string :=
  match s with
  | EmptyString => EmptyString
  | String c t => String (lower_char c) (lower t)
  end.

(** [needle in hay] *)
Fixpoint contains (needle hay : string) : bool :=
  match hay with
  | EmptyString => prefix needle hay
  | String _ t => prefix needle hay || contains needle t
  end.

(** [str.isspace] on one character: TAB, LF, VT, FF, CR, the separators
    U+001C..U+001F, SPACE, NEL and NO-BREAK SPACE. *)
Definition isspace (c : ascii) : bool :=
  let n := nat_of_ascii c in
  (((9 <=? n) && (n <=? 13)) || ((28 <=? n) && (n <=? 32))
   || (n =? 133) || (n =? 160))%nat.

(** [s.split()]: the maximal runs of non-space characters, in order.
    [cur] is the word being read, reversed. *)
Definition flush (cur : list ascii) (acc : list string) : list string :=
  match cur with
  | [] => acc
  | _ => string_of_list_ascii (rev cur) :: acc
  end.

Fixpoint split_aux (s : string) (cur : list ascii) (acc : list string)
  : list string :=
  match s with
  | EmptyString => rev (flush cur acc)
  | String c t =>
      if isspace c then split_aux t [] (flush cur acc)
      else split_aux t (c :: cur) acc
  end.

Definition split (s : string) : list string := split_aux s [] [].

(** [s[:n]] *)
Fixpoint take (n : nat) (s : string) : string :=
  match n, s with
  | S n', String c t => String c (take n' t)
  | _, _ => EmptyString
  end.

(** [str(n)] for an [int] *)
Definition of_Z (n : Z) : string := NilZero.string_of_int (Z.to_int n).

(** [c] is one of 0..9. *)
Definition isdigit (c : ascii) : bool :=
  let n := nat_of_ascii c in ((48 <=? n) && (n <=? 57))%nat.

(** [s] is [k] decimal digits. *)
Definition digits (k : nat) (s : string) : bool :=
  (String.length s =? k)%nat && forallb isdigit (list_ascii_of_string s).

(** The two-digit, zero-padded field of [strftime] ([%m], [%d], [%H],
    [%M], [%S]). *)
Definition pad2 (n : Z) : string :=
  if (0 <=? n)%Z && (n <? 10)%Z then "0" ++ of_Z n else of_Z n.

End Str.

(** ** Python objects, exceptions and floats *)

Inductive pyval : Type :=
| PyNone
| PyBool (b : bool)
| PyInt (n : Z)
| PyFloat (f : spec_float)
| PyStr (s : string)
| PyList (items : list pyval)
| PyDict (items : list (string * pyval)).

Inductive exn : Type :=
| JSONDecodeError
| UnicodeDecodeError
| RecursionError
| AttributeError
| TypeError
| ValueError
| OverflowError
| MemoryError
| OSError.   (* BrokenPipeError, ConnectionResetError: a write to a client that has gone *)

(** [isinstance(e, json.JSONDecodeError)] *)
Definition is_JSONDecodeError (e : exn) : bool :=
  match e with JSONDecodeError => true | _ => false end.

Inductive result (A : Type) : Type :=
| Return (a : A)
| Raise (e : exn).
Arguments Return {A} a.
Arguments Raise {A} e.

Module Float.

Definition prec : Z := 53.
Definition emax : Z := 1024.

Definition mul : spec_float -> spec_float -> spec_float := SFmul prec emax.
Definition add : spec_float -> spec_float -> spec_float := SFadd prec emax.

(** The literal [1.3]: the binary64 number nearest to 13/10,
    0x1.4cccccccccccdp+0. *)
Definition lit_1_3 : spec_float := S754_finite false 5854679515581645 (-52).

(** [float(n)] for an [int]: rounded to nearest even; [OverflowError]
    past the largest finite number. *)
Definition of_int (n : Z) : result spec_float :=
  match binary_normalize prec emax n 0 false with
  | S754_infinity _ => Raise OverflowError
  | f => Return f
  end.

(** [int(f)]: truncation toward zero; [OverflowError] on an infinity,
    [ValueError] on a NaN. *)
Definition to_int (f : spec_float) : result Z :=
  match f with
  | S754_zero _ => Return 0%Z
  | S754_finite s m e =>
      let a := match e with
               | Zneg k => Z.shiftr (Zpos m) (Zpos k)
               | _ => Z.shiftl (Zpos m) e
               end in
      Return (if s then Z.opp a else a)
  | S754_infinity _ => Raise OverflowError
  | S754_nan => Raise ValueError
  end.

End Float.

(** ** The request, the clock and the observable world *)

Record struct_time : Type := {
  tm_year : Z; tm_mon : Z; tm_mday : Z;
  tm_hour : Z; tm_min : Z; tm_sec : Z
}.

(** One reading of the system clock: [int(time.time())] and
    [time.localtime()] at that instant. *)
Record Reading : Type := {
  epoch : Z;
  localtime : struct_time
}.

Record Request : Type := {
  path : string;                       (* self.path, the request target *)
  headers : list (string * string);    (* self.headers *)
  rfile : list Byte.byte               (* what the client sends after the headers *)
}.

Inductive log_record : Type :=
| INFO (msg : string)
| ERROR (msg : string) (e : exn).   (* the text [msg] followed by [str(e)] *)

Inductive wire_event : Type :=
| send_error (code : Z) (message : string)
| send_response (code : Z)
| send_header (keyword value : string)
| end_headers
| wfile_write_json (obj : pyval).   (* wfile.write(json.dumps(obj).encode('utf-8')) *)

Record World : Type := {
  ticks : nat;                 (* clock readings taken so far *)
  consumed : nat;              (* bytes taken from rfile *)
  logged : list log_record;    (* oldest first *)
  wire : list wire_event       (* oldest first *)
}.

Definition M (A : Type) : Type := World -> result A * World.

Definition ret {A} (a : A) : M A := fun w => (Return a, w).
Definition raise {A} (e : exn) : M A := fun w => (Raise e, w).
Definition bind {A B} (c : M A) (k : A -> M B) : M B :=
  fun w => match c w with
           | (Return a, w') => k a w'
           | (Raise e, w') => (Raise e, w')
           end.
Definition lift {A} (r : result A) : M A := fun w => (r, w).

(** [try: body / except ...: handler] *)
Definition try_except (body : M unit) (handler : exn -> M unit) : M unit :=
  fun w => match body w with
           | (Return a, w') => (Return a, w')
           | (Raise e, w') => handler e w'
           end.

Declare Scope py_scope.
Delimit Scope py_scope with py.
Notation "x <- c ;; k" := (bind c (fun x => k))
  (at level 61, c at next level, right associativity) : py_scope.
Notation "c ;;; k" := (bind c (fun _ => k))
  (at level 61, right associativity) : py_scope.
Open Scope py_scope.

(** The world after one more clock reading, after [k] more bytes of the
    body, with more log records, with more sent to the client. *)
Definition tick (w : World) : World :=
  {| ticks := S (ticks w); consumed := consumed w;
     logged := logged w; wire := wire w |}.

Definition taken (k : nat) (w : World) : World :=
  {| ticks := ticks w; consumed := consumed w + k;
     logged := logged w; wire := wire w |}.

Definition noted (records : list log_record) (w : World) : World :=
  {| ticks := ticks w; consumed := consumed w;
     logged := logged w ++ records; wire := wire w |}.

Definition sent (events : list wire_event) (w : World) : World :=
  {| ticks := ticks w; consumed := consumed w;
     logged := logged w; wire := wire w ++ events |}.

(** The line to the client.  [send_response] and [send_header] fill a
    buffer; [end_headers], [wfile.write] and [send_error] write to the
    socket, which raises an [OSError] when the client has gone.  A line
    tells, from the number of events there have been, whether a write
    gets through; [steady] is the line of a client that takes them all. *)
Definition Line : Type := nat -> bool.

Definition steady : Line := fun _ => true.

Definition writes (ev : wire_event) : bool :=
  match ev with
  | send_response _ | send_header _ _ => false
  | send_error _ _ | end_headers | wfile_write_json _ => true
  end.

Definition put (line : Line) (ev : wire_event) : M unit :=
  fun w =>
    if writes ev && negb (line (List.length (wire w)))
    then (Raise OSError, w)
    else (Return tt, sent [ev] w).

Definition logger_info (msg : string) : M unit :=
  fun w => (Return tt, noted [INFO msg] w).

Definition logger_error (msg : string) (e : exn) : M unit :=
  fun w => (Return tt, noted [ERROR msg e] w).

(** ** The runtime functions the script calls *)

Record Library : Type := {
  (** [urlparse(target).path]; [None] stands for [ValueError] *)
  urlparse_path : string -> option string;
  (** [int(s)] for a [str]; [None] stands for [ValueError] *)
  int_of_str : string -> option Z;
  (** [b.decode('utf-8')]; [None] stands for [UnicodeDecodeError] *)
  decode_utf8 : list Byte.byte -> option string;
  (** [json.loads(s)] *)
  json_loads : string -> result pyval;
  (** [str(v)] for an object that is not a [str] *)
  str_of_object : pyval -> string;
  (** whether the allocator grants the [n] bytes that [read(n)] asks for
      before it reads *)
  grants : Z -> bool
}.

(** ** Operations on Python objects *)

Module Py.

(** [d.get(key, default)] on the items of a [dict] *)
Fixpoint lookup (key : string) (items : list (string * pyval))
  : option pyval :=
  match items with
  | [] => None
  | (k, v) :: rest => if String.eqb k key then Some v else lookup key rest
  end.

(** [obj.get(key, default)]: only a [dict] has the method. *)
Definition get (obj : pyval) (key : string) (default : pyval)
  : result pyval :=
  match obj with
  | PyDict items =>
      Return (match lookup key items with Some v => v | None => default end)
  | _ => Raise AttributeError
  end.

(** [len(obj)] *)
Definition len (obj : pyval) : result nat :=
  match obj with
  | PyStr s => Return (String.length s)
  | PyList l => Return (List.length l)
  | PyDict d => Return (List.length d)
  | _ => Raise TypeError
  end.

Fixpoint chars (s : string) : list pyval :=
  match s with
  | EmptyString => []
  | String c t => PyStr (String c EmptyString) :: chars t
  end.

(** The items [for x in obj] visits: the elements of a list, the
    characters of a string, the keys of a dict. *)
Definition iter (obj : pyval) : result (list pyval) :=
  match obj with
  | PyList l => Return l
  | PyStr s => Return (chars s)
  | PyDict d => Return (map (fun kv => PyStr (fst kv)) d)
  | _ => Raise TypeError
  end.

(** [obj == 'user'] and the like: true of the equal string only. *)
Definition eq_str (obj : pyval) (s : string) : bool :=
  match obj with
  | PyStr t => String.eqb t s
  | _ => false
  end.

(** [text += obj] with [text] a [str] *)
Definition iadd_str (text : string) (obj : pyval) : result string :=
  match obj with
  | PyStr t => Return (text ++ t)
  | _ => Raise TypeError
  end.

(** [headers[name]]: the first header of that name, case ignored;
    [None] when there is none. *)
Fixpoint header (name : string) (hs : list (string * string))
  : option string :=
  match hs with
  | [] => None
  | (k, v) :: rest =>
      if String.eqb (Str.lower k) (Str.lower name) then Some v
      else header name rest
  end.

End Py.

(** [time.strftime('%Y-%m-%d %H:%M:%S', t)] *)
Definition strftime (t : struct_time) : string :=
  Str.of_Z (tm_year t) ++ "-" ++ Str.pad2 (tm_mon t) ++ "-"
  ++ Str.pad2 (tm_mday t) ++ " " ++ Str.pad2 (tm_hour t) ++ ":"
  ++ Str.pad2 (tm_min t) ++ ":" ++ Str.pad2 (tm_sec t).

(** ** The canned replies *)

Module Reply.
Import Str.

Definition greeting : string :=
  "Hello! I'm a mock AI assistant running in the Crowd Models test environment. How can I help you today?".

Definition name_head : string := "I'm a mock version of ".
Definition name_tail : string :=
  ", running on the Crowd Models decentralized network for testing purposes.".

Definition code : string :=
  "Here's a simple Python example:" ++ nl ++ nl
  ++ "```python" ++ nl
  ++ "def hello_world():" ++ nl
  ++ "    print(" ++ dquote ++ "Hello from the Crowd Models network!"
  ++ dquote ++ ")" ++ nl
  ++ "    return " ++ dquote ++ "Success" ++ dquote ++ nl ++ nl
  ++ "# This is a mock response for testing" ++ nl
  ++ "hello_world()" ++ nl
  ++ "```" ++ nl ++ nl
  ++ "This is a mock code response generated for testing the Crowd Models P2P network.".

Definition math : string :=
  "I can help with math! For example: 2 + 2 = 4, and the square root of 16 is 4. This is a mock mathematical response for testing purposes.".

Definition story : string :=
  "Once upon a time, in a decentralized network far, far away, there lived a mock AI assistant. This assistant helped test the Crowd Models P2P network by providing consistent responses to various prompts. "
  ++ nl ++ nl
  ++ "The assistant was happy to serve researchers and developers who were building the future of distributed AI systems. And they all lived efficiently ever after."
  ++ nl ++ nl
  ++ "*This is a mock story response for testing.*".

Definition fallback_head : string :=
  "This is a mock response generated by the test LLM server for the Crowd Models network."
  ++ nl ++ nl ++ "Your prompt was: " ++ dquote.
Definition fallback_model : string := dquote ++ nl ++ nl ++ "Model: ".
Definition fallback_time : string := nl ++ "Time: ".
Definition fallback_tail : string :=
  nl ++ nl
  ++ "This response is generated for testing purposes and demonstrates that the P2P network is functioning correctly.".

(** [{prompt[:100]}{'...' if len(prompt) > 100 else ''}] *)
Definition echo (prompt : string) : string :=
  take 100 prompt ++ (if Nat.ltb 100 (String.length prompt) then "..." else "").

Definition fallback (prompt model time : string) : string :=
  fallback_head ++ echo prompt ++ fallback_model ++ model
  ++ fallback_time ++ time ++ fallback_tail.

End Reply.

(** ** The handler *)

Section Handler.

Variable lib : Library.
Variable clock : nat -> Reading.   (* the successive readings of the system clock *)

(** [str(v)], as an f-string field renders [v] *)
Definition str (v : pyval) : string :=
  match v with
  | PyStr s => s
  | _ => str_of_object lib v
  end.

Definition read_clock : M Reading :=
  fun w => (Return (clock (ticks w)), tick w).

(** [int(time.time())] *)
Definition time_time_int : M Z :=
  r <- read_clock ;; ret (epoch r).

(** [time.strftime('%Y-%m-%d %H:%M:%S')] *)
Definition time_strftime : M string :=
  r <- read_clock ;; ret (strftime (localtime r)).

(** [int(self.headers[name])] *)
Definition int_of_header (self : Request) (name : string) : M Z :=
  match Py.header name (headers self) with
  | None => raise TypeError
  | Some s =>
      match int_of_str lib s with
      | Some n => ret n
      | None => raise ValueError
      end
  end.

(** What [self.rfile.read(n)] returns when [sofar] bytes were taken
    before: up to [n] bytes, everything left when [n] is -1.  [rfile]
    holds all that the client sends, so the read never waits. *)
Definition read_span (self : Request) (sofar : nat) (n : Z)
  : list Byte.byte :=
  let rest := skipn sofar (rfile self) in
  if (n <? 0)%Z then rest else firstn (Z.to_nat n) rest.

(** [self.rfile.read(n)] on the buffered reader of the socket.  The
    size is converted to a C [ssize_t] ([OverflowError] outside
    -2^63..2^63-1); a size below -1 is a [ValueError]; for a size from 0
    on, a [bytes] of that size is made before anything is read:
    [OverflowError] when the size and the 33 bytes of the object's header
    pass 2^63-1, [MemoryError] when the allocator refuses. *)
Definition rfile_read (self : Request) (n : Z) : M (list Byte.byte) :=
  fun w =>
    if ((n <? - 2 ^ 63) || (2 ^ 63 - 1 <? n))%Z then (Raise OverflowError, w)
    else if (n <? -1)%Z then (Raise ValueError, w)
    else if (2 ^ 63 - 34 <? n)%Z then (Raise OverflowError, w)
    else if ((0 <=? n) && negb (grants lib n))%Z then (Raise MemoryError, w)
    else
      let data := read_span self (consumed w) n in
      (Return data, taken (List.length data) w).

Definition generate_mock_response (prompt : string) (model : pyval)
  : M string :=
  let prompt_lower := Str.lower prompt in
  if Str.contains "hello" prompt_lower || Str.contains "hi" prompt_lower
  then ret Reply.greeting
  else if Str.contains "what" prompt_lower
          && Str.contains "name" prompt_lower
  then ret (Reply.name_head ++ str model ++ Reply.name_tail)
  else if Str.contains "code" prompt_lower
          || Str.contains "python" prompt_lower
  then ret Reply.code
  else if Str.contains "math" prompt_lower
          || Str.contains "calculate" prompt_lower
  then ret Reply.math
  else if Str.contains "story" prompt_lower
          || Str.contains "tale" prompt_lower
  then ret Reply.story
  else
    now <- time_strftime ;;
    ret (Reply.fallback prompt (str model) now).

(** The loop [for msg in messages: ...] over the items still to visit. *)
Fixpoint collect_prompt (msgs : list pyval) (prompt_text : string)
  : result string :=
  match msgs with
  | [] => Return prompt_text
  | msg :: rest =>
      match Py.get msg "role" PyNone with
      | Raise e => Raise e
      | Return role =>
          if Py.eq_str role "user" then
            match Py.get msg "content" (PyStr "") with
            | Raise e => Raise e
            | Return content =>
                match Py.iadd_str prompt_text content with
                | Raise e => Raise e
                | Return prompt_text' => collect_prompt rest prompt_text'
                end
            end
          else collect_prompt rest prompt_text
      end
  end.

(** [count * 1.3] for an [int] count *)
Definition scale (count : Z) : result spec_float :=
  match Float.of_int count with
  | Return n => Return (Float.mul n Float.lit_1_3)
  | Raise e => Raise e
  end.

(** [len(text.split()) * 1.3] *)
Definition estimate (text : string) : result spec_float :=
  scale (Z.of_nat (List.length (Str.split text))).

(** The dict literal bound to [response]. *)
Definition response_dict (id_time created : Z) (model : pyval)
    (mock_content : string) (usage_prompt usage_completion total_tokens : Z)
  : pyval :=
  PyDict [
    ("id", PyStr ("chatcmpl-" ++ Str.of_Z id_time));
    ("object", PyStr "chat.completion");
    ("created", PyInt created);
    ("model", model);
    ("choices", PyList [
       PyDict [
         ("index", PyInt 0);
         ("message", PyDict [("role", PyStr "assistant");
                             ("content", PyStr mock_content)]);
         ("finish_reason", PyStr "stop")]]);
    ("usage", PyDict [
       ("prompt_tokens", PyInt usage_prompt);
       ("completion_tokens", PyInt usage_completion);
       ("total_tokens", PyInt total_tokens)])].

(** The body of the [try] statement, on the line [line]. *)
Definition process_on (line : Line) (post_data : list Byte.byte) : M unit :=
  text <- lift (match decode_utf8 lib post_data with
                | Some s => Return s
                | None => Raise UnicodeDecodeError
                end) ;;
  request_data <- lift (json_loads lib text) ;;
  logged_model <- lift (Py.get request_data "model" (PyStr "unknown")) ;;
  logger_info ("Received request for model: " ++ str logged_model) ;;;
  logged_messages <- lift (Py.get request_data "messages" (PyList [])) ;;
  count <- lift (Py.len logged_messages) ;;
  logger_info ("Prompt length: " ++ Str.of_Z (Z.of_nat count)) ;;;
  model <- lift (Py.get request_data "model" (PyStr "gpt-3.5-turbo")) ;;
  messages <- lift (Py.get request_data "messages" (PyList [])) ;;
  max_tokens <- lift (Py.get request_data "max_tokens" (PyInt 150)) ;;
  temperature <- lift (Py.get request_data "temperature"
                         (PyFloat (S754_finite false 6305039478318694 (-53)))) ;;
  msgs <- lift (Py.iter messages) ;;
  prompt_text <- lift (collect_prompt msgs "") ;;
  mock_content <- generate_mock_response prompt_text model ;;
  prompt_tokens <- lift (estimate prompt_text) ;;
  completion_tokens <- lift (estimate mock_content) ;;
  total_tokens <- lift (Float.to_int (Float.add prompt_tokens completion_tokens)) ;;
  id_time <- time_time_int ;;
  created <- time_time_int ;;
  usage_prompt <- lift (Float.to_int prompt_tokens) ;;
  usage_completion <- lift (Float.to_int completion_tokens) ;;
  let response :=
    response_dict id_time created model mock_content
      usage_prompt usage_completion total_tokens in
  put line (send_response 200) ;;;
  put line (send_header "Content-Type" "application/json") ;;;
  put line end_headers ;;;
  put line (wfile_write_json response) ;;;
  logger_info ("Sent mock response with " ++ Str.of_Z total_tokens ++ " tokens").

(** The two [except] clauses. *)
Definition on_exception_on (line : Line) (e : exn) : M unit :=
  if is_JSONDecodeError e then put line (send_error 400 "Invalid JSON")
  else
    logger_error "Error processing request: " e ;;;
    put line (send_error 500 "Internal Server Error").

Definition do_POST_on (line : Line) (self : Request) : M unit :=
  parsed_path <- lift (match urlparse_path lib (path self) with
                       | Some p => Return p
                       | None => Raise ValueError
                       end) ;;
  if negb (String.eqb parsed_path "/chat/completions") then
    put line (send_error 404 "Not Found")
  else
    content_length <- int_of_header self "Content-Length" ;;
    post_data <- rfile_read self content_length ;;
    try_except (process_on line post_data) (on_exception_on line).

(** The handler with a client that takes all that is written to it. *)
Definition process (post_data : list Byte.byte) : M unit :=
  process_on steady post_data.

Definition on_exception (e : exn) : M unit := on_exception_on steady e.

Definition do_POST (self : Request) : M unit := do_POST_on steady self.

End Handler.

(** ** The server loop

    [main] hands the handler to [HTTPServer.serve_forever], which takes one
    connection after the other.  An exception that leaves [do_POST] is
    caught by the server ([handle_error]); the connection is closed without
    a response and the loop goes on.  [KeyboardInterrupt] is not modelled. *)

Inductive served : Type :=
| Handled                  (* the handler returned *)
| Dropped (e : exn).       (* the handler raised; no response was completed *)

Fixpoint serve_forever (lib : Library) (clock : nat -> Reading)
    (incoming : list Request) (w : World) : list served * World :=
  match incoming with
  | [] => ([], w)
  | self :: rest =>
      (* a new connection: nothing of its body has been read yet *)
      let w0 := {| ticks := ticks w; consumed := 0;
                   logged := logged w; wire := wire w |} in
      let '(r, w1) := do_POST lib clock self w0 in
      let '(out, w2) := serve_forever lib clock rest w1 in
      ((match r with Return _ => Handled | Raise e => Dropped e end) :: out, w2)
  end.

Definition fresh : World :=
  {| ticks := 0; consumed := 0; logged := []; wire := [] |}.

(** ** The reply rules as the specification words them

    An ordered table of (predicate, reply) pairs over the prompt, read top
    to bottom; a keyword occurs in a text when some stretch of the text
    equals it up to letter case. *)

Module Rules.

(** [c] is the letter [k] in either case: [k] itself or, for [k] one of
    a..z, its capital, which comes 32 places before it. *)
Definition same_letter (k c : ascii) : Prop :=
  c = k
  \/ (97 <= nat_of_ascii k <= 122 /\ nat_of_ascii c + 32 = nat_of_ascii k)%nat.

(** [kw] and [w] are equal up to case: letter by letter. *)
Fixpoint same_ignoring_case (kw w : string) : Prop :=
  match kw, w with
  | EmptyString, EmptyString => True
  | String k kw', String c w' => same_letter k c /\ same_ignoring_case kw' w'
  | _, _ => False
  end.

(** [kw] is written in the letters a..z. *)
Definition small (kw : string) : bool :=
  forallb (fun k => ((97 <=? nat_of_ascii k) && (nat_of_ascii k <=? 122))%nat)
    (list_ascii_of_string kw).

(** [kw] occurs in [text], case ignored. *)
Definition occurs (kw text : string) : Prop :=
  exists before w after,
    text = before ++ w ++ after /\ same_ignoring_case kw w.

Inductive rule : Type :=
| Greeting | Name | Code | Math | Story | Fallback.

Definition table : list rule := [Greeting; Name; Code; Math; Story; Fallback].

Definition matches (r : rule) (text : string) : Prop :=
  match r with
  | Greeting => occurs "hello" text \/ occurs "hi" text
  | Name => occurs "what" text /\ occurs "name" text
  | Code => occurs "code" text \/ occurs "python" text
  | Math => occurs "math" text \/ occurs "calculate" text
  | Story => occurs "story" text \/ occurs "tale" text
  | Fallback => True
  end.

(** [r] is the first rule of [rules] that matches [text]. *)
Inductive first_match (text : string) : list rule -> rule -> Prop :=
| fm_here r rest : matches r text -> first_match text (r :: rest) r
| fm_later r0 rest r :
    ~ matches r0 text -> first_match text rest r ->
    first_match text (r0 :: rest) r.

(** The reply a rule stands for; [model] and [time] are the rendered
    model name and clock string. *)
Definition reply_of (r : rule) (prompt model time : string) : string :=
  match r with
  | Greeting => Reply.greeting
  | Name => Reply.name_head ++ model ++ Reply.name_tail
  | Code => Reply.code
  | Math => Reply.math
  | Story => Reply.story
  | Fallback => Reply.fallback prompt model time
  end.

(** The message has the role [user]. *)
Definition from_user (m : list (string * pyval)) : bool :=
  match Py.lookup "role" m with
  | Some (PyStr r) => String.eqb r "user"
  | _ => false
  end.

(** The text of a message; none when it has no string content. *)
Definition content (m : list (string * pyval)) : string :=
  match Py.lookup "content" m with
  | Some (PyStr c) => c
  | _ => ""
  end.

(** The contents of the user-role messages, in message order, joined. *)
Fixpoint user_text (messages : list (list (string * pyval))) : string :=
  match messages with
  | [] => ""
  | m :: rest =>
      if from_user m then content m ++ user_text rest else user_text rest
  end.

End Rules.

(** ** Reading an exchange *)

(** [obj[key]] on a dict *)
Definition field (key : string) (obj : pyval) : option pyval :=
  match obj with
  | PyDict d => Py.lookup key d
  | _ => None
  end.

(** [response['choices'][0]['message']['content']] *)
Definition content_of (response : pyval) : option pyval :=
  match field "choices" response with
  | Some (PyList (choice :: _)) =>
      match field "message" choice with
      | Some message => field "content" message
      | None => None
      end
  | _ => None
  end.

(** [response['usage'][key]] *)
Definition usage_of (key : string) (response : pyval) : option pyval :=
  match field "usage" response with
  | Some usage => field key usage
  | None => None
  end.

(** Between [w] and [w'] the client was sent a 200 response whose body
    is [response], and nothing else. *)
Definition answers_200 (w w' : World) (response : pyval) : Prop :=
  wire w' = (wire w ++ [send_response 200;
                        send_header "Content-Type" "application/json";
                        end_headers;
                        wfile_write_json response])%list.

(** Between [w] and [w'] the client was sent the error [code], and
    nothing else. *)
Definition answers_error (w w' : World) (code : Z) (message : string) : Prop :=
  wire w' = (wire w ++ [send_error code message])%list.

(** In world [w] the handler reads [post_data] as the body of [self]:
    there is a Content-Length header, [int] accepts it, and [read] accepts
    the size and gets the memory for it. *)
Definition received (lib : Library) (self : Request) (w : World)
    (post_data : list Byte.byte) : Prop :=
  exists h n,
    Py.header "Content-Length" (headers self) = Some h
    /\ int_of_str lib h = Some n
    /\ (-1 <= n <= 2 ^ 63 - 34)%Z
    /\ ((0 <= n)%Z -> grants lib n = true)
    /\ post_data = read_span self (consumed w) n.

(** The body the handler reads is UTF-8 text that [json.loads] turns
    into [request_data]. *)
Definition json_body (lib : Library) (self : Request) (w : World)
    (request_data : pyval) : Prop :=
  exists post_data text,
    received lib self w post_data
    /\ decode_utf8 lib post_data = Some text
    /\ json_loads lib text = Return request_data.

(** The items of [request_data['messages']] are the objects [msgs]. *)
Definition message_objects (request_data : pyval)
    (msgs : list (list (string * pyval))) : Prop :=
  exists messages,
    Py.get request_data "messages" (PyList []) = Return messages
    /\ Py.iter messages = Return (map PyDict msgs).

(** The first rule of the table that matches, computed. *)
Definition select (prompt : string) : Rules.rule :=
  let t := Str.lower prompt in
  if Str.contains "hello" t || Str.contains "hi" t then Rules.Greeting
  else if Str.contains "what" t && Str.contains "name" t then Rules.Name
  else if Str.contains "code" t || Str.contains "python" t then Rules.Code
  else if Str.contains "math" t || Str.contains "calculate" t then Rules.Math
  else if Str.contains "story" t || Str.contains "tale" t then Rules.Story
  else Rules.Fallback.

(** The reply to the messages [ms] for [model], when [k] clock readings
    were taken before. *)
Definition reply_for (lib : Library) (clock : nat -> Reading) (k : nat)
    (ms : list (list (string * pyval))) (model : pyval) : string :=
  Rules.reply_of (select (Rules.user_text ms)) (Rules.user_text ms)
    (str lib model) (strftime (localtime (clock k))).

(** The index of the clock reading that gives the id: the fallback reply
    takes one reading before it. *)
Definition id_tick (k : nat) (prompt : string) : nat :=
  match select prompt with
  | Rules.Fallback => S k
  | _ => k
  end.

(** The number of whitespace-delimited words of a text. *)
Definition word_count (text : string) : Z :=
  Z.of_nat (List.length (Str.split text)).

(** floor(count * 13/10), in exact arithmetic *)
Definition floor_1_3 (count : Z) : Z := (13 * count) / 10.

(** The words of a text as the specification counts them: a word is a
    longest stretch of characters that are not white space, so there is
    one word for each character that is not white space and that opens
    the text or comes after white space. *)
Module Words.

(** White space among U+0000..U+00FF: TAB, LF, VT, FF, CR, the four
    separators FS, GS, RS, US, SPACE, NEL and NO-BREAK SPACE. *)
Definition blank (c : ascii) : bool :=
  existsb (Nat.eqb (nat_of_ascii c))
    [9; 10; 11; 12; 13; 28; 29; 30; 31; 32; 133; 160]%nat.

Fixpoint starts (after_blank : bool) (text : string) : nat :=
  match text with
  | EmptyString => O
  | String c rest =>
      if blank c then starts true rest
      else ((if after_blank then 1 else 0) + starts false rest)%nat
  end.

Definition count (text : string) : Z := Z.of_nat (starts true text).

End Words.

(** The [count] integers from [from] on *)
Fixpoint range (from : Z) (count : nat) : list Z :=
  match count with
  | O => []
  | S c => from :: range (from + 1) c
  end.

(** The fields of a [struct_time] are in the ranges of a calendar date
    with a four-digit year. *)
Definition calendar (t : struct_time) : Prop :=
  (1000 <= tm_year t <= 9999 /\ 1 <= tm_mon t <= 12 /\ 1 <= tm_mday t <= 31
   /\ 0 <= tm_hour t <= 23 /\ 0 <= tm_min t <= 59 /\ 0 <= tm_sec t <= 61)%Z.

(** The number that a string of decimal digits writes. *)
Fixpoint value_from (acc : Z) (s : string) : Z :=
  match s with
  | EmptyString => acc
  | String c t => value_from (10 * acc + Z.of_nat (nat_of_ascii c - 48)) t
  end.

(** [s] writes [n] in [k] decimal digits. *)
Definition numeral (k : nat) (n : Z) (s : string) : Prop :=
  Str.digits k s = true /\ value_from 0 s = n.

(** [s] reads YYYY-MM-DD HH:MM:SS, with the fields of [t]. *)
Definition timestamp (t : struct_time) (s : string) : Prop :=
  exists Y m d H M S,
    s = Y ++ "-" ++ m ++ "-" ++ d ++ " " ++ H ++ ":" ++ M ++ ":" ++ S
    /\ numeral 4 (tm_year t) Y /\ numeral 2 (tm_mon t) m
    /\ numeral 2 (tm_mday t) d /\ numeral 2 (tm_hour t) H
    /\ numeral 2 (tm_min t) M /\ numeral 2 (tm_sec t) S.

(** ** An executable instance of the runtime functions

    The instance follows CPython 3.11 on the alphabet of the development.
    Outside it stay: request targets whose authority holds a host in
    brackets (all rejected; CPython accepts those that are an IPv6 or
    IPvFuture address), UTF-8 sequences and [\u] escapes for code points
    above U+00FF (rejected), the limits of the interpreter (recursion
    depth, digits of an [int]), and the rendering by [str] of floats,
    lists and dicts.  The allocator is that of a machine that grants a
    gibibyte at most. *)

Module Reference.

Definition is_digit (c : ascii) : bool :=
  let n := nat_of_ascii c in ((48 <=? n) && (n <=? 57))%nat.

Definition digit_value (c : ascii) : Z := Z.of_nat (nat_of_ascii c - 48).

Definition is_char (c d : ascii) : bool := Ascii.eqb c d.

Fixpoint drop (n : nat) (s : string) : string :=
  match n, s with
  | S n', String _ t => drop n' t
  | _, _ => s
  end.

(** *** urlparse *)

(** What comes before the first character satisfying [stop], and the
    rest from that character on. *)
Fixpoint cut_at (stop : ascii -> bool) (s : string) : string * string :=
  match s with
  | EmptyString => (EmptyString, EmptyString)
  | String c t =>
      if stop c then (EmptyString, s)
      else let (a, b) := cut_at stop t in (String c a, b)
  end.

(** The text up to and with the last slash, and the last segment. *)
Fixpoint split_last_slash (s : string) : string * string :=
  match s with
  | EmptyString => (EmptyString, EmptyString)
  | String c t =>
      let (d, l) := split_last_slash t in
      if Str.contains "/" t then (String c d, l)
      else if is_char c "/" then (String c EmptyString, t)
      else (EmptyString, s)
  end.

(** What [urlsplit] strips on the left: the C0 controls and the space. *)
Fixpoint lstrip_c0 (s : string) : string :=
  match s with
  | String c t => if (nat_of_ascii c <=? 32)%nat then lstrip_c0 t else s
  | EmptyString => s
  end.

(** TAB, CR and LF are taken out wherever they stand. *)
Fixpoint without_breaks (s : string) : string :=
  match s with
  | String c t =>
      let n := nat_of_ascii c in
      if ((n =? 9) || (n =? 13) || (n =? 10))%nat then without_breaks t
      else String c (without_breaks t)
  | EmptyString => s
  end.

Definition is_letter (c : ascii) : bool :=
  let n := nat_of_ascii c in
  (((65 <=? n) && (n <=? 90)) || ((97 <=? n) && (n <=? 122)))%nat.

Definition scheme_char (c : ascii) : bool :=
  is_letter c || is_digit c || is_char c "+" || is_char c "-" || is_char c ".".

(** The scheme, in lower case, and what follows its colon; no scheme when
    the text before the first colon is empty, does not start with a
    letter or holds a character that no scheme has. *)
Definition split_scheme (url : string) : string * string :=
  let (before, rest) := cut_at (fun c => is_char c ":") url in
  match before, rest with
  | String c _, String _ after =>
      if is_letter c && forallb scheme_char (list_ascii_of_string before)
      then (Str.lower before, after)
      else (EmptyString, url)
  | _, _ => (EmptyString, url)
  end.

(** The schemes whose paths end at a semicolon. *)
Definition uses_params : list string :=
  [""; "ftp"; "hdl"; "prospero"; "http"; "imap"; "https"; "shttp"; "rtsp";
   "rtspu"; "sip"; "sips"; "mms"; "sftp"; "tel"].

Definition urlparse_path (target : string) : option string :=
  let (scheme, url) := split_scheme (without_breaks (lstrip_c0 target)) in
  let (netloc, after_netloc) :=
    if prefix "//" url then
      cut_at (fun c => is_char c "/" || is_char c "?" || is_char c "#")
        (drop 2 url)
    else (EmptyString, url) in
  if Str.contains "[" netloc || Str.contains "]" netloc then None
  else
    let no_fragment := fst (cut_at (fun c => is_char c "#") after_netloc) in
    let no_query := fst (cut_at (fun c => is_char c "?") no_fragment) in
    if existsb (String.eqb scheme) uses_params then
      let (dir, last) := split_last_slash no_query in
      Some (dir ++ fst (cut_at (fun c => is_char c ";") last))
    else Some no_query.

(** *** int *)

(** The blanks [int] skips around a number: those of [isspace] but the
    separators U+001C..U+001F. *)
Definition int_blank (c : ascii) : bool :=
  let n := nat_of_ascii c in
  (((9 <=? n) && (n <=? 13)) || (n =? 32) || (n =? 133) || (n =? 160))%nat.

Fixpoint lstrip (s : string) : string :=
  match s with
  | String c t => if int_blank c then lstrip t else s
  | EmptyString => s
  end.

Definition rev_string (s : string) : string :=
  string_of_list_ascii (rev (list_ascii_of_string s)).

Definition strip (s : string) : string :=
  rev_string (lstrip (rev_string (lstrip s))).

(** Decimal digits, single underscores allowed between two digits. *)
Fixpoint digits_value (s : string) (acc : Z) (after_digit : bool)
  : option Z :=
  match s with
  | EmptyString => if after_digit then Some acc else None
  | String c t =>
      if is_digit c then digits_value t (10 * acc + digit_value c) true
      else if is_char c "_" && after_digit then digits_value t acc false
      else None
  end.

Definition int_of_str (s : string) : option Z :=
  match strip s with
  | String "-" t => option_map Z.opp (digits_value t 0 false)
  | String "+" t => digits_value t 0 false
  | t => digits_value t 0 false
  end.

(** *** bytes.decode('utf-8') *)

Fixpoint decode_utf8 (bs : list Byte.byte) : option string :=
  match bs with
  | [] => Some EmptyString
  | b :: rest =>
      let n := Byte.to_nat b in
      if (n <? 128)%nat then
        option_map (String (ascii_of_nat n)) (decode_utf8 rest)
      else if ((n =? 194) || (n =? 195))%nat then
        match rest with
        | c :: rest' =>
            let m := Byte.to_nat c in
            if ((128 <=? m) && (m <=? 191))%nat then
              option_map (String (ascii_of_nat ((n - 194) * 64 + m)))
                (decode_utf8 rest')
            else None
        | [] => None
        end
      else None
  end.

(** *** float(str): the binary64 number nearest to [m * 10^e] *)

Definition float_of_decimal (neg : bool) (m : Z) (e : Z) : spec_float :=
  match m with
  | Zpos _ =>
      match e with
      | Zneg k =>
          let d := Z.pow 10 (Zpos k) in
          let shift := (64 + Zdigits2 d)%Z in
          let num := Z.shiftl m shift in
          let q := (num / d)%Z in
          let r := (num mod d)%Z in
          let loc := if (r =? 0)%Z then loc_Exact
                     else loc_Inexact (Z.compare (2 * r) d) in
          binary_round_aux Float.prec Float.emax neg q (- shift) loc
      | _ =>
          match binary_normalize Float.prec Float.emax (m * Z.pow 10 e) 0 false with
          | S754_finite _ mm ee => S754_finite neg mm ee
          | S754_infinity _ => S754_infinity neg
          | f => f
          end
      end
  | _ => S754_zero neg
  end.

(** *** json.loads *)

Definition is_ws (c : ascii) : bool :=
  let n := nat_of_ascii c in
  ((n =? 32) || (n =? 9) || (n =? 10) || (n =? 13))%nat.

Fixpoint skip_ws (s : string) : string :=
  match s with
  | String c t => if is_ws c then skip_ws t else s
  | EmptyString => s
  end.

Definition hex_value (c : ascii) : option nat :=
  let n := nat_of_ascii c in
  if ((48 <=? n) && (n <=? 57))%nat then Some (n - 48)
  else if ((65 <=? n) && (n <=? 70))%nat then Some (n - 55)
  else if ((97 <=? n) && (n <=? 102))%nat then Some (n - 87)
  else None.

Definition hex4 (a b c d : ascii) : option nat :=
  match hex_value a, hex_value b, hex_value c, hex_value d with
  | Some x, Some y, Some z, Some u => Some (((x * 16 + y) * 16 + z) * 16 + u)
  | _, _, _, _ => None
  end.

Definition simple_escape (c : ascii) : option ascii :=
  match nat_of_ascii c with
  | 34 => Some (ascii_of_nat 34)     (* quote *)
  | 92 => Some (ascii_of_nat 92)     (* backslash *)
  | 47 => Some (ascii_of_nat 47)     (* slash *)
  | 98 => Some (ascii_of_nat 8)      (* b *)
  | 102 => Some (ascii_of_nat 12)    (* f *)
  | 110 => Some (ascii_of_nat 10)    (* n *)
  | 114 => Some (ascii_of_nat 13)    (* r *)
  | 116 => Some (ascii_of_nat 9)     (* t *)
  | _ => None
  end.

(** A string, from after its opening quote; [acc] is reversed. *)
Fixpoint scan_string (s : string) (acc : list ascii)
  : option (string * string) :=
  match s with
  | EmptyString => None
  | String c t =>
      match nat_of_ascii c with
      | 34 => Some (string_of_list_ascii (rev acc), t)
      | 92 =>
          match t with
          | String e t' =>
              match simple_escape e with
              | Some ch => scan_string t' (ch :: acc)
              | None =>
                  match nat_of_ascii e, t' with
                  | 117, String h1 (String h2 (String h3 (String h4 t''))) =>
                      match hex4 h1 h2 h3 h4 with
                      | Some n =>
                          if (n <? 256)%nat
                          then scan_string t'' (ascii_of_nat n :: acc)
                          else None
                      | None => None
                      end
                  | _, _ => None
                  end
              end
          | EmptyString => None
          end
      | n => if (n <? 32)%nat then None else scan_string t (c :: acc)
      end
  end.

Fixpoint take_digits (s : string) : string * string :=
  match s with
  | String c t =>
      if is_digit c then let (ds, r) := take_digits t in (String c ds, r)
      else (EmptyString, s)
  | EmptyString => (EmptyString, EmptyString)
  end.

Fixpoint Z_of_digits (ds : string) (acc : Z) : Z :=
  match ds with
  | EmptyString => acc
  | String c t => Z_of_digits t (10 * acc + digit_value c)
  end.

(** A number: an optional minus sign; 0, or a nonzero digit and more
    digits; optionally a point and digits; optionally e or E, a sign and
    digits.  With a fraction or an exponent it is a float. *)
Definition scan_number (s : string) : option (pyval * string) :=
  let (neg, s1) := match s with
                   | String "-" t => (true, t)
                   | _ => (false, s)
                   end in
  match s1 with
  | String c t =>
      if is_digit c then
        let (ip, rest) := if is_char c "0" then ("0", t) else take_digits s1 in
        let (fp, rest1) :=
          match rest with
          | String "." t1 =>
              let (ds, r) := take_digits t1 in
              match ds with EmptyString => (EmptyString, rest) | _ => (ds, r) end
          | _ => (EmptyString, rest)
          end in
        let (ex, rest2) :=
          match rest1 with
          | String e t2 =>
              if is_char e "e" || is_char e "E" then
                let (eneg, t3) := match t2 with
                                  | String "-" u => (true, u)
                                  | String "+" u => (false, u)
                                  | _ => (false, t2)
                                  end in
                let (ds, r) := take_digits t3 in
                match ds with
                | EmptyString => (None, rest1)
                | _ => (Some (if eneg then (- Z_of_digits ds 0)%Z
                              else Z_of_digits ds 0), r)
                end
              else (None, rest1)
          | EmptyString => (None, rest1)
          end in
        match fp, ex with
        | EmptyString, None =>
            Some (PyInt (if neg then (- Z_of_digits ip 0)%Z
                         else Z_of_digits ip 0), rest2)
        | _, _ =>
            let e10 := match ex with Some e => e | None => 0%Z end in
            Some (PyFloat (float_of_decimal neg (Z_of_digits (ip ++ fp) 0)
                             (e10 - Z.of_nat (String.length fp))), rest2)
        end
      else None
  | EmptyString => None
  end.

Definition literal (word : string) (v : pyval) (s : string)
  : option (pyval * string) :=
  if prefix word s then Some (v, drop (String.length word) s) else None.

(** [dict[k] = v]: a key already there keeps its place. *)
Fixpoint dict_set (k : string) (v : pyval) (d : list (string * pyval))
  : list (string * pyval) :=
  match d with
  | [] => [(k, v)]
  | (k0, v0) :: rest =>
      if String.eqb k0 k then (k0, v) :: rest
      else (k0, v0) :: dict_set k v rest
  end.

Fixpoint scan_value (fuel : nat) (s : string) {struct fuel}
  : option (pyval * string) :=
  match fuel with
  | O => None
  | S fuel' =>
      match s with
      | EmptyString => None
      | String c t =>
          match nat_of_ascii c with
          | 34 =>
              match scan_string t [] with
              | Some (text, r) => Some (PyStr text, r)
              | None => None
              end
          | 123 =>
              match skip_ws t with
              | String "}" r => Some (PyDict [], r)
              | t1 => scan_members fuel' t1 []
              end
          | 91 =>
              match skip_ws t with
              | String "]" r => Some (PyList [], r)
              | t1 => scan_elements fuel' t1 []
              end
          | 110 => literal "null" PyNone s
          | 116 => literal "true" (PyBool true) s
          | 102 => literal "false" (PyBool false) s
          | 78 => literal "NaN" (PyFloat S754_nan) s
          | 73 => literal "Infinity" (PyFloat (S754_infinity false)) s
          | _ =>
              match scan_number s with
              | Some r => Some r
              | None => literal "-Infinity" (PyFloat (S754_infinity true)) s
              end
          end
      end
  end
with scan_elements (fuel : nat) (s : string) (acc : list pyval)
       {struct fuel} : option (pyval * string) :=
  match fuel with
  | O => None
  | S fuel' =>
      match scan_value fuel' s with
      | Some (v, r) =>
          match skip_ws r with
          | String "," r' => scan_elements fuel' (skip_ws r') (acc ++ [v])
          | String "]" r' => Some (PyList (acc ++ [v]), r')
          | _ => None
          end
      | None => None
      end
  end
with scan_members (fuel : nat) (s : string) (acc : list (string * pyval))
       {struct fuel} : option (pyval * string) :=
  match fuel with
  | O => None
  | S fuel' =>
      match s with
      | String c t =>
          if (nat_of_ascii c =? 34)%nat then
            match scan_string t [] with
            | Some (k, r) =>
                match skip_ws r with
                | String ":" r1 =>
                    match scan_value fuel' (skip_ws r1) with
                    | Some (v, r2) =>
                        match skip_ws r2 with
                        | String "," r3 =>
                            scan_members fuel' (skip_ws r3) (dict_set k v acc)
                        | String "}" r3 => Some (PyDict (dict_set k v acc), r3)
                        | _ => None
                        end
                    | None => None
                    end
                | _ => None
                end
            | None => None
            end
          else None
      | EmptyString => None
      end
  end.

Definition json_loads (s : string) : result pyval :=
  match scan_value (2 * String.length s + 2) (skip_ws s) with
  | Some (v, r) =>
      match skip_ws r with
      | EmptyString => Return v
      | _ => Raise JSONDecodeError
      end
  | None => Raise JSONDecodeError
  end.

(** *** str *)

Definition str_of_object (v : pyval) : string :=
  match v with
  | PyNone => "None"
  | PyBool true => "True"
  | PyBool false => "False"
  | PyInt n => Str.of_Z n
  | PyStr s => s
  | PyFloat _ => "<float>"
  | PyList _ => "<list>"
  | PyDict _ => "<dict>"
  end.

Definition library : Library :=
  Build_Library urlparse_path int_of_str decode_utf8 json_loads
    str_of_object (fun n => (n <=? 2 ^ 30)%Z).

(** *** time: the clock of a machine set to UTC *)

(** [time.gmtime(t)], by the days-to-civil-date computation on the
    proleptic Gregorian calendar. *)
Definition gmtime (t : Z) : struct_time :=
  let days := (t / 86400)%Z in
  let secs := (t mod 86400)%Z in
  let z := (days + 719468)%Z in
  let era := (z / 146097)%Z in
  let doe := (z - era * 146097)%Z in
  let yoe := ((doe - doe / 1460 + doe / 36524 - doe / 146096) / 365)%Z in
  let doy := (doe - (365 * yoe + yoe / 4 - yoe / 100))%Z in
  let mp := ((5 * doy + 2) / 153)%Z in
  let d := (doy - (153 * mp + 2) / 5 + 1)%Z in
  let m := (if (mp <? 10)%Z then mp + 3 else mp - 9)%Z in
  let y := (yoe + era * 400 + (if (m <=? 2)%Z then 1 else 0))%Z in
  {| tm_year := y; tm_mon := m; tm_mday := d;
     tm_hour := (secs / 3600)%Z; tm_min := ((secs mod 3600) / 60)%Z;
     tm_sec := (secs mod 60)%Z |}.

(** The clock whose successive readings fall in the seconds [seconds];
    past the list it stays at [rest]. *)
Definition clock_of (seconds : list Z) (rest : Z) (n : nat) : Reading :=
  let t := nth n seconds rest in
  {| epoch := t; localtime := gmtime t |}.

(** A clock that stays within one second, 2023-11-14 22:13:20 UTC. *)
Definition clock : nat -> Reading := clock_of [] 1700000000%Z.

(** A clock read just before and just after a second goes by. *)
Definition clock_on_the_edge : nat -> Reading :=
  clock_of [1699999999%Z] 1700000000%Z.

Definition post (target : string) (body : string) : Request :=
  {| path := target;
     headers := [("Content-Type", "application/json");
                 ("Content-Length",
                  Str.of_Z (Z.of_nat (String.length body)))];
     rfile := list_byte_of_string body |}.

(** *** Sample requests *)

Definition q : string := Str.dquote.

(** {"model":"test-model","messages":[{"role":"user","content":"hello there"}]} *)
Definition hello_body : string :=
  "{" ++ q ++ "model" ++ q ++ ":" ++ q ++ "test-model" ++ q ++ ","
  ++ q ++ "messages" ++ q ++ ":[{" ++ q ++ "role" ++ q ++ ":" ++ q ++ "user"
  ++ q ++ "," ++ q ++ "content" ++ q ++ ":" ++ q ++ "hello there" ++ q
  ++ "}]}".

(** {"messages":[]} *)
Definition empty_body : string := "{" ++ q ++ "messages" ++ q ++ ":[]}".

(** {"messages":[{"role":"user","content":"x"},7]} *)
Definition stray_body : string :=
  "{" ++ q ++ "messages" ++ q ++ ":[{" ++ q ++ "role" ++ q ++ ":" ++ q
  ++ "user" ++ q ++ "," ++ q ++ "content" ++ q ++ ":" ++ q ++ "x" ++ q
  ++ "},7]}".

Definition hello_request : Request := post "/chat/completions" hello_body.
Definition empty_request : Request := post "/chat/completions" empty_body.
Definition stray_request : Request := post "/chat/completions" stray_body.
Definition malformed_request : Request := post "/chat/completions" "not-json".
Definition list_request : Request := post "/chat/completions" "[1, 2]".
Definition unknown_request : Request := post "/unknown" hello_body.

(** A request without a Content-Length header. *)
Definition unsized_request : Request :=
  {| path := "/chat/completions";
     headers := [("Content-Type", "application/json")];
     rfile := list_byte_of_string hello_body |}.

(** A body of the single byte 0xFF, which no UTF-8 text contains. *)
Definition undecodable_request : Request :=
  {| path := "/chat/completions";
     headers := [("Content-Length", "1")];
     rfile := [Byte.xff] |}.

(** What a run sent as the body of its 200 response. *)
Definition body_sent (run : result unit * World) : pyval :=
  match rev (wire (snd run)) with
  | wfile_write_json response :: _ => response
  | _ => PyNone
  end.

(** *** Sample runs, each on a fresh world *)

Definition hello_run : result unit * World :=
  do_POST library clock hello_request fresh.
Definition edge_run : result unit * World :=
  do_POST library clock_on_the_edge hello_request fresh.
Definition unsized_run : result unit * World :=
  do_POST library clock unsized_request fresh.
Definition undecodable_run : result unit * World :=
  do_POST library clock undecodable_request fresh.

End Reference.

(** ** History, and a session of the server *)

(** The world [w] with the records [l] and the events [x] put before
    what it logged and sent. *)
Definition behind (l : list log_record) (x : list wire_event) (w : World)
  : World :=
  {| ticks := ticks w; consumed := consumed w;
     logged := l ++ logged w; wire := x ++ wire w |}.

(** A computation that neither reads nor alters what was logged and sent
    before it. *)
Definition framed {A : Type} (c : M A) : Prop :=
  forall l x w, c (behind l x w) = (fst (c w), behind l x (snd (c w))).

(** How the server loop records the end of a handler. *)
Definition served_of (r : result unit) : served :=
  match r with
  | Return _ => Handled
  | Raise e => Dropped e
  end.

(** The arguments [parser.parse_args()] gives. *)
Record Args : Type := {
  host : string;
  port : Z
}.

(** [main], after the arguments are parsed and the server is bound: the
    three start-up records, the connections [incoming] served one after
    the other, and then the interrupt from the keyboard, which is logged
    before the server is closed. *)
Definition main (lib : Library) (clock : nat -> Reading) (args : Args)
    (incoming : list Request) (w : World) : list served * World :=
  let w1 :=
    noted [INFO ("Mock LLM Server starting on http://" ++ host args ++ ":"
                 ++ Str.of_Z (port args));
           INFO "Endpoint: POST /chat/completions";
           INFO "Press Ctrl+C to stop the server"] w in
  let (out, w2) := serve_forever lib clock incoming w1 in
  (out, noted [INFO "Server stopped by user"] w2).


(** A message the loop accepts: one that is not from the user, or whose
    content is a string or is missing. *)
Definition acceptable (m : list (string * pyval)) : bool :=
  negb (Rules.from_user m)
  || match Py.lookup "content" m with
     | None => true
     | Some (PyStr _) => true
     | Some _ => false
     end.

(** The request [self] as sent with only the first [k] bytes of its
    body. *)
Definition cut_body (k : nat) (self : Request) : Request :=
  {| path := path self; headers := headers self;
     rfile := firstn k (rfile self) |}.

(** The world [w] with [n] for the number of bytes taken from the body. *)
Definition reset (n : nat) (w : World) : World :=
  {| ticks := ticks w; consumed := n; logged := logged w; wire := wire w |}.

(** A computation that neither reads nor alters the number of bytes
    taken from the body. *)
Definition blind {A : Type} (c : M A) : Prop :=
  forall n w, c (reset n w) = (fst (c w), reset n (snd (c w))).

(** The events that start an answer to the client. *)
Definition is_answer (ev : wire_event) : bool :=
  match ev with
  | send_error _ _ | send_response _ => true
  | _ => false
  end.

(** The number of answers sent so far. *)
Definition answers (w : World) : nat :=
  List.length (filter is_answer (wire w)).

(** The number of connections whose handler returned. *)
Definition handled (out : list served) : nat :=
  List.length (filter (fun s => match s with
                                | Handled => true
                                | Dropped _ => false
                                end) out).


(** ** More sample requests *)

Module Samples.

(** A Content-Length that is no number. *)
Definition unparsable_length_request : Request :=
  {| path := "/chat/completions";
     headers := [("Content-Length", "twelve")];
     rfile := list_byte_of_string Reference.empty_body |}.

(** {"messages":[{"role":"user","content":null}]} *)
Definition null_content_body : string :=
  "{" ++ Reference.q ++ "messages" ++ Reference.q ++ ":[{" ++ Reference.q
  ++ "role" ++ Reference.q ++ ":" ++ Reference.q ++ "user" ++ Reference.q
  ++ "," ++ Reference.q ++ "content" ++ Reference.q ++ ":null}]}".

Definition null_content_request : Request :=
  Reference.post "/chat/completions" null_content_body.

(** {"messages":5} *)
Definition number_messages_body : string :=
  "{" ++ Reference.q ++ "messages" ++ Reference.q ++ ":5}".

Definition number_messages_request : Request :=
  Reference.post "/chat/completions" number_messages_body.

(** The hello request followed by bytes that Content-Length leaves out. *)
Definition padded_request : Request :=
  {| path := "/chat/completions";
     headers := [("Content-Length", "75")];
     rfile := list_byte_of_string (Reference.hello_body ++ "trailing") |}.

(** A Content-Length that is no C [ssize_t], one below -1, and one that
    asks for more than the machine has. *)
Definition oversized_request : Request :=
  {| path := "/chat/completions";
     headers := [("Content-Length", "9223372036854775808")];
     rfile := list_byte_of_string Reference.empty_body |}.

Definition negative_request : Request :=
  {| path := "/chat/completions";
     headers := [("Content-Length", "-2")];
     rfile := list_byte_of_string Reference.empty_body |}.

Definition greedy_request : Request :=
  {| path := "/chat/completions";
     headers := [("Content-Length", "1099511627776")];
     rfile := list_byte_of_string Reference.empty_body |}.

(** A target that [urlparse] rejects: the authority opens a bracket that
    it does not close. *)
Definition bracket_request : Request :=
  Reference.post "http://[/chat/completions" Reference.hello_body.





(** A prompt of 120 characters that no keyword rule matches. *)
Definition long_prompt : string :=
  "Summarize the report about river deltas and sediment transport for a general audience, in two paragraphs at most, please".

(** A client that has gone: no write gets through. *)
Definition gone : Line := fun _ => false.

(** The object that the hello request carries. *)
Definition hello_messages : list (list (string * pyval)) :=
  [[("role", PyStr "user"); ("content", PyStr "hello there")]].

Definition hello_object : list (string * pyval) :=
  [("model", PyStr "test-model");
   ("messages", PyList (map PyDict hello_messages))].

(** The hello request with a max_tokens of 1 and a temperature of 0. *)
Definition capped_body : string :=
  "{" ++ Reference.q ++ "max_tokens" ++ Reference.q ++ ":1,"
  ++ Reference.q ++ "temperature" ++ Reference.q ++ ":0,"
  ++ Reference.q ++ "model" ++ Reference.q ++ ":" ++ Reference.q
  ++ "test-model" ++ Reference.q ++ ","
  ++ Reference.q ++ "messages" ++ Reference.q ++ ":[{" ++ Reference.q
  ++ "role" ++ Reference.q ++ ":" ++ Reference.q ++ "user"
  ++ Reference.q ++ "," ++ Reference.q ++ "content" ++ Reference.q ++ ":"
  ++ Reference.q ++ "hello there" ++ Reference.q ++ "}]}".

Definition capped_request : Request :=
  Reference.post "/chat/completions" capped_body.

Definition capped_object : list (string * pyval) :=
  [("max_tokens", PyInt 1); ("temperature", PyInt 0);
   ("model", PyStr "test-model");
   ("messages", PyList (map PyDict hello_messages))].

End Samples.

(** * Properties *)

(** ** Strings *)

Module StrFacts.

Lemma append_nil_r (s : string) : s ++ "" = s.
Proof. induction s as [|c s IH]; simpl; [reflexivity | now rewrite IH]. Qed.

Lemma append_assoc (a b c : string) : (a ++ b) ++ c = a ++ b ++ c.
Proof. induction a as [|x a IH]; simpl; [reflexivity | now rewrite IH]. Qed.

Lemma prefix_iff (n h : string) :
  prefix n h = true <-> exists r, h = n ++ r.
Proof.
  revert n. induction h as [|d h IH]; intros [|c n]; simpl.
  - split; [intros _; now exists "" | reflexivity].
  - split; [discriminate | intros [r Hr]; discriminate].
  - split; [intros _; now exists (String d h) | reflexivity].
  - destruct (ascii_dec c d) as [->|Hne].
    + rewrite IH. split; intros [r Hr].
      * exists r. now rewrite Hr.
      * exists r. now inversion Hr.
    + split; [discriminate|]. intros [r Hr]. inversion Hr. congruence.
Qed.

Lemma contains_iff (n h : string) :
  Str.contains n h = true <-> exists a b, h = a ++ n ++ b.
Proof.
  induction h as [|c h IH].
  - change (Str.contains n "") with (prefix n "").
    rewrite prefix_iff. split.
    + intros [r Hr]. now exists "", r.
    + intros [[|x a] [b Hb]]; simpl in Hb; [now exists b | discriminate].
  - change (Str.contains n (String c h))
      with (prefix n (String c h) || Str.contains n h)%bool.
    rewrite orb_true_iff, IH, prefix_iff. split.
    + intros [[r Hr] | [a [b Hab]]].
      * now exists "", r.
      * exists (String c a), b. simpl. now rewrite Hab.
    + intros [[|x a] [b Hb]]; simpl in Hb.
      * left. now exists b.
      * right. inversion Hb. now exists a, b.
Qed.

Lemma lower_app (a b : string) :
  Str.lower (a ++ b) = Str.lower a ++ Str.lower b.
Proof. induction a as [|c a IH]; simpl; [reflexivity | now rewrite IH]. Qed.

(** A split of the lower-cased text comes from a split of the text. *)
Lemma lower_split (s x y : string) :
  Str.lower s = x ++ y ->
  exists a b, s = a ++ b /\ Str.lower a = x /\ Str.lower b = y.
Proof.
  revert s. induction x as [|c x IH]; intros s H; simpl in H.
  - now exists "", s.
  - destruct s as [|d s]; simpl in H; [discriminate|].
    inversion H as [[Hc Hs]]. destruct (IH s Hs) as (a & b & -> & Ha & Hb).
    exists (String d a), b. simpl. now rewrite Ha.
Qed.

(** Lower-casing a character gives the small letter [k] exactly when
    the character is [k] or its capital. *)
Lemma lower_char_small (k c : ascii) :
  (97 <= nat_of_ascii k <= 122)%nat ->
  Str.lower_char c = k <-> Rules.same_letter k c.
Proof.
  intros Hk. unfold Str.lower_char, Rules.same_letter. cbv zeta.
  pose proof (nat_ascii_bounded c) as Bc.
  assert (Inj : forall x, nat_of_ascii c + 32 = nat_of_ascii x ->
                          ascii_of_nat (nat_of_ascii c + 32) = x).
  { intros x Hx. rewrite Hx. apply ascii_nat_embedding. }
  assert (Val : nat_of_ascii c + 32 < 256 ->
                forall x, ascii_of_nat (nat_of_ascii c + 32) = x ->
                          nat_of_ascii c + 32 = nat_of_ascii x).
  { intros Hb x Hx. rewrite <- Hx. symmetry. now apply nat_ascii_embedding. }
  destruct (Nat.leb_spec 65 (nat_of_ascii c));
    destruct (Nat.leb_spec (nat_of_ascii c) 90);
    destruct (Nat.leb_spec 192 (nat_of_ascii c));
    destruct (Nat.leb_spec (nat_of_ascii c) 222);
    destruct (Nat.eqb_spec (nat_of_ascii c) 215);
    cbn [andb orb negb]; try lia;
    (split;
     [ intros E;
       first [ left; exact E
             | right; split; [exact Hk|]; apply Val; [lia | exact E]
             | apply Val in E; [lia | lia] ]
     | intros [E|(_ & E)];
       first [ exact E
             | apply Inj; exact E
             | subst k; lia
             | lia ] ]).
Qed.

(** Lower-casing a word gives the keyword exactly when the word is the
    keyword, case ignored. *)
Lemma lower_same (kw w : string) :
  Rules.small kw = true ->
  Str.lower w = kw <-> Rules.same_ignoring_case kw w.
Proof.
  revert w. induction kw as [|k kw IH]; intros [|c w] Hs;
    cbn [Str.lower Rules.same_ignoring_case].
  - tauto.
  - split; [discriminate | contradiction].
  - split; [discriminate | contradiction].
  - unfold Rules.small in Hs. cbn [list_ascii_of_string forallb] in Hs.
    apply andb_true_iff in Hs. destruct Hs as (Hk & Hs).
    apply andb_true_iff in Hk. destruct Hk as (Hk1 & Hk2).
    apply Nat.leb_le in Hk1, Hk2.
    rewrite <- (IH w Hs), <- (lower_char_small k c (conj Hk1 Hk2)).
    split.
    + intros E. now inversion E.
    + intros (-> & ->). reflexivity.
Qed.

(** Looking for a keyword written in small letters in the lower-cased
    text is looking for it in the text with case ignored. *)
Lemma occurs_iff (kw text : string) :
  Rules.small kw = true ->
  Rules.occurs kw text <-> Str.contains kw (Str.lower text) = true.
Proof.
  intros Hs. rewrite contains_iff. unfold Rules.occurs. split.
  - intros (b & w & a & -> & Hw). apply (lower_same kw w Hs) in Hw.
    exists (Str.lower b), (Str.lower a). now rewrite !lower_app, Hw.
  - intros (x & y & H).
    destruct (lower_split _ _ _ H) as (b & rest & -> & Hb & Hrest).
    destruct (lower_split _ _ _ Hrest) as (w & a & -> & Hw & Ha).
    exists b, w, a. split; [reflexivity|]. now apply (lower_same kw w Hs).
Qed.

Lemma occurs_true (kw text : string) :
  Rules.small kw = true ->
  Str.contains kw (Str.lower text) = true -> Rules.occurs kw text.
Proof. intros Hs. now apply occurs_iff. Qed.

Lemma occurs_false (kw text : string) :
  Rules.small kw = true ->
  Str.contains kw (Str.lower text) = false -> ~ Rules.occurs kw text.
Proof. intros Hs H Ho. apply (occurs_iff kw text Hs) in Ho. congruence. Qed.

(** The two renderings of white space agree. *)
Lemma isspace_blank (c : ascii) : Str.isspace c = Words.blank c.
Proof. destruct c as [[] [] [] [] [] [] [] []]; reflexivity. Qed.

(** [split] gives as many words as the text has word starts. *)
Lemma split_aux_length (s : string) :
  forall cur acc,
    List.length (Str.split_aux s cur acc)
    = (List.length acc
       + match cur with
         | [] => Words.starts true s
         | _ :: _ => 1 + Words.starts false s
         end)%nat.
Proof.
  induction s as [|c s IH]; intros cur acc.
  - cbn [Str.split_aux Words.starts]. rewrite length_rev.
    destruct cur; cbn [Str.flush List.length]; lia.
  - cbn [Str.split_aux Words.starts]. rewrite isspace_blank.
    destruct (Words.blank c).
    + rewrite IH. destruct cur; cbn [Str.flush List.length]; lia.
    + rewrite IH. destruct cur; lia.
Qed.

Lemma word_count_words (s : string) : word_count s = Words.count s.
Proof.
  unfold word_count, Words.count, Str.split. rewrite split_aux_length.
  reflexivity.
Qed.

End StrFacts.

(** ** The rule table and [generate_mock_response] *)

Module RuleFacts.
Import Rules StrFacts.

Lemma first_match_unique text rules r1 r2 :
  first_match text rules r1 -> first_match text rules r2 -> r1 = r2.
Proof.
  intros H1. revert r2.
  induction H1 as [r rest Hm | r0 rest r Hn H1 IH]; intros r2 H2;
    inversion H2; subst; try reflexivity; try contradiction.
  now apply IH.
Qed.

Ltac keyword_cases :=
  repeat match goal with
    | H : (_ || _)%bool = true |- _ => apply orb_true_iff in H; destruct H
    | H : (_ || _)%bool = false |- _ => apply orb_false_iff in H; destruct H
    | H : (_ && _)%bool = true |- _ => apply andb_true_iff in H; destruct H
    | H : (_ && _)%bool = false |- _ =>
        apply andb_false_iff in H; destruct H
    | H : Str.contains _ (Str.lower _) = true |- _ =>
        apply occurs_true in H; [|reflexivity]
    | H : Str.contains _ (Str.lower _) = false |- _ =>
        apply occurs_false in H; [|reflexivity]
    end.

Ltac next_rule :=
  match goal with
  | |- first_match _ _ (if ?c then _ else _) =>
      let E := fresh "E" in
      destruct c eqn:E;
      [ apply fm_here; simpl; keyword_cases; tauto
      | apply fm_later; [simpl; keyword_cases; tauto|] ]
  end.

(** [select] computes the first matching rule of the table. *)
Lemma select_first_match text : first_match text table (select text).
Proof.
  unfold select, table. cbv zeta.
  do 5 next_rule. apply fm_here. exact I.
Qed.

Lemma first_match_select text r :
  first_match text table r -> r = select text.
Proof.
  intros H. eapply first_match_unique; [exact H | apply select_first_match].
Qed.


End RuleFacts.

(** ** Symbolic execution of the handler *)

Section HandlerFacts.

Variable lib : Library.
Variable clock : nat -> Reading.

(** [generate_mock_response] returns the reply of the selected rule; it
    reads the clock once, and only for the fallback reply. *)
Lemma generate_run prompt model w :
  generate_mock_response lib clock prompt model w =
    (Return (Rules.reply_of (select prompt) prompt (str lib model)
               (strftime (localtime (clock (ticks w))))),
     match select prompt with Rules.Fallback => tick w | _ => w end).
Proof.
  unfold generate_mock_response, select. cbv zeta.
  repeat match goal with
         | |- (if ?c then _ else _) _ = _ => destruct c; [reflexivity|]
         end.
  reflexivity.
Qed.

(** When the loop ends, every item was an object and the prompt is the
    text of the user messages. *)
Lemma collect_prompt_returns msgs acc p :
  collect_prompt msgs acc = Return p ->
  exists ms, msgs = map PyDict ms /\ p = acc ++ Rules.user_text ms.
Proof.
  revert acc. induction msgs as [|msg rest IH]; intros acc H; simpl in H.
  - exists []. inversion H. simpl. now rewrite StrFacts.append_nil_r.
  - destruct msg as [| | | | |l|d]; simpl in H; try discriminate.
    unfold Rules.user_text, Rules.from_user, Rules.content.
    fold Rules.user_text.
    destruct (Py.lookup "role" d) as [role|] eqn:Er; simpl in H.
    + destruct role as [| | | |r| |]; simpl in H;
        try (destruct (IH _ H) as (ms & -> & ->); exists (d :: ms);
             simpl; unfold Rules.from_user; rewrite Er; now split).
      destruct (String.eqb r "user") eqn:Eu.
      * destruct (Py.lookup "content" d) as [c|] eqn:Ec; simpl in H.
        -- destruct c; simpl in H; try discriminate.
           destruct (IH _ H) as (ms & -> & ->). exists (d :: ms).
           simpl. unfold Rules.from_user, Rules.content.
           rewrite Er, Ec, Eu. split; [reflexivity|].
           now rewrite StrFacts.append_assoc.
        -- destruct (IH _ H) as (ms & -> & ->). exists (d :: ms).
           simpl. unfold Rules.from_user, Rules.content.
           rewrite Er, Ec, Eu. split; [reflexivity|].
           now rewrite StrFacts.append_nil_r.
      * destruct (IH _ H) as (ms & -> & ->). exists (d :: ms).
        simpl. unfold Rules.from_user. rewrite Er, Eu. now split.
    + destruct (IH _ H) as (ms & -> & ->). exists (d :: ms).
      simpl. unfold Rules.from_user. rewrite Er. now split.
Qed.

(** An item that is not an object makes the loop raise, at that item
    or before it, with an AttributeError or a TypeError. *)
Lemma collect_prompt_raises msgs acc x :
  In x msgs -> (forall d, x <> PyDict d) ->
  exists e, collect_prompt msgs acc = Raise e
            /\ is_JSONDecodeError e = false.
Proof.
  intros Hin Hx. revert acc.
  induction msgs as [|msg rest IH]; intros acc; [contradiction|].
  simpl. destruct Hin as [->|Hin].
  - destruct x; simpl; eauto. now destruct (Hx items).
  - destruct msg; simpl; eauto.
    destruct (Py.eq_str _ "user"); [|now apply IH].
    destruct (match Py.lookup "content" items with
              | Some v => v
              | None => PyStr ""
              end); simpl; eauto.
Qed.

(** With a dict for body, the [try] statement gets to the loop; when the
    loop raises, so does the statement. *)
Lemma process_loop_raises post_data text d msgs e w :
  decode_utf8 lib post_data = Some text ->
  json_loads lib text = Return (PyDict d) ->
  Py.lookup "messages" d = Some (PyList msgs) ->
  collect_prompt msgs "" = Raise e ->
  exists w1, process lib clock post_data w = (Raise e, w1).
Proof.
  intros Hd Hl Hm Hc.
  unfold process, process_on, bind, lift, logger_info, ret. rewrite Hd, Hl.
  cbn [Py.get]. rewrite Hm. cbn [Py.len Py.iter]. rewrite Hc.
  eexists. reflexivity.
Qed.

Ltac unfold_effects H :=
  unfold process, process_on, time_time_int, read_clock in H;
  unfold bind, lift, ret, raise, logger_info, put, steady, writes in H;
  cbn beta iota in H; cbn [andb negb] in H; cbn beta iota in H.

Ltac step H :=
  match type of H with
  | match ?x with _ => _ end = _ =>
      let E := fresh "E" in destruct x eqn:E
  end.

Ltac world_quiet :=
  match goal with
  | H : (Raise _, _) = (Raise _, _) |- _ =>
      injection H; clear H; intros; subst
  end;
  repeat match goal with
         | |- context [match select ?p with _ => _ end] => destruct (select p)
         end;
  cbn [wire consumed logged ticks noted sent tick taken];
  (split; [reflexivity | split; [reflexivity|]]);
  eexists; rewrite <- ?app_assoc;
  first [ symmetry; apply app_nil_r | reflexivity ].

(** When the body of the [try] raises, nothing has been sent yet. *)
Lemma process_raises post_data w e w' :
  process lib clock post_data w = (Raise e, w') ->
  wire w' = wire w /\ consumed w' = consumed w
  /\ exists infos, logged w' = (logged w ++ infos)%list.
Proof.
  intros H. unfold_effects H.
  repeat (first [ rewrite generate_run in H; cbn beta iota in H
                | step H; try discriminate; try world_quiet ]).
Qed.

(** The same on any line, for an exception other than a failed write. *)
Lemma process_on_raises line post_data w e w' :
  process_on lib clock line post_data w = (Raise e, w') ->
  e <> OSError ->
  wire w' = wire w /\ consumed w' = consumed w
  /\ exists infos, logged w' = (logged w ++ infos)%list.
Proof.
  intros H Ho. unfold process_on, time_time_int, read_clock in H.
  unfold bind, lift, ret, raise, logger_info, put, writes in H.
  cbn beta iota in H. cbn [andb negb] in H. cbn beta iota in H.
  repeat (first [ rewrite generate_run in H; cbn beta iota in H
                | match goal with
                  | E : (if negb (line ?n) then _ else _) = (_, _) |- _ =>
                      destruct (line n); cbn [negb] in E;
                      injection E; clear E; intros; subst;
                      cbn beta iota in H;
                      try (exfalso; injection H; congruence)
                  end
                | step H; try discriminate; try world_quiet ]).
Qed.

(** When the body of the [try] returns, every step of it succeeded and
    the 200 response was sent. *)
Lemma process_returns post_data w w' :
  process lib clock post_data w = (Return tt, w') ->
  exists text request_data model messages ms pt ct total up uc,
    decode_utf8 lib post_data = Some text
    /\ json_loads lib text = Return request_data
    /\ Py.get request_data "model" (PyStr "gpt-3.5-turbo") = Return model
    /\ Py.get request_data "messages" (PyList []) = Return messages
    /\ Py.iter messages = Return (map PyDict ms)
    /\ estimate (Rules.user_text ms) = Return pt
    /\ estimate (reply_for lib clock (ticks w) ms model) = Return ct
    /\ Float.to_int (Float.add pt ct) = Return total
    /\ Float.to_int pt = Return up
    /\ Float.to_int ct = Return uc
    /\ answers_200 w w'
         (response_dict
            (epoch (clock (id_tick (ticks w) (Rules.user_text ms))))
            (epoch (clock (S (id_tick (ticks w) (Rules.user_text ms)))))
            model (reply_for lib clock (ticks w) ms model) up uc total)
    /\ ticks w' = S (S (id_tick (ticks w) (Rules.user_text ms)))
    /\ consumed w' = consumed w.
Proof.
  intros H. unfold_effects H.
  repeat (first [ rewrite generate_run in H; cbn beta iota in H
                | step H; try discriminate ]).
  destruct (decode_utf8 lib post_data) as [text|] eqn:Ed; [|discriminate].
  match goal with
  | Hc : collect_prompt _ "" = Return _ |- _ =>
      destruct (collect_prompt_returns _ _ _ Hc) as (ms & -> & Hp)
  end.
  simpl in Hp. subst.
  match goal with
  | Ht : Return _ = Return _ |- _ => inversion Ht; subst; clear Ht
  end.
  inversion H; subst; clear H.
  do 10 eexists.
  repeat match goal with |- _ /\ _ => split end; try eassumption;
    try reflexivity;
    unfold answers_200, id_tick, reply_for;
    destruct (select (Rules.user_text ms));
    cbn [wire ticks consumed logged noted sent tick];
    rewrite <- ?app_assoc; reflexivity.
Qed.

End HandlerFacts.


(** ** Numbers: token counts and clock strings *)

Module NumFacts.

Lemma In_range z from count :
  (from <= z < from + Z.of_nat count)%Z -> In z (range from count).
Proof.
  revert from. induction count as [|c IH]; intros from H; [lia|].
  simpl. destruct (Z.eq_dec from z) as [->|Hne]; [now left|].
  right. apply IH. lia.
Qed.

Lemma forall_range (P : Z -> bool) from count :
  forallb P (range from count) = true ->
  forall z, (from <= z < from + Z.of_nat count)%Z -> P z = true.
Proof.
  intros H z Hz. rewrite forallb_forall in H. apply H. now apply In_range.
Qed.

Lemma years_checked :
  forallb (fun y => Str.digits 4 (Str.of_Z y)
                    && (value_from 0 (Str.of_Z y) =? y)%Z)
    (range 1000 9000) = true.
Proof. vm_compute. reflexivity. Qed.

(** The year of a date is written in four digits. *)
Lemma year_numeral y :
  (1000 <= y <= 9999)%Z -> numeral 4 y (Str.of_Z y).
Proof.
  intros H. pose proof (forall_range _ _ _ years_checked y) as C.
  cbv beta in C.
  assert (B : (1000 <= y < 1000 + Z.of_nat 9000)%Z).
  { replace (Z.of_nat 9000) with 9000%Z by (vm_compute; reflexivity). lia. }
  specialize (C B). apply andb_true_iff in C. destruct C as (C1 & C2).
  apply Z.eqb_eq in C2. now split.
Qed.

Lemma pads_checked :
  forallb (fun v => Str.digits 2 (Str.pad2 v)
                    && (value_from 0 (Str.pad2 v) =? v)%Z)
    (range 0 100) = true.
Proof. vm_compute. reflexivity. Qed.

(** The other fields are written in two digits, with a zero before a
    single one. *)
Lemma pad2_numeral v :
  (0 <= v <= 99)%Z -> numeral 2 v (Str.pad2 v).
Proof.
  intros H. pose proof (forall_range _ _ _ pads_checked v) as C.
  cbv beta in C.
  assert (B : (0 <= v < 0 + Z.of_nat 100)%Z)
    by (change (Z.of_nat 100) with 100%Z; lia).
  specialize (C B). apply andb_true_iff in C. destruct C as (C1 & C2).
  apply Z.eqb_eq in C2. now split.
Qed.

(** A calendar date is rendered as YYYY-MM-DD HH:MM:SS, each field with
    its number. *)
Lemma strftime_timestamp t : calendar t -> timestamp t (strftime t).
Proof.
  intros (Hy & Hm & Hd & HH & HM & HS).
  exists (Str.of_Z (tm_year t)), (Str.pad2 (tm_mon t)), (Str.pad2 (tm_mday t)),
    (Str.pad2 (tm_hour t)), (Str.pad2 (tm_min t)), (Str.pad2 (tm_sec t)).
  split; [reflexivity|].
  split; [apply year_numeral; lia|].
  repeat (split; [apply pad2_numeral; lia|]).
  apply pad2_numeral; lia.
Qed.

Lemma take_prefix n s :
  exists rest, s = Str.take n s ++ rest
               /\ String.length (Str.take n s) = Nat.min n (String.length s).
Proof.
  revert s. induction n as [|n IH]; intros s.
  - exists s. now destruct s.
  - destruct s as [|c s]; [now exists ""|].
    destruct (IH s) as (rest & Hs & Hl). exists rest. simpl.
    rewrite <- Hs, Hl. now split.
Qed.

End NumFacts.

(** ** Binary64 arithmetic of the token estimate *)

Module FloatFacts.

Local Open Scope Z_scope.

(** The number of binary digits of a positive number. *)
Lemma digits2_bounds p :
  2 ^ (Zpos (digits2_pos p) - 1) <= Zpos p < 2 ^ Zpos (digits2_pos p).
Proof.
  induction p as [p IH|p IH|]; simpl digits2_pos.
  - rewrite Pos2Z.inj_succ, Z.pow_succ_r by lia.
    replace (Z.succ (Zpos (digits2_pos p)) - 1)
      with (Z.succ (Zpos (digits2_pos p) - 1)) by lia.
    rewrite Z.pow_succ_r by lia. lia.
  - rewrite Pos2Z.inj_succ, Z.pow_succ_r by lia.
    replace (Z.succ (Zpos (digits2_pos p)) - 1)
      with (Z.succ (Zpos (digits2_pos p) - 1)) by lia.
    rewrite Z.pow_succ_r by lia. lia.
  - simpl. lia.
Qed.

Lemma digits2_unique p k :
  2 ^ (k - 1) <= Zpos p < 2 ^ k -> Zpos (digits2_pos p) = k.
Proof.
  intros (Hl & Hu). pose proof (digits2_bounds p) as (Dl & Du).
  assert (0 < k).
  { destruct (Z.compare_spec k 0) as [->|Hk|Hk]; [simpl in Hu; lia| |lia].
    rewrite (Z.pow_neg_r 2 k) in Hu by lia. lia. }
  assert (Zpos (digits2_pos p) - 1 < k).
  { apply (Z.pow_lt_mono_r_iff 2); lia. }
  assert (k - 1 < Zpos (digits2_pos p)).
  { apply (Z.pow_lt_mono_r_iff 2); lia. }
  lia.
Qed.

Lemma iter_pos_nat {A} (f : A -> A) p x :
  iter_pos f p x = Nat.iter (Pos.to_nat p) f x.
Proof.
  revert x. induction p as [p IH|p IH|]; intros x; simpl iter_pos.
  - rewrite !IH, Pos2Nat.inj_xI, Nat.iter_succ_r, <- Nat.iter_add.
    f_equal. lia.
  - rewrite !IH, Pos2Nat.inj_xO, <- Nat.iter_add. f_equal. lia.
  - reflexivity.
Qed.

Lemma shr_1_m r : 0 <= shr_m r -> shr_m (shr_1 r) = shr_m r / 2.
Proof.
  destruct r as [m r s]. cbn [shr_m]. intros Hm.
  destruct m as [|[p|p|]|p]; cbn [shr_1 shr_m]; try lia.
  - reflexivity.
  - apply Z.div_unique with 1; lia.
  - apply Z.div_unique with 0; lia.
  - reflexivity.
Qed.

Lemma shr_iter_m k r :
  0 <= shr_m r -> shr_m (Nat.iter k shr_1 r) = shr_m r / 2 ^ Z.of_nat k.
Proof.
  intros Hm. induction k as [|k IH].
  - simpl. now rewrite Z.div_1_r.
  - assert (0 < 2 ^ Z.of_nat k) by (apply Z.pow_pos_nonneg; lia).
    rewrite Nat2Z.inj_succ, Z.pow_succ_r by lia.
    change (Nat.iter (S k) shr_1 r) with (shr_1 (Nat.iter k shr_1 r)).
    rewrite shr_1_m, IH.
    + rewrite Z.div_div by lia. f_equal. lia.
    + rewrite IH. apply Z.div_pos; lia.
Qed.

(** A right shift by [s] digits ([s] may be zero or negative: no shift). *)
Lemma shr_m_spec r e s :
  0 <= shr_m r ->
  shr_m (fst (shr r e s)) = shr_m r / 2 ^ Z.max 0 s
  /\ snd (shr r e s) = e + Z.max 0 s.
Proof.
  intros Hm. destruct s as [|p|p]; simpl.
  - rewrite Z.div_1_r. split; [reflexivity | lia].
  - rewrite iter_pos_nat, shr_iter_m by assumption.
    rewrite positive_nat_Z. split; [reflexivity | lia].
  - rewrite Z.div_1_r. split; [reflexivity | lia].
Qed.

Lemma round_nearest_even_bounds m l :
  m <= round_nearest_even m l <= m + 1.
Proof.
  destruct l as [|[]]; simpl; try lia. destruct (Z.even m); lia.
Qed.


(** The two flags after one more shift: the digit that was shifted out,
    and whether a digit other than zero was shifted out before it. *)
Lemma shr_1_flags r :
  0 <= shr_m r ->
  shr_r (shr_1 r) = Z.odd (shr_m r)
  /\ shr_s (shr_1 r) = (shr_r r || shr_s r)%bool.
Proof.
  destruct r as [m r s]. cbn [shr_m shr_r shr_s]. intros Hm.
  destruct m as [|[p|p|]|p]; cbn [shr_1 shr_r shr_s]; try lia;
    split; reflexivity.
Qed.

(** After [k] shifts of an exact number both flags are down exactly when
    the [k] digits shifted out are zeros. *)
Lemma shr_iter_sticky k m :
  0 <= m ->
  (shr_r (Nat.iter k shr_1 (shr_record_of_loc m loc_Exact))
   || shr_s (Nat.iter k shr_1 (shr_record_of_loc m loc_Exact)))%bool = false
  <-> m mod 2 ^ Z.of_nat k = 0.
Proof.
  intros Hm. induction k as [|k IH].
  - simpl. rewrite Z.mod_1_r. tauto.
  - change (Nat.iter (S k) shr_1 (shr_record_of_loc m loc_Exact))
      with (shr_1 (Nat.iter k shr_1 (shr_record_of_loc m loc_Exact))).
    set (r := Nat.iter k shr_1 (shr_record_of_loc m loc_Exact)) in *.
    assert (Hr : shr_m r = m / 2 ^ Z.of_nat k)
      by (unfold r; now rewrite shr_iter_m).
    assert (P : 0 < 2 ^ Z.of_nat k) by (apply Z.pow_pos_nonneg; lia).
    assert (Hr0 : 0 <= shr_m r) by (rewrite Hr; apply Z.div_pos; lia).
    destruct (shr_1_flags r Hr0) as (-> & ->). rewrite Hr.
    rewrite Nat2Z.inj_succ, Z.pow_succ_r, (Z.mul_comm 2) by lia.
    rewrite Z.rem_mul_r by lia.
    pose proof (Z.mod_pos_bound m (2 ^ Z.of_nat k) P) as B.
    rewrite (Zmod_odd (m / 2 ^ Z.of_nat k)).
    rewrite orb_false_iff, IH.
    destruct (Z.odd (m / 2 ^ Z.of_nat k)); split.
    + intros (D & _). discriminate.
    + intros E. lia.
    + intros (_ & E). lia.
    + intros E. split; [reflexivity | lia].
Qed.

(** Rounding after [k] shifts of an exact number is rounding to nearest:
    the result is within half a unit of the number. *)
Lemma shr_iter_near k m :
  0 <= m ->
  2 * m - 2 ^ Z.of_nat k
  <= 2 * (round_nearest_even
            (shr_m (Nat.iter k shr_1 (shr_record_of_loc m loc_Exact)))
            (loc_of_shr_record
               (Nat.iter k shr_1 (shr_record_of_loc m loc_Exact)))
          * 2 ^ Z.of_nat k)
  <= 2 * m + 2 ^ Z.of_nat k.
Proof.
  intros Hm. destruct k as [|k].
  - change (Nat.iter 0 shr_1 (shr_record_of_loc m loc_Exact))
      with (shr_record_of_loc m loc_Exact).
    cbn [shr_record_of_loc loc_of_shr_record shr_m shr_r shr_s
         round_nearest_even].
    change (2 ^ Z.of_nat 0) with 1. lia.
  - change (Nat.iter (S k) shr_1 (shr_record_of_loc m loc_Exact))
      with (shr_1 (Nat.iter k shr_1 (shr_record_of_loc m loc_Exact))).
    pose proof (shr_iter_sticky k m Hm) as St.
    set (r := Nat.iter k shr_1 (shr_record_of_loc m loc_Exact)) in *.
    assert (Hr : shr_m r = m / 2 ^ Z.of_nat k)
      by (unfold r; now rewrite shr_iter_m).
    assert (P : 0 < 2 ^ Z.of_nat k) by (apply Z.pow_pos_nonneg; lia).
    assert (Hr0 : 0 <= shr_m r) by (rewrite Hr; apply Z.div_pos; lia).
    destruct (shr_1_flags r Hr0) as (Fr & Fs).
    pose proof (shr_1_m r Hr0) as Fm.
    destruct (shr_1 r) as [m' r' s']. cbn [shr_m shr_r shr_s] in *.
    subst m' r' s'. rewrite Hr in *.
    rewrite Nat2Z.inj_succ, Z.pow_succ_r by lia.
    set (E := 2 ^ Z.of_nat k) in *.
    pose proof (Z.div_mod m E ltac:(lia)) as D1.
    pose proof (Z.mod_pos_bound m E P) as B1.
    pose proof (Z.div_mod (m / E) 2 ltac:(lia)) as D2.
    rewrite (Zmod_odd (m / E)) in D2.
    set (a := m / E / 2) in *.
    assert (X : E * (m / E) = 2 * (a * E) + E * (if Z.odd (m / E) then 1 else 0))
      by (rewrite D2 at 1; ring).
    destruct (Z.odd (m / E));
      destruct (shr_r r || shr_s r)%bool eqn:Sk; cbn [loc_of_shr_record round_nearest_even].
    + (* above the middle *)
      assert (m mod E <> 0) by (intros Z0; apply St in Z0; discriminate).
      replace ((a + 1) * (2 * E)) with (2 * (a * E) + 2 * E) by ring. lia.
    + (* in the middle *)
      assert (m mod E = 0) by (now apply St).
      destruct (Z.even a).
      * replace (a * (2 * E)) with (2 * (a * E)) by ring. lia.
      * replace ((a + 1) * (2 * E)) with (2 * (a * E) + 2 * E) by ring. lia.
    + replace (a * (2 * E)) with (2 * (a * E)) by ring. lia.
    + replace (a * (2 * E)) with (2 * (a * E)) by ring. lia.
Qed.

Lemma shr_near m e s :
  0 <= m ->
  2 * m - 2 ^ Z.max 0 s
  <= 2 * (round_nearest_even
            (shr_m (fst (shr (shr_record_of_loc m loc_Exact) e s)))
            (loc_of_shr_record
               (fst (shr (shr_record_of_loc m loc_Exact) e s)))
          * 2 ^ Z.max 0 s)
  <= 2 * m + 2 ^ Z.max 0 s.
Proof.
  intros Hm. destruct s as [|p|p]; cbn [shr fst].
  - apply (shr_iter_near 0 m Hm).
  - rewrite iter_pos_nat.
    replace (Z.max 0 (Zpos p)) with (Z.of_nat (Pos.to_nat p))
      by (rewrite positive_nat_Z; lia).
    apply (shr_iter_near (Pos.to_nat p) m Hm).
  - apply (shr_iter_near 0 m Hm).
Qed.

Lemma fexp_eq x : fexp 53 1024 x = Z.max (x - 53) (-1074).
Proof. reflexivity. Qed.

(** What [binary_round_aux] computes from an exact positive mantissa: a
    right shift by [s1] digits, a rounding that adds at most one, and a
    second shift by [s2] digits when the rounding carried. *)
Lemma binary_round_aux_spec m e :
  0 < m ->
  exists q,
    m / 2 ^ Z.max 0 (fexp 53 1024 (Zdigits2 m + e) - e) <= q
    /\ q <= m / 2 ^ Z.max 0 (fexp 53 1024 (Zdigits2 m + e) - e) + 1
    /\ (fexp 53 1024 (Zdigits2 m + e) - e <= 0 -> q = m)
    /\ 2 * m - 2 ^ Z.max 0 (fexp 53 1024 (Zdigits2 m + e) - e)
       <= 2 * (q * 2 ^ Z.max 0 (fexp 53 1024 (Zdigits2 m + e) - e))
       <= 2 * m + 2 ^ Z.max 0 (fexp 53 1024 (Zdigits2 m + e) - e)
    /\ binary_round_aux 53 1024 false m e loc_Exact
       = match q / 2 ^ Z.max 0 (fexp 53 1024
                                  (Zdigits2 q + (e + Z.max 0 (fexp 53 1024 (Zdigits2 m + e) - e)))
                                - (e + Z.max 0 (fexp 53 1024 (Zdigits2 m + e) - e))) with
         | Z0 => S754_zero false
         | Zpos r =>
             if e + Z.max 0 (fexp 53 1024 (Zdigits2 m + e) - e)
                + Z.max 0 (fexp 53 1024
                             (Zdigits2 q + (e + Z.max 0 (fexp 53 1024 (Zdigits2 m + e) - e)))
                           - (e + Z.max 0 (fexp 53 1024 (Zdigits2 m + e) - e)))
                <=? 1024 - 53
             then S754_finite false r
                    (e + Z.max 0 (fexp 53 1024 (Zdigits2 m + e) - e)
                     + Z.max 0 (fexp 53 1024
                                  (Zdigits2 q + (e + Z.max 0 (fexp 53 1024 (Zdigits2 m + e) - e)))
                                - (e + Z.max 0 (fexp 53 1024 (Zdigits2 m + e) - e))))
             else S754_infinity false
         | Zneg _ => S754_nan
         end.
Proof.
  intros Hm.
  set (s := fexp 53 1024 (Zdigits2 m + e) - e).
  unfold binary_round_aux, shr_fexp. fold s.
  pose proof (shr_m_spec (shr_record_of_loc m loc_Exact) e s
                ltac:(simpl; lia)) as S1.
  pose proof (shr_near m e s ltac:(lia)) as N1.
  destruct (shr (shr_record_of_loc m loc_Exact) e s) as [mrs' e'] eqn:E1.
  cbn [fst] in N1.
  cbn [fst snd shr_record_of_loc shr_m] in S1. destruct S1 as (S1m & S1e).
  set (q := round_nearest_even (shr_m mrs') (loc_of_shr_record mrs')).
  exists q.
  pose proof (round_nearest_even_bounds (shr_m mrs') (loc_of_shr_record mrs'))
    as Hq. fold q in Hq. rewrite S1m in Hq.
  assert (0 < 2 ^ Z.max 0 s) by (apply Z.pow_pos_nonneg; lia).
  assert (0 <= m / 2 ^ Z.max 0 s) by (apply Z.div_pos; lia).
  split; [lia|]. split; [lia|]. split; [|split; [exact N1|]].
  - intros Hs. unfold q.
    assert (mrs' = shr_record_of_loc m loc_Exact) as ->.
    { revert E1 Hs. generalize s. intros [|p|p] E1 Hs; simpl in E1;
        try lia; now injection E1 as <- _. }
    reflexivity.
  - subst e'.
    pose proof (shr_m_spec (shr_record_of_loc q loc_Exact) (e + Z.max 0 s)
                  (fexp 53 1024 (Zdigits2 q + (e + Z.max 0 s))
                   - (e + Z.max 0 s)) ltac:(simpl; lia)) as S2.
    destruct (shr (shr_record_of_loc q loc_Exact) (e + Z.max 0 s) _)
      as [mrs'' e''] eqn:E2.
    cbn [fst snd shr_record_of_loc shr_m] in S2. destruct S2 as (S2m & S2e).
    rewrite S2m, S2e. reflexivity.
Qed.

Lemma pos_iter_xO k p : Zpos (Pos.iter xO p k) = Zpos p * 2 ^ Zpos k.
Proof.
  induction k as [|k IH] using Pos.peano_ind.
  - simpl. lia.
  - rewrite Pos.iter_succ, Pos2Z.inj_succ, Z.pow_succ_r by lia.
    rewrite Pos2Z.inj_xO, IH. lia.
Qed.


Lemma digits2_le p k : Zpos p < 2 ^ k -> Zpos (digits2_pos p) <= k.
Proof.
  intros H. pose proof (digits2_bounds p) as (Dl & _).
  assert (Zpos (digits2_pos p) - 1 < k); [|lia].
  apply (Z.pow_lt_mono_r_iff 2); try lia.
  destruct (Z.ltb_spec k 0); [|lia].
  rewrite (Z.pow_neg_r 2 k) in H by lia. lia.
Qed.

(** [float(n)] for 0 < n < 2^53 is exact, with a mantissa of 53 digits. *)
Lemma of_int_exact p :
  Zpos p < 2 ^ 53 ->
  exists mz,
    Float.of_int (Zpos p)
    = Return (S754_finite false mz (Zpos (digits2_pos p) - 53))
    /\ Zpos mz = Zpos p * 2 ^ (53 - Zpos (digits2_pos p))
    /\ 2 ^ 52 <= Zpos mz < 2 ^ 53.
Proof.
  intros Hp. pose proof (digits2_bounds p) as (Dl & Du).
  pose proof (digits2_le p 53 Hp) as Dle.
  set (d := Zpos (digits2_pos p)) in *.
  assert (0 < 2 ^ (53 - d)) by (apply Z.pow_pos_nonneg; lia).
  assert (Hmz : exists mz, shl_align p 0 (d - 53) = (mz, d - 53)
                           /\ Zpos mz = Zpos p * 2 ^ (53 - d)).
  { unfold shl_align. destruct (d - 53 - 0) as [|k|k] eqn:Ek; try lia.
    - exists p. replace (d - 53) with 0 by lia.
      replace (53 - d) with 0 by lia. split; [reflexivity | lia].
    - exists (Pos.iter xO p k). split; [reflexivity|].
      rewrite pos_iter_xO. f_equal. f_equal. lia. }
  destruct Hmz as (mz & Hal & Hmz). exists mz.
  assert (Hb : 2 ^ 52 <= Zpos mz < 2 ^ 53).
  { rewrite Hmz. split.
    - replace (2 ^ 52) with (2 ^ (d - 1) * 2 ^ (53 - d)).
      + apply Z.mul_le_mono_nonneg_r; lia.
      + rewrite <- Z.pow_add_r by lia. f_equal. lia.
    - replace (2 ^ 53) with (2 ^ d * 2 ^ (53 - d)).
      + apply Z.mul_lt_mono_pos_r; lia.
      + rewrite <- Z.pow_add_r by lia. f_equal. lia. }
  split; [|split; assumption].
  unfold Float.of_int, binary_normalize, binary_round. fold d.
  unfold Float.prec, Float.emax.
  replace (fexp 53 1024 (d + 0)) with (d - 53)
    by (rewrite fexp_eq; lia).
  rewrite Hal.
  destruct (binary_round_aux_spec (Zpos mz) (d - 53) ltac:(lia))
    as (q & _ & _ & Hq & _ & ->).
  assert (Dm : Zdigits2 (Zpos mz) = 53).
  { cbn [Zdigits2]. apply digits2_unique. lia. }
  rewrite Dm in *. rewrite fexp_eq in Hq.
  rewrite (Hq ltac:(lia)). rewrite Dm. rewrite !fexp_eq.
  replace (Z.max 0 (Z.max (53 + (d - 53) - 53) (-1074) - (d - 53))) with 0
    by lia.
  replace (Z.max 0 (Z.max (53 + (d - 53 + 0) - 53) (-1074) - (d - 53 + 0)))
    with 0 by lia.
  rewrite Z.div_1_r.
  destruct (Z.leb_spec (d - 53 + 0 + 0) (1024 - 53)); [|lia].
  replace (d - 53 + 0 + 0) with (d - 53) by lia. reflexivity.
Qed.


Lemma digits2_ge p k : 2 ^ k <= Zpos p -> k < Zpos (digits2_pos p).
Proof.
  intros H. pose proof (digits2_bounds p) as (_ & Du).
  destruct (Z.ltb_spec k 0); [lia|].
  apply (Z.pow_lt_mono_r_iff 2); lia.
Qed.

(** The quotient of [q] by [U], from the two products that enclose [q]. *)
Lemma div_between q U K Y : Y = K * U -> Y <= q < Y + U -> q / U = K.
Proof.
  intros -> H. symmetry. apply Z.div_unique with (q - K * U); lia.
Qed.

(** [count * 1.3] for 0 < count < 2^47: a positive binary64 number
    [r * 2^e] below 2^48, within two tenths of its last digit below, and
    eight tenths above, 13 count / 10. *)
Lemma scale_near p :
  Zpos p < 2 ^ 47 ->
  exists r e,
    scale (Zpos p) = Return (S754_finite false r e)
    /\ -52 <= e <= -5
    /\ 2 ^ 52 <= Zpos r < 2 ^ 53
    /\ 13 * (Zpos p * 2 ^ (- e)) <= 10 * Zpos r + 2
    /\ 10 * Zpos r <= 13 * (Zpos p * 2 ^ (- e)) + 8.
Proof.
  intros Hp.
  destruct (of_int_exact p ltac:(lia)) as (mz & Hof & Hmz & Hb).
  pose proof (digits2_le p 47 Hp) as Dle.
  pose proof (digits2_bounds p) as (Dl & Du).
  set (d := Zpos (digits2_pos p)) in *.
  assert (1 <= d) by (unfold d; lia).
  unfold scale. rewrite Hof. unfold Float.mul, Float.lit_1_3, SFmul.
  cbn [xorb]. unfold Float.prec, Float.emax.
  rewrite Pos2Z.inj_mul.
  set (m := Zpos mz * 5854679515581645).
  assert (Hm : 2 ^ 104 <= m < 2 ^ 106) by (unfold m; lia).
  destruct (binary_round_aux_spec m (d - 53 + -52) ltac:(lia))
    as (q & Hq1 & Hq2 & _ & Hn & ->).
  assert (HD : Zdigits2 m = 105 \/ Zdigits2 m = 106).
  { unfold m. rewrite <- Pos2Z.inj_mul. simpl Zdigits2.
    pose proof (digits2_le (mz * 5854679515581645) 106) as U1.
    pose proof (digits2_ge (mz * 5854679515581645) 104) as U2.
    rewrite Pos2Z.inj_mul in U1, U2. fold m in U1, U2. lia. }
  assert (HmD : 2 ^ (Zdigits2 m - 1) <= m < 2 ^ Zdigits2 m).
  { unfold m. rewrite <- Pos2Z.inj_mul. apply digits2_bounds. }
  rewrite !fexp_eq in *.
  (* the weights of the last digits *)
  set (V := 2 ^ (51 - d)).
  assert (HV : 16 <= V).
  { unfold V. change 16 with (2 ^ 4). apply Z.pow_le_mono_r; lia. }
  assert (HU : 2 ^ (52 - d) = 2 * V).
  { unfold V. rewrite <- Z.pow_succ_r by lia. f_equal. lia. }
  assert (HW : 2 ^ (53 - d) = 4 * V).
  { replace (53 - d) with (Z.succ (52 - d)) by lia.
    rewrite Z.pow_succ_r, HU by lia. ring. }
  rewrite HW in Hmz.
  set (X := Zpos p * V) in *.
  assert (HX : Zpos mz = 4 * X) by (rewrite Hmz; unfold X; ring).
  destruct HD as [HD|HD]; rewrite HD in *.
  - (* 105 digits: a shift by 52 *)
    replace (Z.max 0 (Z.max (105 + (d - 53 + -52) - 53) (-1074)
                      - (d - 53 + -52))) with 52 in * by lia.
    assert (Hm1 : 2 ^ 52 * (m / 2 ^ 52) <= m < 2 ^ 52 * (m / 2 ^ 52) + 2 ^ 52).
    { pose proof (Z.div_mod m (2 ^ 52) ltac:(lia)).
      pose proof (Z.mod_pos_bound m (2 ^ 52) ltac:(lia)). lia. }
    set (m1 := m / 2 ^ 52) in *.
    assert (Hqb : 2 ^ 52 <= q <= 2 ^ 53) by (simpl Z.sub in HmD; lia).
    assert (HL : 26 * X <= 5 * q + 1) by (unfold m in Hn; lia).
    assert (HR : 5 * q <= 26 * X + 4) by (unfold m in Hn; lia).
    destruct (Z.eq_dec q (2 ^ 53)) as [Hq53|Hq53].
    + (* the rounding carried *)
      subst q. change (Zdigits2 (2 ^ 53)) with 54.
      replace (Z.max 0 (Z.max (54 + (d - 53 + -52 + 52) - 53) (-1074)
                        - (d - 53 + -52 + 52))) with 1 by lia.
      change (2 ^ 53 / 2 ^ 1) with (Zpos (2 ^ 52)).
      destruct (Z.leb_spec (d - 53 + -52 + 52 + 1) (1024 - 53)); [|lia].
      eexists. eexists. split; [reflexivity|].
      split; [lia|]. split; [lia|].
      replace (- (d - 53 + -52 + 52 + 1)) with (52 - d) by lia.
      rewrite HU. change (Zpos (2 ^ 52)) with (2 ^ 52).
      replace (Zpos p * (2 * V)) with (2 * X) by (unfold X; ring).
      lia.
    + destruct q as [|qp|qp]; try lia.
      assert (Dq : Zdigits2 (Zpos qp) = 53).
      { cbn [Zdigits2]. apply digits2_unique. lia. }
      rewrite Dq.
      replace (Z.max 0 (Z.max (53 + (d - 53 + -52 + 52) - 53) (-1074)
                        - (d - 53 + -52 + 52))) with 0 by lia.
      rewrite Z.div_1_r.
      destruct (Z.leb_spec (d - 53 + -52 + 52 + 0) (1024 - 53)); [|lia].
      eexists. eexists. split; [reflexivity|].
      split; [lia|]. split; [lia|].
      replace (- (d - 53 + -52 + 52 + 0)) with (53 - d) by lia.
      rewrite HW.
      replace (Zpos p * (4 * V)) with (4 * X) by (unfold X; ring).
      lia.
  - (* 106 digits: a shift by 53, and no carry *)
    replace (Z.max 0 (Z.max (106 + (d - 53 + -52) - 53) (-1074)
                      - (d - 53 + -52))) with 53 in * by lia.
    assert (Hqb : 2 ^ 52 <= q < 2 ^ 53).
    { simpl Z.sub in HmD. unfold m in Hn, HmD. lia. }
    assert (HL : 13 * X <= 5 * q + 1) by (unfold m in Hn, HmD; lia).
    assert (HR : 5 * q <= 13 * X + 3) by (unfold m in Hn; lia).
    destruct q as [|qp|qp]; try lia.
    assert (Dq : Zdigits2 (Zpos qp) = 53).
    { cbn [Zdigits2]. apply digits2_unique. lia. }
    rewrite Dq.
    replace (Z.max 0 (Z.max (53 + (d - 53 + -52 + 53) - 53) (-1074)
                      - (d - 53 + -52 + 53))) with 0 by lia.
    rewrite Z.div_1_r.
    destruct (Z.leb_spec (d - 53 + -52 + 53 + 0) (1024 - 53)); [|lia].
    eexists. eexists. split; [reflexivity|].
    split; [lia|]. split; [lia|].
    replace (- (d - 53 + -52 + 53 + 0)) with (52 - d) by lia.
    rewrite HU.
    replace (Zpos p * (2 * V)) with (2 * X) by (unfold X; ring).
    lia.
Qed.

(** The integer part of [count * 1.3] is floor(13 count / 10). *)
Lemma scale_pos p :
  Zpos p < 2 ^ 47 ->
  exists r e,
    scale (Zpos p) = Return (S754_finite false r e)
    /\ -52 <= e <= -4
    /\ Zpos r <= 2 ^ 53
    /\ Zpos r / 2 ^ (- e) = 13 * Zpos p / 10
    /\ 100 * Zpos r <= (100 * (13 * Zpos p / 10) + 94) * 2 ^ (- e).
Proof.
  intros Hp.
  destruct (scale_near p Hp) as (r & e & Hs & He & Hr & HL & HR).
  exists r, e. split; [exact Hs|]. split; [lia|]. split; [lia|].
  set (K := 13 * Zpos p / 10).
  assert (HK : 10 * K <= 13 * Zpos p < 10 * K + 10).
  { unfold K. pose proof (Z.div_mod (13 * Zpos p) 10 ltac:(lia)).
    pose proof (Z.mod_pos_bound (13 * Zpos p) 10 ltac:(lia)). lia. }
  set (P := 2 ^ (- e)) in *.
  assert (HP : 32 <= P).
  { unfold P. change 32 with (2 ^ 5). apply Z.pow_le_mono_r; lia. }
  assert (H1 : 10 * (K * P) <= 13 * (Zpos p * P)) by nia.
  assert (H2 : 13 * (Zpos p * P) <= 10 * (K * P) + 9 * P) by nia.
  split.
  - apply (div_between (Zpos r) P K (K * P) eq_refl). lia.
  - replace ((100 * K + 94) * P) with (100 * (K * P) + 94 * P) by ring. lia.
Qed.


Lemma to_int_negative_exponent r e :
  e < 0 -> Float.to_int (S754_finite false r e) = Return (Zpos r / 2 ^ (- e)).
Proof.
  intros He. destruct e as [|k|k]; try lia.
  unfold Float.to_int. now rewrite Z.shiftr_div_pow2 by lia.
Qed.

(** For a count below 2^47, [int(count * 1.3)] is floor(13 count / 10). *)
Lemma scale_to_int count :
  0 <= count < 2 ^ 47 ->
  exists f, scale count = Return f
            /\ Float.to_int f = Return (floor_1_3 count).
Proof.
  intros Hc. destruct count as [|p|p]; try lia.
  - exists (S754_zero false). split; reflexivity.
  - destruct (scale_pos p ltac:(lia)) as (r & e & Hs & He & _ & Hv & _).
    exists (S754_finite false r e). split; [assumption|].
    rewrite to_int_negative_exponent by lia. unfold floor_1_3.
    now rewrite Hv.
Qed.

(** Aligning a mantissa to a smaller exponent multiplies it by a power of
    two. *)
Lemma shl_align_spec r e e' :
  Zpos (fst (shl_align r e e')) = Zpos r * 2 ^ Z.max 0 (e - e')
  /\ snd (shl_align r e e') = e - Z.max 0 (e - e').
Proof.
  unfold shl_align. destruct (e' - e) as [|k|k] eqn:Ek; cbn [fst snd].
  - replace (Z.max 0 (e - e')) with 0 by lia. split; lia.
  - replace (Z.max 0 (e - e')) with 0 by lia. split; lia.
  - replace (Z.max 0 (e - e')) with (Zpos k) by lia.
    split; [apply pos_iter_xO | lia].
Qed.

(** Rounding an exact positive mantissa below 2^49 in value to binary64
    and truncating the result to an integer: the integer is at least the
    integer part of the value and exceeds the value by less than 1/16. *)
Lemma round_to_int_bounds m e :
  0 < m -> -1074 <= e <= -4 -> Zdigits2 m + e <= 49 ->
  exists t s,
    Float.to_int (binary_round_aux 53 1024 false m e loc_Exact) = Return t
    /\ 0 <= s /\ e + s <= -4
    /\ m / 2 ^ (- e) <= t
    /\ t * 2 ^ (- e) <= m + 2 ^ s.
Proof.
  intros Hm He Hd.
  destruct (binary_round_aux_spec m e Hm) as (q & Hq1 & Hq2 & Hq3 & _ & Hr).
  rewrite Hr; clear Hr. rewrite !fexp_eq in *.
  destruct m as [|p|p]; try lia. cbn [Zdigits2] in *.
  pose proof (digits2_bounds p) as (Dl & Du).
  set (D := Zpos (digits2_pos p)) in *.
  assert (HD : 0 < D) by (unfold D; lia).
  set (s1 := Z.max 0 (Z.max (D + e - 53) (-1074) - e)) in *.
  assert (Hs1 : 0 <= s1) by (unfold s1; lia).
  assert (He1 : e + s1 <= -4) by (unfold s1; lia).
  assert (P1 : 0 < 2 ^ s1) by (apply Z.pow_pos_nonneg; lia).
  assert (Pe1 : 0 < 2 ^ (- (e + s1))) by (apply Z.pow_pos_nonneg; lia).
  assert (Pe : 2 ^ (- e) = 2 ^ s1 * 2 ^ (- (e + s1))).
  { rewrite <- Z.pow_add_r by lia. f_equal. lia. }
  set (s2 := Z.max 0 (Z.max (Zdigits2 q + (e + s1) - 53) (-1074) - (e + s1))).
  assert (Hq : 0 <= s2 <= 1 /\ 2 ^ s2 <= q).
  { destruct (Z.le_gt_cases D 53) as [Dle|Dgt].
    - assert (s1 = 0) as E0 by (unfold s1; lia).
      pose proof (Hq3 ltac:(lia)) as Eq. subst q.
      unfold s2. cbn [Zdigits2]. fold D.
      replace (Z.max 0 (Z.max (D + (e + s1) - 53) (-1074) - (e + s1)))
        with 0 by lia.
      change (2 ^ 0) with 1. lia.
    - assert (s1 = D - 53) as E1 by (unfold s1; lia).
      assert (2 ^ 52 <= Zpos p / 2 ^ s1).
      { apply Z.div_le_lower_bound; [lia|].
        replace (2 ^ s1 * 2 ^ 52) with (2 ^ (D - 1)); [lia|].
        rewrite <- Z.pow_add_r by lia. f_equal. lia. }
      assert (Zpos p / 2 ^ s1 < 2 ^ 53).
      { apply Z.div_lt_upper_bound; [lia|].
        replace (2 ^ s1 * 2 ^ 53) with (2 ^ D); [lia|].
        rewrite <- Z.pow_add_r by lia. f_equal. lia. }
      destruct q as [|pq|pq]; try lia.
      assert (Dq : Zdigits2 (Zpos pq) <= 54).
      { cbn [Zdigits2]. apply digits2_le. lia. }
      assert (Dq' : 53 <= Zdigits2 (Zpos pq)).
      { cbn [Zdigits2]. pose proof (digits2_ge pq 52 ltac:(lia)). lia. }
      unfold s2. split; [lia|].
      apply Z.le_trans with (2 ^ 1); [|lia].
      apply Z.pow_le_mono_r; lia. }
  destruct Hq as (Hs2 & Hq).
  assert (P2 : 0 < 2 ^ s2) by (apply Z.pow_pos_nonneg; lia).
  assert (Hr : 0 < q / 2 ^ s2).
  { apply Z.div_str_pos. lia. }
  destruct (q / 2 ^ s2) as [|r|r] eqn:Er; try lia.
  destruct (Z.leb_spec (e + s1 + s2) (1024 - 53)); [|lia].
  rewrite to_int_negative_exponent by lia.
  exists (Zpos r / 2 ^ (- (e + s1 + s2))), s1.
  split; [reflexivity|]. split; [assumption|]. split; [assumption|].
  assert (Et : Zpos r / 2 ^ (- (e + s1 + s2)) = q / 2 ^ (- (e + s1))).
  { rewrite <- Er. rewrite Z.div_div by (try lia; apply Z.pow_pos_nonneg; lia).
    rewrite <- Z.pow_add_r by lia. f_equal. f_equal. lia. }
  rewrite Et. split.
  - rewrite Pe. rewrite <- Z.div_div by lia.
    apply Z.div_le_mono; lia.
  - pose proof (Z.mul_div_le q (2 ^ (- (e + s1))) Pe1) as Hl.
    pose proof (Z.mul_div_le (Zpos p) (2 ^ s1) P1) as Hl'.
    rewrite Pe.
    set (t := q / 2 ^ (- (e + s1))) in *.
    set (a := Zpos p / 2 ^ s1) in *.
    assert (t * (2 ^ s1 * 2 ^ (- (e + s1)))
            = 2 ^ s1 * (2 ^ (- (e + s1)) * t)) as -> by ring.
    assert (2 ^ s1 * (2 ^ (- (e + s1)) * t) <= 2 ^ s1 * q)
      by (apply Z.mul_le_mono_nonneg_l; lia).
    assert (2 ^ s1 * q <= 2 ^ s1 * (a + 1))
      by (apply Z.mul_le_mono_nonneg_l; lia).
    lia.
Qed.

(** The same, with the rounding to nearest: the integer is the integer
    part of [q * 2^(e + s)], where [q] is within half a unit of
    [m / 2^s]. *)
Lemma round_to_int_near m e :
  0 < m -> -1074 <= e <= -4 -> Zdigits2 m + e <= 49 ->
  exists q s,
    Float.to_int (binary_round_aux 53 1024 false m e loc_Exact)
    = Return (q / 2 ^ (- (e + s)))
    /\ s = Z.max 0 (Zdigits2 m - 53)
    /\ e + s <= -4
    /\ 2 * m - 2 ^ s <= 2 * (q * 2 ^ s) <= 2 * m + 2 ^ s.
Proof.
  intros Hm He Hd.
  destruct (binary_round_aux_spec m e Hm) as (q & Hq1 & Hq2 & Hq3 & Hn & Hr).
  rewrite Hr; clear Hr. rewrite !fexp_eq in *.
  destruct m as [|p|p]; try lia. cbn [Zdigits2] in *.
  pose proof (digits2_bounds p) as (Dl & Du).
  set (D := Zpos (digits2_pos p)) in *.
  assert (HD : 0 < D) by (unfold D; lia).
  set (s1 := Z.max 0 (Z.max (D + e - 53) (-1074) - e)) in *.
  assert (Hs1 : 0 <= s1) by (unfold s1; lia).
  assert (He1 : e + s1 <= -4) by (unfold s1; lia).
  assert (P1 : 0 < 2 ^ s1) by (apply Z.pow_pos_nonneg; lia).
  assert (Pe1 : 0 < 2 ^ (- (e + s1))) by (apply Z.pow_pos_nonneg; lia).
  assert (Pe : 2 ^ (- e) = 2 ^ s1 * 2 ^ (- (e + s1))).
  { rewrite <- Z.pow_add_r by lia. f_equal. lia. }
  set (s2 := Z.max 0 (Z.max (Zdigits2 q + (e + s1) - 53) (-1074) - (e + s1))).
  assert (Hq : 0 <= s2 <= 1 /\ 2 ^ s2 <= q).
  { destruct (Z.le_gt_cases D 53) as [Dle|Dgt].
    - assert (s1 = 0) as E0 by (unfold s1; lia).
      pose proof (Hq3 ltac:(lia)) as Eq. subst q.
      unfold s2. cbn [Zdigits2]. fold D.
      replace (Z.max 0 (Z.max (D + (e + s1) - 53) (-1074) - (e + s1)))
        with 0 by lia.
      change (2 ^ 0) with 1. lia.
    - assert (s1 = D - 53) as E1 by (unfold s1; lia).
      assert (2 ^ 52 <= Zpos p / 2 ^ s1).
      { apply Z.div_le_lower_bound; [lia|].
        replace (2 ^ s1 * 2 ^ 52) with (2 ^ (D - 1)); [lia|].
        rewrite <- Z.pow_add_r by lia. f_equal. lia. }
      assert (Zpos p / 2 ^ s1 < 2 ^ 53).
      { apply Z.div_lt_upper_bound; [lia|].
        replace (2 ^ s1 * 2 ^ 53) with (2 ^ D); [lia|].
        rewrite <- Z.pow_add_r by lia. f_equal. lia. }
      destruct q as [|pq|pq]; try lia.
      assert (Dq : Zdigits2 (Zpos pq) <= 54).
      { cbn [Zdigits2]. apply digits2_le. lia. }
      assert (Dq' : 53 <= Zdigits2 (Zpos pq)).
      { cbn [Zdigits2]. pose proof (digits2_ge pq 52 ltac:(lia)). lia. }
      unfold s2. split; [lia|].
      apply Z.le_trans with (2 ^ 1); [|lia].
      apply Z.pow_le_mono_r; lia. }
  destruct Hq as (Hs2 & Hq).
  assert (P2 : 0 < 2 ^ s2) by (apply Z.pow_pos_nonneg; lia).
  assert (Hr : 0 < q / 2 ^ s2).
  { apply Z.div_str_pos. lia. }
  destruct (q / 2 ^ s2) as [|r|r] eqn:Er; try lia.
  destruct (Z.leb_spec (e + s1 + s2) (1024 - 53)); [|lia].
  rewrite to_int_negative_exponent by lia.
  assert (Et : Zpos r / 2 ^ (- (e + s1 + s2)) = q / 2 ^ (- (e + s1))).
  { rewrite <- Er. rewrite Z.div_div by (try lia; apply Z.pow_pos_nonneg; lia).
    rewrite <- Z.pow_add_r by lia. f_equal. f_equal. lia. }
  exists q, s1. rewrite Et.
  split; [reflexivity|]. split; [unfold s1, D; lia|]. split; [assumption|].
  exact Hn.
Qed.

(** The sum of two products [count * 1.3], truncated: the sum of the two
    integer parts, or one more. *)
Lemma add_to_int_bounds ra ea rb eb Ka Kb :
  -52 <= ea <= -4 -> -52 <= eb <= -4 ->
  0 <= Ka < 2 ^ 48 -> 0 <= Kb < 2 ^ 48 ->
  Ka * 2 ^ (- ea) <= Zpos ra ->
  100 * Zpos ra <= (100 * Ka + 94) * 2 ^ (- ea) ->
  Kb * 2 ^ (- eb) <= Zpos rb ->
  100 * Zpos rb <= (100 * Kb + 94) * 2 ^ (- eb) ->
  exists t,
    Float.to_int (Float.add (S754_finite false ra ea) (S754_finite false rb eb))
    = Return t
    /\ Ka + Kb <= t <= Ka + Kb + 1.
Proof.
  intros Hea Heb HKa HKb La Ua Lb Ub.
  unfold Float.add, SFadd. cbn [cond_Zopp].
  set (ez := Z.min ea eb).
  destruct (shl_align_spec ra ea ez) as (Ha & _).
  destruct (shl_align_spec rb eb ez) as (Hb & _).
  set (pa := fst (shl_align ra ea ez)) in *.
  set (pb := fst (shl_align rb eb ez)) in *.
  rewrite <- Pos2Z.inj_add.
  unfold binary_normalize, binary_round.
  unfold Float.prec, Float.emax. rewrite fexp_eq.
  set (fe := Z.max (Zpos (digits2_pos (pa + pb)) + ez - 53) (-1074)).
  destruct (shl_align_spec (pa + pb) ez fe) as (Hm & He).
  destruct (shl_align (pa + pb) ez fe) as [mz e'].
  cbn [fst snd] in Hm, He.
  set (k := Z.max 0 (ez - fe)) in *.
  set (P := 2 ^ (- ez)).
  set (Q := 2 ^ k) in *.
  assert (HP : 0 < P) by (apply Z.pow_pos_nonneg; lia).
  assert (HQ : 0 < Q) by (apply Z.pow_pos_nonneg; lia).
  assert (HPQ : 2 ^ (- e') = P * Q).
  { unfold P, Q. rewrite <- Z.pow_add_r by lia. f_equal. lia. }
  (* the two aligned mantissas, between the products with P *)
  assert (EPa : P = 2 ^ (- ea) * 2 ^ Z.max 0 (ea - ez)).
  { unfold P. rewrite <- Z.pow_add_r by lia. f_equal. lia. }
  assert (EPb : P = 2 ^ (- eb) * 2 ^ Z.max 0 (eb - ez)).
  { unfold P. rewrite <- Z.pow_add_r by lia. f_equal. lia. }
  assert (0 < 2 ^ Z.max 0 (ea - ez)) by (apply Z.pow_pos_nonneg; lia).
  assert (0 < 2 ^ Z.max 0 (eb - ez)) by (apply Z.pow_pos_nonneg; lia).
  assert (LA : Ka * P <= Zpos pa).
  { rewrite Ha, EPa, Z.mul_assoc. apply Z.mul_le_mono_nonneg_r; lia. }
  assert (UA : 100 * Zpos pa <= (100 * Ka + 94) * P).
  { rewrite Ha, EPa, !Z.mul_assoc. apply Z.mul_le_mono_nonneg_r; lia. }
  assert (LB : Kb * P <= Zpos pb).
  { rewrite Hb, EPb, Z.mul_assoc. apply Z.mul_le_mono_nonneg_r; lia. }
  assert (UB : 100 * Zpos pb <= (100 * Kb + 94) * P).
  { rewrite Hb, EPb, !Z.mul_assoc. apply Z.mul_le_mono_nonneg_r; lia. }
  set (M := Zpos (pa + pb)) in *.
  assert (EM : M = Zpos pa + Zpos pb) by (unfold M; lia).
  set (J := Ka + Kb).
  assert (LM : J * P <= M) by (unfold J; lia).
  assert (UM : 100 * M <= (100 * J + 188) * P) by (unfold J; lia).
  assert (BM : M < 2 ^ 49 * P).
  { assert ((100 * J + 188) * P <= (100 * 2 ^ 49 - 12) * P)
      by (apply Z.mul_le_mono_nonneg_r; unfold J; lia).
    lia. }
  assert (Hdig : Zdigits2 (Zpos mz) + e' <= 49).
  { cbn [Zdigits2].
    assert (Zpos (digits2_pos mz) <= 49 - e'); [|lia].
    apply digits2_le. rewrite Hm.
    replace (49 - e') with (49 + - e') by lia.
    rewrite Z.pow_add_r, HPQ by lia. rewrite Z.mul_assoc.
    apply Z.mul_lt_mono_pos_r; lia. }
  destruct (round_to_int_bounds (Zpos mz) e' ltac:(lia) ltac:(unfold fe in *; lia) Hdig)
    as (t & s & Ht & Hs & Hes & Lt & Ut).
  exists t. split; [exact Ht|].
  rewrite HPQ in Lt, Ut. rewrite Hm in Lt, Ut.
  assert (S16 : 16 * 2 ^ s <= P * Q).
  { rewrite <- HPQ. change 16 with (2 ^ 4). rewrite <- Z.pow_add_r by lia.
    apply Z.pow_le_mono_r; lia. }
  split.
  - apply Z.le_trans with (M * Q / (P * Q)); [|exact Lt].
    apply Z.div_le_lower_bound; [lia|].
    replace (P * Q * J) with (J * P * Q) by ring.
    apply Z.mul_le_mono_nonneg_r; lia.
  - destruct (Z.le_gt_cases t (J + 1)) as [|Hgt]; [assumption|exfalso].
    assert ((J + 2) * (P * Q) <= t * (P * Q))
      by (apply Z.mul_le_mono_nonneg_r; lia).
    assert (100 * M * Q <= (100 * J + 188) * P * Q)
      by (apply Z.mul_le_mono_nonneg_r; lia).
    assert (0 < P * Q) by lia.
    replace ((J + 2) * (P * Q)) with (J * (P * Q) + 2 * (P * Q)) in * by ring.
    replace ((100 * J + 188) * P * Q) with (100 * (J * (P * Q)) + 188 * (P * Q))
      in * by ring.
    replace (100 * M * Q) with (100 * (M * Q)) in * by ring.
    lia.
Qed.

(** The two shapes of [count * 1.3] for 0 <= count < 2^47. *)
Lemma scale_cases count :
  0 <= count < 2 ^ 47 ->
  scale count = Return (S754_zero false) /\ floor_1_3 count = 0
  \/ exists r e,
       scale count = Return (S754_finite false r e)
       /\ -52 <= e <= -4
       /\ 0 <= floor_1_3 count < 2 ^ 48
       /\ floor_1_3 count * 2 ^ (- e) <= Zpos r
       /\ 100 * Zpos r <= (100 * floor_1_3 count + 94) * 2 ^ (- e).
Proof.
  intros Hc. destruct count as [|p|p]; try lia.
  - left. split; reflexivity.
  - right. destruct (scale_pos p ltac:(lia)) as (r & e & Hs & He & _ & Hv & Ht).
    exists r, e. unfold floor_1_3. rewrite <- Hv in *.
    assert (0 < 2 ^ (- e)) by (apply Z.pow_pos_nonneg; lia).
    split; [assumption|]. split; [assumption|]. split.
    + rewrite Hv. split.
      * apply Z.div_pos; lia.
      * apply Z.div_lt_upper_bound; lia.
    + split; [|assumption].
      rewrite Z.mul_comm. apply Z.mul_div_le. lia.
Qed.

(** For word counts below 2^47, [int(n * 1.3 + m * 1.3)] is
    [int(n * 1.3) + int(m * 1.3)] or one more. *)
Lemma total_is_sum_or_one_more n m :
  0 <= n < 2 ^ 47 -> 0 <= m < 2 ^ 47 ->
  exists a b total,
    scale n = Return a /\ scale m = Return b
    /\ Float.to_int a = Return (floor_1_3 n)
    /\ Float.to_int b = Return (floor_1_3 m)
    /\ Float.to_int (Float.add a b) = Return total
    /\ floor_1_3 n + floor_1_3 m <= total <= floor_1_3 n + floor_1_3 m + 1.
Proof.
  intros Hn Hm.
  destruct (scale_to_int n Hn) as (a & Ea & Ta).
  destruct (scale_to_int m Hm) as (b & Eb & Tb).
  exists a, b.
  destruct (scale_cases n Hn) as [(Sa & Za)|(ra & ea & Sa & Hea & Ka & La & Ua)];
    destruct (scale_cases m Hm) as [(Sb & Zb)|(rb & eb & Sb & Heb & Kb & Lb & Ub)];
    rewrite Sa in Ea; rewrite Sb in Eb;
    injection Ea as <-; injection Eb as <-.
  - exists 0. rewrite Za, Zb. repeat split; try assumption; try reflexivity; lia.
  - exists (floor_1_3 m). rewrite Za.
    repeat split; try assumption; try reflexivity; lia.
  - exists (floor_1_3 n). rewrite Zb.
    repeat split; try assumption; try reflexivity; lia.
  - destruct (add_to_int_bounds ra ea rb eb (floor_1_3 n) (floor_1_3 m)
                Hea Heb Ka Kb La Ua Lb Ub) as (t & Ht & Bt).
    exists t. repeat split; try assumption; lia.
Qed.

(** The sum of two products [count * 1.3], truncated, is exactly
    floor(13 (n + m) / 10): the two products are at most two tenths of
    their last digits below 13 n / 10 and 13 m / 10, the sum is rounded to
    nearest, and the integer sought is a multiple of its last digit. *)
Lemma add_exact ra ea rb eb n m :
  0 <= n < 2 ^ 47 -> 0 <= m < 2 ^ 47 ->
  -52 <= ea <= -5 -> -52 <= eb <= -5 ->
  2 ^ 52 <= Zpos ra < 2 ^ 53 -> 2 ^ 52 <= Zpos rb < 2 ^ 53 ->
  13 * (n * 2 ^ (- ea)) <= 10 * Zpos ra + 2 ->
  10 * Zpos ra <= 13 * (n * 2 ^ (- ea)) + 8 ->
  13 * (m * 2 ^ (- eb)) <= 10 * Zpos rb + 2 ->
  10 * Zpos rb <= 13 * (m * 2 ^ (- eb)) + 8 ->
  Float.to_int (Float.add (S754_finite false ra ea) (S754_finite false rb eb))
  = Return (13 * (n + m) / 10).
Proof.
  intros Hn Hm Hea Heb Hra Hrb La Ua Lb Ub.
  unfold Float.add, SFadd. cbn [cond_Zopp].
  set (ez := Z.min ea eb).
  destruct (shl_align_spec ra ea ez) as (Ha & _).
  destruct (shl_align_spec rb eb ez) as (Hb & _).
  set (pa := fst (shl_align ra ea ez)) in *.
  set (pb := fst (shl_align rb eb ez)) in *.
  rewrite <- Pos2Z.inj_add.
  unfold binary_normalize, binary_round.
  unfold Float.prec, Float.emax. rewrite fexp_eq.
  set (Ux := 2 ^ Z.max 0 (ea - ez)) in *.
  set (Uy := 2 ^ Z.max 0 (eb - ez)) in *.
  set (Pz := 2 ^ (- ez)).
  assert (HUx : 0 < Ux) by (apply Z.pow_pos_nonneg; lia).
  assert (HUy : 0 < Uy) by (apply Z.pow_pos_nonneg; lia).
  assert (EPa : Pz = 2 ^ (- ea) * Ux).
  { unfold Pz, Ux. rewrite <- Z.pow_add_r by lia. f_equal. lia. }
  assert (EPb : Pz = 2 ^ (- eb) * Uy).
  { unfold Pz, Uy. rewrite <- Z.pow_add_r by lia. f_equal. lia. }
  assert (H32a : 32 <= 2 ^ (- ea)).
  { change 32 with (2 ^ 5). apply Z.pow_le_mono_r; lia. }
  assert (H32b : 32 <= 2 ^ (- eb)).
  { change 32 with (2 ^ 5). apply Z.pow_le_mono_r; lia. }
  (* the two aligned mantissas against 13 n / 10 and 13 m / 10 *)
  assert (LA : 13 * (n * Pz) <= 10 * Zpos pa + 2 * Ux).
  { rewrite Ha, EPa.
    replace (13 * (n * (2 ^ (- ea) * Ux))) with (13 * (n * 2 ^ (- ea)) * Ux)
      by ring.
    replace (10 * (Zpos ra * Ux) + 2 * Ux) with ((10 * Zpos ra + 2) * Ux)
      by ring.
    apply Z.mul_le_mono_nonneg_r; lia. }
  assert (UA : 10 * Zpos pa <= 13 * (n * Pz) + 8 * Ux).
  { rewrite Ha, EPa.
    replace (13 * (n * (2 ^ (- ea) * Ux)) + 8 * Ux)
      with ((13 * (n * 2 ^ (- ea)) + 8) * Ux) by ring.
    replace (10 * (Zpos ra * Ux)) with (10 * Zpos ra * Ux) by ring.
    apply Z.mul_le_mono_nonneg_r; lia. }
  assert (LB : 13 * (m * Pz) <= 10 * Zpos pb + 2 * Uy).
  { rewrite Hb, EPb.
    replace (13 * (m * (2 ^ (- eb) * Uy))) with (13 * (m * 2 ^ (- eb)) * Uy)
      by ring.
    replace (10 * (Zpos rb * Uy) + 2 * Uy) with ((10 * Zpos rb + 2) * Uy)
      by ring.
    apply Z.mul_le_mono_nonneg_r; lia. }
  assert (UB : 10 * Zpos pb <= 13 * (m * Pz) + 8 * Uy).
  { rewrite Hb, EPb.
    replace (13 * (m * (2 ^ (- eb) * Uy)) + 8 * Uy)
      with ((13 * (m * 2 ^ (- eb)) + 8) * Uy) by ring.
    replace (10 * (Zpos rb * Uy)) with (10 * Zpos rb * Uy) by ring.
    apply Z.mul_le_mono_nonneg_r; lia. }
  assert (GA : 2 ^ 52 * Ux <= Zpos pa).
  { rewrite Ha. apply Z.mul_le_mono_nonneg_r; lia. }
  assert (GB : 2 ^ 52 * Uy <= Zpos pb).
  { rewrite Hb. apply Z.mul_le_mono_nonneg_r; lia. }
  assert (SA : 32 * Ux <= Pz).
  { rewrite EPa. apply Z.mul_le_mono_nonneg_r; lia. }
  assert (SB : 32 * Uy <= Pz).
  { rewrite EPb. apply Z.mul_le_mono_nonneg_r; lia. }
  set (M := Zpos (pa + pb)) in *.
  assert (EM : M = Zpos pa + Zpos pb) by (unfold M; lia).
  (* the sum has 53 digits or more: it is not shifted to the left *)
  assert (D53 : 53 <= Zpos (digits2_pos (pa + pb))).
  { pose proof (digits2_ge (pa + pb) 52) as G. fold M in G.
    assert (1 <= Ux) by lia. lia. }
  assert (DUx : Z.max 0 (ea - ez) + 52 < Zpos (digits2_pos (pa + pb))).
  { apply digits2_ge. fold M. rewrite Z.pow_add_r by lia. fold Ux. lia. }
  assert (DUy : Z.max 0 (eb - ez) + 52 < Zpos (digits2_pos (pa + pb))).
  { apply digits2_ge. fold M. rewrite Z.pow_add_r by lia. fold Uy. lia. }
  assert (HPz : 0 < Pz) by lia.
  assert (BM : M < 2 ^ 49 * Pz).
  { assert (n * Pz <= (2 ^ 47 - 1) * Pz)
      by (apply Z.mul_le_mono_nonneg_r; lia).
    assert (m * Pz <= (2 ^ 47 - 1) * Pz)
      by (apply Z.mul_le_mono_nonneg_r; lia).
    lia. }
  assert (D49 : Zpos (digits2_pos (pa + pb)) <= 49 - ez).
  { apply digits2_le. fold M.
    replace (49 - ez) with (49 + - ez) by lia.
    rewrite Z.pow_add_r by lia. exact BM. }
  unfold shl_align.
  replace (Z.max (Zpos (digits2_pos (pa + pb)) + ez - 53) (-1074) - ez)
    with (Zpos (digits2_pos (pa + pb)) - 53) by lia.
  destruct (Zpos (digits2_pos (pa + pb)) - 53) as [|k|k] eqn:Ek; try lia;
    fold M;
    (destruct (round_to_int_near M ez ltac:(unfold M; lia)
                 ltac:(unfold ez; lia)
                 ltac:(unfold M; cbn [Zdigits2]; lia))
       as (q & s & -> & Hs & Hes & Nq));
    unfold M in Hs; cbn [Zdigits2] in Hs; rewrite Ek in Hs;
    f_equal.
  all: set (K := 13 * (n + m) / 10).
  all: assert (HK : 10 * K <= 13 * (n + m) < 10 * K + 10)
         by (unfold K;
             pose proof (Z.div_mod (13 * (n + m)) 10 ltac:(lia));
             pose proof (Z.mod_pos_bound (13 * (n + m)) 10 ltac:(lia)); lia).
  all: set (G := 2 ^ (- (ez + s))).
  all: set (S1 := 2 ^ s) in *.
  all: assert (HS1 : 0 < S1) by (apply Z.pow_pos_nonneg; lia).
  all: assert (HG : 16 <= G)
         by (unfold G; change 16 with (2 ^ 4); apply Z.pow_le_mono_r; lia).
  all: assert (EP : Pz = G * S1)
         by (unfold Pz, G, S1; rewrite <- Z.pow_add_r by lia; f_equal; lia).
  all: assert (LUx : Ux <= S1)
         by (unfold Ux, S1; apply Z.pow_le_mono_r; lia).
  all: assert (LUy : Uy <= S1)
         by (unfold Uy, S1; apply Z.pow_le_mono_r; lia).
  all: assert (T1 : 10 * (K * Pz) <= 13 * (n * Pz) + 13 * (m * Pz))
         by (replace (13 * (n * Pz) + 13 * (m * Pz))
               with (13 * (n + m) * Pz) by ring;
             replace (10 * (K * Pz)) with (10 * K * Pz) by ring;
             apply Z.mul_le_mono_nonneg_r; lia).
  all: assert (T2 : 13 * (n * Pz) + 13 * (m * Pz) <= 10 * (K * Pz) + 9 * Pz)
         by (replace (13 * (n * Pz) + 13 * (m * Pz))
               with (13 * (n + m) * Pz) by ring;
             replace (10 * (K * Pz) + 9 * Pz) with ((10 * K + 9) * Pz) by ring;
             apply Z.mul_le_mono_nonneg_r; lia).
  all: apply (div_between q G K (K * G) eq_refl).
  all: assert (E1 : K * Pz = K * G * S1) by (rewrite EP; ring).
  all: assert (E2 : Pz = G * S1) by exact EP.
  all: assert (H16 : 16 * S1 <= G * S1)
         by (apply Z.mul_le_mono_nonneg_r; lia).
  all: split.
  all: try (destruct (Z.le_gt_cases (K * G) q) as [|Hlt];
            [assumption|exfalso];
            assert (q * S1 <= (K * G - 1) * S1)
              by (apply Z.mul_le_mono_nonneg_r; lia);
            replace ((K * G - 1) * S1) with (K * G * S1 - S1) in * by ring;
            lia).
  all: destruct (Z.lt_ge_cases q (K * G + G)) as [|Hge];
       [assumption|exfalso];
       assert ((K * G + G) * S1 <= q * S1)
         by (apply Z.mul_le_mono_nonneg_r; lia);
       replace ((K * G + G) * S1) with (K * G * S1 + G * S1) in * by ring;
       lia.
Qed.

(** For word counts below 2^47 the three token counts are the exact
    floors: [int(n * 1.3)], [int(m * 1.3)] and [int(n * 1.3 + m * 1.3)]
    are floor(13 n / 10), floor(13 m / 10) and floor(13 (n + m) / 10). *)
Lemma tokens_exact_in_general n m :
  0 <= n < 2 ^ 47 -> 0 <= m < 2 ^ 47 ->
  exists a b,
    scale n = Return a /\ scale m = Return b
    /\ Float.to_int a = Return (floor_1_3 n)
    /\ Float.to_int b = Return (floor_1_3 m)
    /\ Float.to_int (Float.add a b) = Return (floor_1_3 (n + m)).
Proof.
  intros Hn Hm.
  destruct (scale_to_int n Hn) as (a & Ea & Ta).
  destruct (scale_to_int m Hm) as (b & Eb & Tb).
  exists a, b.
  split; [exact Ea|]. split; [exact Eb|]. split; [exact Ta|].
  split; [exact Tb|].
  destruct n as [|p|p]; try lia; destruct m as [|p'|p']; try lia.
  - injection Ea as <-. injection Eb as <-. reflexivity.
  - injection Ea as <-.
    destruct (scale_near p' ltac:(lia)) as (r & e & Hs & _).
    rewrite Hs in Eb. injection Eb as <-.
    change (0 + Zpos p') with (Zpos p'). exact Tb.
  - injection Eb as <-.
    destruct (scale_near p ltac:(lia)) as (r & e & Hs & _).
    rewrite Hs in Ea. injection Ea as <-.
    rewrite Z.add_0_r. exact Ta.
  - destruct (scale_near p ltac:(lia)) as (ra & ea & Sa & Hea & Hra & La & Ua).
    destruct (scale_near p' ltac:(lia)) as (rb & eb & Sb & Heb & Hrb & Lb & Ub).
    rewrite Sa in Ea. rewrite Sb in Eb.
    injection Ea as <-. injection Eb as <-.
    apply (add_exact ra ea rb eb (Zpos p) (Zpos p')); assumption.
Qed.

End FloatFacts.

(** ** The handler as a whole *)

Section DoPost.

Variable lib : Library.
Variable clock : nat -> Reading.

Lemma received_unique self w d1 d2 :
  received lib self w d1 -> received lib self w d2 -> d1 = d2.
Proof.
  intros (h1 & n1 & H1 & I1 & _ & _ & ->) (h2 & n2 & H2 & I2 & _ & _ & ->).
  congruence.
Qed.

(** What [read] does with a size: it reads, or it raises and leaves the
    body where it was. *)
Lemma rfile_read_cases self n w :
  (rfile_read lib self n w
   = (Return (read_span self (consumed w) n),
      taken (List.length (read_span self (consumed w) n)) w)
   /\ (-1 <= n <= 2 ^ 63 - 34)%Z
   /\ ((0 <= n)%Z -> grants lib n = true))
  \/ (exists e, rfile_read lib self n w = (Raise e, w)
                /\ (e = OverflowError \/ e = ValueError \/ e = MemoryError)).
Proof.
  unfold rfile_read.
  destruct (Z.ltb_spec n (- 2 ^ 63)); cbn [orb];
    [right; exists OverflowError; auto|].
  destruct (Z.ltb_spec (2 ^ 63 - 1) n);
    [right; exists OverflowError; auto|].
  destruct (Z.ltb_spec n (-1)); [right; exists ValueError; auto|].
  destruct (Z.ltb_spec (2 ^ 63 - 34) n);
    [right; exists OverflowError; auto|].
  destruct (Z.leb_spec 0 n); cbn [andb].
  - destruct (grants lib n) eqn:G; cbn [negb].
    + left. split; [reflexivity|]. split; [lia | auto].
    + right. exists MemoryError. auto.
  - left. split; [reflexivity|]. split; [lia | intros; lia].
Qed.

Lemma rfile_read_accepts self n w :
  (-1 <= n <= 2 ^ 63 - 34)%Z ->
  ((0 <= n)%Z -> grants lib n = true) ->
  rfile_read lib self n w
  = (Return (read_span self (consumed w) n),
     taken (List.length (read_span self (consumed w) n)) w).
Proof.
  intros Hn Hg. unfold rfile_read.
  destruct (Z.ltb_spec n (- 2 ^ 63)); [lia|].
  destruct (Z.ltb_spec (2 ^ 63 - 1) n); [lia|]. cbn [orb].
  destruct (Z.ltb_spec n (-1)); [lia|].
  destruct (Z.ltb_spec (2 ^ 63 - 34) n); [lia|].
  destruct (Z.leb_spec 0 n); cbn [andb]; [|reflexivity].
  now rewrite Hg.
Qed.

(** A write on the steady line gets through. *)
Lemma put_steady ev w : put steady ev w = (Return tt, sent [ev] w).
Proof. unfold put, steady. cbn [negb]. now rewrite andb_false_r. Qed.

(** With the path accepted and the body read, the handler is the [try]
    statement run on that body. *)
Lemma do_POST_on_body line self w post_data :
  urlparse_path lib (path self) = Some "/chat/completions" ->
  received lib self w post_data ->
  do_POST_on lib clock line self w =
    try_except (process_on lib clock line post_data) (on_exception_on line)
      (taken (List.length post_data) w).
Proof.
  intros Hp (h & n & Hh & Hi & Hn & Hg & ->).
  unfold do_POST_on, bind, lift. rewrite Hp.
  change ("/chat/completions" =? "/chat/completions")%string with true.
  cbn [negb]. unfold int_of_header. rewrite Hh, Hi. unfold ret.
  now rewrite rfile_read_accepts.
Qed.

Lemma do_POST_body self w post_data :
  urlparse_path lib (path self) = Some "/chat/completions" ->
  received lib self w post_data ->
  do_POST lib clock self w =
    try_except (process lib clock post_data) (on_exception)
      (taken (List.length post_data) w).
Proof. apply (do_POST_on_body steady). Qed.

Lemma wire_on_exception e w :
  wire (snd (on_exception e w)) =
    (wire w ++ [if is_JSONDecodeError e
                then send_error 400 "Invalid JSON"
                else send_error 500 "Internal Server Error"])%list
  /\ fst (on_exception e w) = Return tt.
Proof.
  unfold on_exception, on_exception_on, bind, logger_error.
  destruct (is_JSONDecodeError e); rewrite put_steady; split; reflexivity.
Qed.

Ltac wire_clash :=
  match goal with
  | H : wire ?w = (wire ?w ++ _)%list |- _ =>
      rewrite <- (app_nil_r (wire w)) in H at 1
  | _ => idtac
  end;
  match goal with
  | H : (?l ++ _)%list = (?l ++ _)%list |- _ =>
      apply app_inv_head in H; discriminate
  end.

(** A 200 answer means that the path was accepted, the body read and
    the [try] statement ran to its end. *)
Lemma do_POST_answers_200 self w r w' response :
  do_POST lib clock self w = (r, w') ->
  answers_200 w w' response ->
  r = Return tt
  /\ urlparse_path lib (path self) = Some "/chat/completions"
  /\ exists post_data,
       received lib self w post_data
       /\ process lib clock post_data (taken (List.length post_data) w)
          = (Return tt, w').
Proof.
  unfold answers_200. intros H A.
  unfold do_POST, do_POST_on, bind, lift in H.
  destruct (urlparse_path lib (path self)) as [p|] eqn:Hu.
  2:{ injection H as <- <-. wire_clash. }
  destruct (String.eqb_spec p "/chat/completions") as [->|Hp]; cbn [negb] in H.
  2:{ rewrite put_steady in H. injection H as <- <-. simpl in A. wire_clash. }
  unfold int_of_header in H.
  destruct (Py.header "Content-Length" (headers self)) as [h|] eqn:Hh.
  2:{ injection H as <- <-. wire_clash. }
  destruct (int_of_str lib h) as [n|] eqn:Hi.
  2:{ injection H as <- <-. wire_clash. }
  unfold ret in H.
  destruct (rfile_read_cases self n w) as [(Hr & Hn & Hg)|(e & Hr & _)];
    rewrite Hr in H.
  2:{ injection H as <- <-. wire_clash. }
  set (post_data := read_span self (consumed w) n) in *.
  unfold try_except in H.
  fold (process lib clock post_data) in H.
  destruct (process lib clock post_data (taken (List.length post_data) w))
    as [[[]|e] w1] eqn:P.
  - injection H as <- <-. split; [reflexivity|]. split; [reflexivity|].
    exists post_data. split; [|assumption].
    exists h, n. repeat split; auto; lia.
  - destruct (process_raises _ _ _ _ _ _ P) as (Hw & _ & _).
    destruct (wire_on_exception e w1) as (Hx & _).
    fold (on_exception e) in H.
    rewrite H in Hx. simpl in Hx. rewrite Hw in Hx. simpl in Hx.
    rewrite Hx in A. wire_clash.
Qed.

(** Everything a 200 answer tells about the exchange. *)
Lemma exchange self w r w' response :
  do_POST lib clock self w = (r, w') ->
  answers_200 w w' response ->
  exists request_data model ms pt ct total up uc,
    r = Return tt
    /\ urlparse_path lib (path self) = Some "/chat/completions"
    /\ json_body lib self w request_data
    /\ Py.get request_data "model" (PyStr "gpt-3.5-turbo") = Return model
    /\ message_objects request_data ms
    /\ estimate (Rules.user_text ms) = Return pt
    /\ estimate (reply_for lib clock (ticks w) ms model) = Return ct
    /\ Float.to_int (Float.add pt ct) = Return total
    /\ Float.to_int pt = Return up
    /\ Float.to_int ct = Return uc
    /\ response =
         response_dict
           (epoch (clock (id_tick (ticks w) (Rules.user_text ms))))
           (epoch (clock (S (id_tick (ticks w) (Rules.user_text ms)))))
           model (reply_for lib clock (ticks w) ms model) up uc total
    /\ ticks w' = S (S (id_tick (ticks w) (Rules.user_text ms))).
Proof.
  intros H A.
  destruct (do_POST_answers_200 _ _ _ _ _ H A) as (Hr & Hp & post_data & Hrec & P).
  destruct (process_returns _ _ _ _ _ P)
    as (text & request_data & model & messages & ms & pt & ct & total & up & uc
        & Hd & Hl & Hm & Hms & Hit & Ept & Ect & Et & Eup & Euc & A' & Ht & _).
  exists request_data, model, ms, pt, ct, total, up, uc.
  repeat match goal with |- _ /\ _ => split end; try assumption.
  - now exists post_data, text.
  - now exists messages.
  - unfold answers_200 in A, A'. simpl in A'. rewrite A in A'.
    apply app_inv_head in A'. now injection A'.
Qed.

End DoPost.

(** * The claims *)

(** The body of a sample request is read. *)
Ltac sample_received :=
  eexists; eexists;
  (split; [vm_compute; reflexivity|]);
  (split; [vm_compute; reflexivity|]);
  (split; [split; vm_compute; discriminate|]);
  (split; [intros _; vm_compute; reflexivity | vm_compute; reflexivity]).

(** ** C1: the reply is the one of the first matching rule *)



(** ** C2: the usage counts *)

(** C2.  When a POST is answered with 200, with n the number of words of
    the prompt and m that of the reply (a word is a longest stretch of
    characters that are not white space), prompt_tokens is
    floor(13 n / 10), completion_tokens is floor(13 m / 10) and
    total_tokens is floor(13 (n + m) / 10): the sum is taken on the two
    products before they are truncated, and truncated once.  The code
    computes in binary64; the three results are proved to be these exact
    floors for every n and m below 2^47. *)
Theorem usage_counts_words
    (lib : Library) (clock : nat -> Reading) self w r w' response :
  do_POST lib clock self w = (r, w') ->
  answers_200 w w' response ->
  exists request_data ms reply,
    json_body lib self w request_data
    /\ message_objects request_data ms
    /\ content_of response = Some (PyStr reply)
    /\ ((Words.count (Rules.user_text ms) < 2 ^ 47)%Z ->
        (Words.count reply < 2 ^ 47)%Z ->
        usage_of "prompt_tokens" response
        = Some (PyInt (floor_1_3 (Words.count (Rules.user_text ms))))
        /\ usage_of "completion_tokens" response
           = Some (PyInt (floor_1_3 (Words.count reply)))
        /\ usage_of "total_tokens" response
           = Some (PyInt (floor_1_3 (Words.count (Rules.user_text ms)
                                     + Words.count reply)))).
Proof.
  intros H A.
  destruct (exchange _ _ _ _ _ _ _ H A)
    as (request_data & model & ms & pt & ct & total & up & uc
        & _ & _ & Hj & _ & Hms & Ept & Ect & Et & Eup & Euc & -> & _).
  exists request_data, ms, (reply_for lib clock (ticks w) ms model).
  split; [assumption|]. split; [assumption|]. split; [reflexivity|].
  intros Hn Hm.
  unfold estimate in Ept, Ect.
  fold (word_count (Rules.user_text ms)) in Ept.
  fold (word_count (reply_for lib clock (ticks w) ms model)) in Ect.
  rewrite StrFacts.word_count_words in Ept, Ect.
  destruct (FloatFacts.tokens_exact_in_general
              (Words.count (Rules.user_text ms))
              (Words.count (reply_for lib clock (ticks w) ms model)))
    as (a & b & Ea & Eb & Ta & Tb & Tt);
    [unfold Words.count in *; lia | unfold Words.count in *; lia |].
  rewrite Ea in Ept. rewrite Eb in Ect.
  injection Ept as <-. injection Ect as <-.
  rewrite Ta in Eup. rewrite Tb in Euc. rewrite Tt in Et.
  injection Eup as <-. injection Euc as <-. injection Et as <-.
  split; [reflexivity|]. split; reflexivity.
Qed.

Lemma usage_counts_words_witness :
  answers_200 fresh (snd Reference.hello_run)
    (Reference.body_sent Reference.hello_run)
  /\ exists request_data ms reply,
       json_body Reference.library Reference.hello_request fresh request_data
       /\ message_objects request_data ms
       /\ content_of (Reference.body_sent Reference.hello_run)
          = Some (PyStr reply)
       /\ ((Words.count (Rules.user_text ms) < 2 ^ 47)%Z ->
           (Words.count reply < 2 ^ 47)%Z ->
           usage_of "prompt_tokens" (Reference.body_sent Reference.hello_run)
           = Some (PyInt (floor_1_3 (Words.count (Rules.user_text ms))))
           /\ usage_of "completion_tokens"
                (Reference.body_sent Reference.hello_run)
              = Some (PyInt (floor_1_3 (Words.count reply)))
           /\ usage_of "total_tokens"
                (Reference.body_sent Reference.hello_run)
              = Some (PyInt (floor_1_3 (Words.count (Rules.user_text ms)
                                        + Words.count reply)))).
Proof.
  assert (A : answers_200 fresh (snd Reference.hello_run)
                (Reference.body_sent Reference.hello_run))
    by (vm_compute; reflexivity).
  split; [exact A|].
  apply (usage_counts_words Reference.library Reference.clock
           Reference.hello_request fresh (fst Reference.hello_run)
           (snd Reference.hello_run) _ (surjective_pairing _) A).
Defined.

(** ** C3: the model is echoed *)

(** C3.  When a POST is answered with 200, the model field of the
    response is the model field of the request, and the default
    gpt-3.5-turbo when the request has none. *)
Theorem model_is_echoed
    (lib : Library) (clock : nat -> Reading) self w r w' response :
  do_POST lib clock self w = (r, w') ->
  answers_200 w w' response ->
  exists request_data,
    json_body lib self w request_data
    /\ (forall v, field "model" request_data = Some v ->
                  field "model" response = Some v)
    /\ (field "model" request_data = None ->
        field "model" response = Some (PyStr "gpt-3.5-turbo")).
Proof.
  intros H A.
  destruct (exchange _ _ _ _ _ _ _ H A)
    as (request_data & model & ms & pt & ct & total & up & uc
        & _ & _ & Hj & Hm & _ & _ & _ & _ & _ & _ & -> & _).
  exists request_data. split; [assumption|].
  destruct request_data; try discriminate. simpl in Hm. simpl field at 1 3.
  injection Hm as <-.
  split; [intros v Hv | intros Hv]; rewrite Hv; reflexivity.
Qed.

Lemma model_is_echoed_witness :
  answers_200 fresh (snd Reference.hello_run)
    (Reference.body_sent Reference.hello_run)
  /\ exists request_data,
       json_body Reference.library Reference.hello_request fresh request_data
       /\ (forall v, field "model" request_data = Some v ->
                     field "model" (Reference.body_sent Reference.hello_run)
                     = Some v)
       /\ (field "model" request_data = None ->
           field "model" (Reference.body_sent Reference.hello_run)
           = Some (PyStr "gpt-3.5-turbo")).
Proof.
  assert (A : answers_200 fresh (snd Reference.hello_run)
                (Reference.body_sent Reference.hello_run))
    by (vm_compute; reflexivity).
  split; [exact A|].
  apply (model_is_echoed Reference.library Reference.clock
           Reference.hello_request fresh (fst Reference.hello_run)
           (snd Reference.hello_run) _ (surjective_pairing _) A).
Defined.

(** ** C4: the fallback reply *)

(** C4.  When no keyword rule matches the prompt, the reply is the fixed
    text around four fields: the start of the prompt, of 100 characters
    or of the whole prompt when it is shorter; three dots exactly when the
    prompt has more than 100 characters; the model name, which for a
    string is the string; and the reading of the clock taken at that
    moment, written YYYY-MM-DD HH:MM:SS, each field the decimal numeral
    of the field of the reading (for a date with a four-digit year).
    With no messages the prompt is empty and no keyword rule matches it:
    the echo is then empty, without dots. *)
Theorem fallback_echoes_prompt
    (lib : Library) (clock : nat -> Reading) prompt model w :
  Rules.first_match prompt Rules.table Rules.Fallback ->
  calendar (localtime (clock (ticks w))) ->
  (exists shown dots name time,
     generate_mock_response lib clock prompt model w
     = (Return (Reply.fallback_head ++ shown ++ dots ++ Reply.fallback_model
                ++ name ++ Reply.fallback_time ++ time
                ++ Reply.fallback_tail),
        tick w)
     /\ (exists rest, prompt = shown ++ rest)
     /\ String.length shown = Nat.min 100 (String.length prompt)
     /\ (100 < String.length prompt /\ dots = "..."
         \/ String.length prompt <= 100 /\ dots = "")
     /\ (forall s, model = PyStr s -> name = s)
     /\ timestamp (localtime (clock (ticks w))) time)
  /\ collect_prompt [] "" = Return ""
  /\ Rules.first_match "" Rules.table Rules.Fallback.
Proof.
  intros Hf Hc. apply RuleFacts.first_match_select in Hf.
  split; [|split].
  - exists (Str.take 100 prompt),
      (if Nat.ltb 100 (String.length prompt) then "..." else ""),
      (str lib model), (strftime (localtime (clock (ticks w)))).
    destruct (NumFacts.take_prefix 100 prompt) as (rest & Hrest & Hlen).
    split; [|split; [|split; [|split; [|split]]]].
    + rewrite generate_run, <- Hf. simpl Rules.reply_of.
      unfold Reply.fallback, Reply.echo.
      now rewrite !StrFacts.append_assoc.
    + now exists rest.
    + exact Hlen.
    + destruct (Nat.ltb_spec 100 (String.length prompt)); [left | right];
        split; auto.
    + now intros s ->.
    + now apply NumFacts.strftime_timestamp.
  - reflexivity.
  - change Rules.Fallback with (select ""). apply RuleFacts.select_first_match.
Qed.

Lemma fallback_echoes_prompt_witness :
  Rules.first_match Samples.long_prompt Rules.table Rules.Fallback
  /\ calendar (localtime (Reference.clock (ticks fresh)))
  /\ String.length Samples.long_prompt = 120
  /\ (exists shown dots name time,
        generate_mock_response Reference.library Reference.clock
          Samples.long_prompt (PyStr "test-model") fresh
        = (Return (Reply.fallback_head ++ shown ++ dots
                   ++ Reply.fallback_model ++ name ++ Reply.fallback_time
                   ++ time ++ Reply.fallback_tail),
           tick fresh)
        /\ (exists rest, Samples.long_prompt = shown ++ rest)
        /\ String.length shown
           = Nat.min 100 (String.length Samples.long_prompt)
        /\ (100 < String.length Samples.long_prompt /\ dots = "..."
            \/ String.length Samples.long_prompt <= 100 /\ dots = "")
        /\ (forall s, PyStr "test-model" = PyStr s -> name = s)
        /\ timestamp (localtime (Reference.clock (ticks fresh))) time)
  /\ collect_prompt [] "" = Return ""
  /\ Rules.first_match "" Rules.table Rules.Fallback.
Proof.
  assert (F : Rules.first_match Samples.long_prompt Rules.table
                Rules.Fallback).
  { change Rules.Fallback with (select Samples.long_prompt).
    apply RuleFacts.select_first_match. }
  assert (C : calendar (localtime (Reference.clock (ticks fresh))))
    by (vm_compute; repeat split; discriminate).
  split; [exact F|]. split; [exact C|]. split; [reflexivity|].
  exact (fallback_echoes_prompt Reference.library Reference.clock
           Samples.long_prompt (PyStr "test-model") fresh F C).
Defined.

(** ** C5: id and created *)

(** C5, as stated, fails: the id and created come from two readings of
    the clock, and a second can go by between them.  Here the first
    reading falls in second 1699999999 and the next in 1700000000. *)
Lemma id_and_created_can_differ :
  answers_200 fresh (snd Reference.edge_run)
    (Reference.body_sent Reference.edge_run)
  /\ field "id" (Reference.body_sent Reference.edge_run)
     = Some (PyStr "chatcmpl-1699999999")
  /\ field "created" (Reference.body_sent Reference.edge_run)
     = Some (PyInt 1700000000)
  /\ ~ (exists t,
          field "id" (Reference.body_sent Reference.edge_run)
          = Some (PyStr ("chatcmpl-" ++ Str.of_Z t))
          /\ field "created" (Reference.body_sent Reference.edge_run)
             = Some (PyInt t)).
Proof.
  repeat split; try (vm_compute; reflexivity).
  intros (t & Hid & Hc). vm_compute in Hc. injection Hc as <-.
  vm_compute in Hid. discriminate.
Qed.

(** C5, amended.  When a POST is answered with 200, the id is chatcmpl-
    followed by the epoch second of one reading of the clock, and created
    is the epoch second of the next reading; these are the last two
    readings of the exchange.  When both fall in the same second, the
    suffix of the id is created. *)
Theorem id_and_created_from_consecutive_readings
    (lib : Library) (clock : nat -> Reading) self w r w' response :
  do_POST lib clock self w = (r, w') ->
  answers_200 w w' response ->
  exists k,
    field "id" response
    = Some (PyStr ("chatcmpl-" ++ Str.of_Z (epoch (clock k))))
    /\ field "created" response = Some (PyInt (epoch (clock (S k))))
    /\ ticks w <= k
    /\ ticks w' = S (S k)
    /\ (epoch (clock k) = epoch (clock (S k)) ->
        exists t,
          field "id" response = Some (PyStr ("chatcmpl-" ++ Str.of_Z t))
          /\ field "created" response = Some (PyInt t)).
Proof.
  intros H A.
  destruct (exchange _ _ _ _ _ _ _ H A)
    as (request_data & model & ms & pt & ct & total & up & uc
        & _ & _ & _ & _ & _ & _ & _ & _ & _ & _ & -> & Ht).
  exists (id_tick (ticks w) (Rules.user_text ms)).
  repeat match goal with |- _ /\ _ => split end; try reflexivity.
  - unfold id_tick. destruct (select _); lia.
  - exact Ht.
  - intros E. exists (epoch (clock (id_tick (ticks w) (Rules.user_text ms)))).
    split; [reflexivity|]. simpl. now rewrite E.
Qed.

Lemma id_and_created_from_consecutive_readings_witness :
  answers_200 fresh (snd Reference.hello_run)
    (Reference.body_sent Reference.hello_run)
  /\ exists k,
       field "id" (Reference.body_sent Reference.hello_run)
       = Some (PyStr ("chatcmpl-" ++ Str.of_Z (epoch (Reference.clock k))))
       /\ field "created" (Reference.body_sent Reference.hello_run)
          = Some (PyInt (epoch (Reference.clock (S k))))
       /\ ticks fresh <= k
       /\ ticks (snd Reference.hello_run) = S (S k)
       /\ (epoch (Reference.clock k) = epoch (Reference.clock (S k)) ->
           exists t,
             field "id" (Reference.body_sent Reference.hello_run)
             = Some (PyStr ("chatcmpl-" ++ Str.of_Z t))
             /\ field "created" (Reference.body_sent Reference.hello_run)
                = Some (PyInt t)).
Proof.
  assert (A : answers_200 fresh (snd Reference.hello_run)
                (Reference.body_sent Reference.hello_run))
    by (vm_compute; reflexivity).
  split; [exact A|].
  apply (id_and_created_from_consecutive_readings Reference.library
           Reference.clock Reference.hello_request fresh
           (fst Reference.hello_run) (snd Reference.hello_run) _
           (surjective_pairing _) A).
Defined.

(** ** C6: failures other than a JSON parse error *)

(** C6, as stated, fails: the Content-Length header is converted before
    the [try] statement.  For a request without the header the handling
    fails with a TypeError, which is no JSON parse error; the handler does
    not catch it, and no 500 (nor anything else) is sent. *)
Lemma failure_before_try_is_not_caught :
  Py.header "Content-Length" (headers Reference.unsized_request) = None
  /\ Reference.unsized_run = (Raise TypeError, fresh)
  /\ ~ answers_error fresh (snd Reference.unsized_run) 500
         "Internal Server Error".
Proof.
  repeat split; try (vm_compute; reflexivity).
  unfold answers_error. vm_compute. discriminate.
Qed.

(** Nor is every failure inside the [try] statement turned into a 500:
    when the client has gone, the write of the 200 answer fails with an
    [OSError], the handler catches and logs it, and the write of the 500
    answer fails in its turn, outside any [try]: the exception leaves
    the handler and no answer has been written. *)
Example failed_write_is_not_caught :
  exists w',
    do_POST_on Reference.library Reference.clock Samples.gone
      Reference.hello_request fresh = (Raise OSError, w')
    /\ filter writes (wire w') = []
    /\ In (ERROR "Error processing request: " OSError) (logged w').
Proof.
  eexists. split; [vm_compute; reflexivity|].
  split; [reflexivity | simpl; auto].
Qed.

(** C6, amended.  When the body has been read, the [try] statement
    fails with an exception that is neither a JSON parse error nor a
    failed write to the client, and the client takes the answer, the
    handler catches the exception: it logs the error after whatever the
    statement had logged, sends 500 Internal Server Error and nothing
    else, and returns, so that no exception reaches the server. *)
Theorem failure_in_try_is_500
    (lib : Library) (clock : nat -> Reading) (line : Line)
    self w post_data e w1 :
  urlparse_path lib (path self) = Some "/chat/completions" ->
  received lib self w post_data ->
  process_on lib clock line post_data (taken (List.length post_data) w)
  = (Raise e, w1) ->
  is_JSONDecodeError e = false ->
  e <> OSError ->
  line (List.length (wire w)) = true ->
  exists w' infos,
    do_POST_on lib clock line self w = (Return tt, w')
    /\ answers_error w w' 500 "Internal Server Error"
    /\ logged w'
       = (logged w ++ infos ++ [ERROR "Error processing request: " e])%list.
Proof.
  intros Hp Hr P He Ho Hline.
  destruct (process_on_raises _ _ _ _ _ _ _ P Ho) as (Hw & _ & infos & Hl).
  assert (D : do_POST_on lib clock line self w
              = (Return tt,
                 sent [send_error 500 "Internal Server Error"]
                   (noted [ERROR "Error processing request: " e] w1))).
  { rewrite (do_POST_on_body _ _ _ _ _ _ Hp Hr). unfold try_except.
    rewrite P. unfold on_exception_on. rewrite He.
    unfold bind, logger_error, put. cbn [writes andb wire noted].
    simpl in Hw. now rewrite Hw, Hline. }
  eexists. exists infos.
  repeat match goal with |- _ /\ _ => split end.
  - exact D.
  - unfold answers_error. simpl. now rewrite Hw.
  - simpl. rewrite Hl. simpl. now rewrite <- app_assoc.
Qed.

Lemma failure_in_try_is_500_witness :
  urlparse_path Reference.library (path Reference.undecodable_request)
  = Some "/chat/completions"
  /\ received Reference.library Reference.undecodable_request fresh [Byte.xff]
  /\ process_on Reference.library Reference.clock steady [Byte.xff]
       (taken 1 fresh)
     = (Raise UnicodeDecodeError, taken 1 fresh)
  /\ is_JSONDecodeError UnicodeDecodeError = false
  /\ UnicodeDecodeError <> OSError
  /\ exists w' infos,
       do_POST_on Reference.library Reference.clock steady
         Reference.undecodable_request fresh = (Return tt, w')
       /\ answers_error fresh w' 500 "Internal Server Error"
       /\ logged w'
          = (logged fresh ++ infos
             ++ [ERROR "Error processing request: " UnicodeDecodeError])%list.
Proof.
  assert (Hp : urlparse_path Reference.library
                 (path Reference.undecodable_request)
               = Some "/chat/completions") by reflexivity.
  assert (Hr : received Reference.library Reference.undecodable_request
                 fresh [Byte.xff]).
  { sample_received. }
  assert (P : process_on Reference.library Reference.clock steady [Byte.xff]
                (taken 1 fresh)
              = (Raise UnicodeDecodeError, taken 1 fresh)) by reflexivity.
  assert (Ho : UnicodeDecodeError <> OSError) by discriminate.
  split; [exact Hp|]. split; [exact Hr|]. split; [exact P|].
  split; [reflexivity|]. split; [exact Ho|].
  exact (failure_in_try_is_500 Reference.library Reference.clock steady
           Reference.undecodable_request fresh [Byte.xff] UnicodeDecodeError
           (taken 1 fresh) Hp Hr P eq_refl Ho eq_refl).
Defined.

(** ** C7: a body that is not valid JSON *)

(** C7, as stated, fails: a body that is not UTF-8 text is not valid
    JSON, and decoding it raises before [json.loads] is called; that error
    is no JSON parse error, so the answer is 500.  Here the body is the
    single byte 0xFF. *)
Lemma undecodable_body_is_500 :
  Reference.decode_utf8 (rfile Reference.undecodable_request) = None
  /\ answers_error fresh (snd Reference.undecodable_run) 500
       "Internal Server Error"
  /\ ~ answers_error fresh (snd Reference.undecodable_run) 400 "Invalid JSON".
Proof.
  repeat split; try (vm_compute; reflexivity).
  unfold answers_error. vm_compute. discriminate.
Qed.

(** C7, amended.  When the body has been read and is UTF-8 text that
    [json.loads] rejects with a JSON parse error, the handler sends 400
    Invalid JSON and returns; nothing else is sent, nothing is logged and
    the clock is not read. *)
Theorem invalid_json_text_is_400
    (lib : Library) (clock : nat -> Reading) self w post_data text :
  urlparse_path lib (path self) = Some "/chat/completions" ->
  received lib self w post_data ->
  decode_utf8 lib post_data = Some text ->
  json_loads lib text = Raise JSONDecodeError ->
  do_POST lib clock self w
  = (Return tt,
     sent [send_error 400 "Invalid JSON"] (taken (List.length post_data) w)).
Proof.
  intros Hp Hr Hd Hl.
  rewrite (do_POST_body _ _ _ _ _ Hp Hr).
  unfold try_except, process, process_on, bind, lift. rewrite Hd, Hl.
  unfold on_exception, on_exception_on. cbn [is_JSONDecodeError].
  now rewrite put_steady.
Qed.

Lemma invalid_json_text_is_400_witness :
  urlparse_path Reference.library (path Reference.malformed_request)
  = Some "/chat/completions"
  /\ received Reference.library Reference.malformed_request fresh
       (list_byte_of_string "not-json")
  /\ decode_utf8 Reference.library (list_byte_of_string "not-json")
     = Some "not-json"
  /\ json_loads Reference.library "not-json" = Raise JSONDecodeError
  /\ do_POST Reference.library Reference.clock Reference.malformed_request
       fresh
     = (Return tt, sent [send_error 400 "Invalid JSON"] (taken 8 fresh)).
Proof.
  assert (Hp : urlparse_path Reference.library
                 (path Reference.malformed_request) = Some "/chat/completions")
    by reflexivity.
  assert (Hr : received Reference.library Reference.malformed_request fresh
                 (list_byte_of_string "not-json")).
  { sample_received. }
  assert (Hd : decode_utf8 Reference.library (list_byte_of_string "not-json")
               = Some "not-json") by reflexivity.
  assert (Hl : json_loads Reference.library "not-json" = Raise JSONDecodeError)
    by reflexivity.
  split; [exact Hp|]. split; [exact Hr|]. split; [exact Hd|].
  split; [exact Hl|].
  exact (invalid_json_text_is_400 Reference.library Reference.clock
           Reference.malformed_request fresh _ _ Hp Hr Hd Hl).
Defined.

(** ** C8: other paths *)

(** C8, as stated, fails: [urlparse] does not split every target.  The
    target http://[/chat/completions has an authority with a bracket
    that is not closed; [urlparse] raises a ValueError on the first line
    of the handler, outside the [try] statement: no 404, nor anything
    else, is sent. *)
Lemma unparsable_target_is_not_404 :
  path Samples.bracket_request <> "/chat/completions"
  /\ urlparse_path Reference.library (path Samples.bracket_request) = None
  /\ do_POST Reference.library Reference.clock Samples.bracket_request fresh
     = (Raise ValueError, fresh)
  /\ ~ answers_error fresh
         (snd (do_POST Reference.library Reference.clock
                 Samples.bracket_request fresh))
         404 "Not Found".
Proof.
  split; [vm_compute; discriminate|]. split; [vm_compute; reflexivity|].
  split; [vm_compute; reflexivity|].
  unfold answers_error. vm_compute. discriminate.
Qed.

(** C8, amended.  When [urlparse] splits the target and the path is not
    /chat/completions, the handler sends 404 Not Found and returns:
    nothing of the body is read, nothing is logged, and the outcome is
    the same whatever the headers and the body are. *)
Theorem other_path_is_404
    (lib : Library) (clock : nat -> Reading) self w p :
  urlparse_path lib (path self) = Some p ->
  p <> "/chat/completions" ->
  do_POST lib clock self w = (Return tt, sent [send_error 404 "Not Found"] w)
  /\ consumed (snd (do_POST lib clock self w)) = consumed w
  /\ (forall hs body,
        do_POST lib clock {| path := path self; headers := hs; rfile := body |} w
        = do_POST lib clock self w).
Proof.
  intros Hu Hp. apply String.eqb_neq in Hp.
  assert (D : forall hs body,
             do_POST lib clock
               {| path := path self; headers := hs; rfile := body |} w
             = (Return tt, sent [send_error 404 "Not Found"] w)).
  { intros hs body. unfold do_POST, do_POST_on, bind, lift.
    change (path {| path := path self; headers := hs; rfile := body |})
      with (path self).
    rewrite Hu, Hp. cbn [negb]. apply put_steady. }
  assert (E : do_POST lib clock self w
              = (Return tt, sent [send_error 404 "Not Found"] w)).
  { unfold do_POST, do_POST_on, bind, lift. rewrite Hu, Hp. cbn [negb].
    apply put_steady. }
  split; [exact E|]. split; [now rewrite E|].
  intros hs body. now rewrite D, E.
Qed.

Lemma other_path_is_404_witness :
  urlparse_path Reference.library (path Reference.unknown_request)
  = Some "/unknown"
  /\ "/unknown" <> "/chat/completions"
  /\ do_POST Reference.library Reference.clock Reference.unknown_request fresh
     = (Return tt, sent [send_error 404 "Not Found"] fresh).
Proof.
  assert (Hu : urlparse_path Reference.library
                 (path Reference.unknown_request) = Some "/unknown")
    by (vm_compute; reflexivity).
  assert (Hp : "/unknown" <> "/chat/completions") by discriminate.
  split; [exact Hu|]. split; [exact Hp|].
  exact (proj1 (other_path_is_404 Reference.library Reference.clock
                  Reference.unknown_request fresh "/unknown" Hu Hp)).
Defined.

(** ** C9: no Content-Length header *)

(** C9.  For a POST to /chat/completions without a Content-Length
    header, the conversion of the header raises a TypeError before the
    [try] statement is entered: the exception leaves the handler, which
    has sent neither 400 nor 500, nor logged or read anything. *)
Theorem missing_content_length_escapes
    (lib : Library) (clock : nat -> Reading) self w :
  urlparse_path lib (path self) = Some "/chat/completions" ->
  Py.header "Content-Length" (headers self) = None ->
  do_POST lib clock self w = (Raise TypeError, w).
Proof.
  intros Hp Hh. unfold do_POST, do_POST_on, bind, lift. rewrite Hp.
  change ("/chat/completions" =? "/chat/completions")%string with true.
  cbn [negb]. unfold int_of_header. now rewrite Hh.
Qed.

Lemma missing_content_length_escapes_witness :
  urlparse_path Reference.library (path Reference.unsized_request)
  = Some "/chat/completions"
  /\ Py.header "Content-Length" (headers Reference.unsized_request) = None
  /\ do_POST Reference.library Reference.clock Reference.unsized_request fresh
     = (Raise TypeError, fresh).
Proof.
  split; [reflexivity|]. split; [reflexivity|].
  exact (missing_content_length_escapes Reference.library Reference.clock
           Reference.unsized_request fresh eq_refl eq_refl).
Defined.

(** ** C10: a message that is not an object *)

(** C10.  For a POST to /chat/completions whose body is valid JSON, an
    object whose messages list holds an item that is not an object, the
    loop over the messages raises; the handler catches the exception and
    sends 500 Internal Server Error, and nothing else. *)
Theorem stray_message_is_500
    (lib : Library) (clock : nat -> Reading) self w d msgs x :
  urlparse_path lib (path self) = Some "/chat/completions" ->
  json_body lib self w (PyDict d) ->
  Py.lookup "messages" d = Some (PyList msgs) ->
  In x msgs ->
  (forall o, x <> PyDict o) ->
  (exists e, collect_prompt msgs "" = Raise e)
  /\ exists w',
       do_POST lib clock self w = (Return tt, w')
       /\ answers_error w w' 500 "Internal Server Error".
Proof.
  intros Hp (post_data & text & Hr & Hd & Hl) Hm Hin Hx.
  destruct (collect_prompt_raises msgs "" x Hin Hx) as (e & Hc & He).
  split; [now exists e|].
  destruct (process_loop_raises lib clock _ _ _ _ _
              (taken (List.length post_data) w) Hd Hl Hm Hc) as (w1 & P).
  destruct (process_raises _ _ _ _ _ _ P) as (Hw & _ & _).
  eexists. split.
  - rewrite (do_POST_body _ _ _ _ _ Hp Hr). unfold try_except. rewrite P.
    unfold on_exception, on_exception_on. rewrite He.
    unfold bind, logger_error. now rewrite put_steady.
  - unfold answers_error. simpl. now rewrite Hw.
Qed.

Lemma stray_message_is_500_witness :
  urlparse_path Reference.library (path Reference.stray_request)
  = Some "/chat/completions"
  /\ json_body Reference.library Reference.stray_request fresh
       (PyDict [("messages",
                 PyList [PyDict [("role", PyStr "user");
                                 ("content", PyStr "x")];
                         PyInt 7])])
  /\ In (PyInt 7)
       [PyDict [("role", PyStr "user"); ("content", PyStr "x")]; PyInt 7]
  /\ (exists e,
        collect_prompt
          [PyDict [("role", PyStr "user"); ("content", PyStr "x")]; PyInt 7] ""
        = Raise e)
  /\ exists w',
       do_POST Reference.library Reference.clock Reference.stray_request fresh
       = (Return tt, w')
       /\ answers_error fresh w' 500 "Internal Server Error".
Proof.
  assert (Hp : urlparse_path Reference.library (path Reference.stray_request)
               = Some "/chat/completions") by reflexivity.
  assert (Hj : json_body Reference.library Reference.stray_request fresh
                 (PyDict [("messages",
                           PyList [PyDict [("role", PyStr "user");
                                           ("content", PyStr "x")];
                                   PyInt 7])])).
  { exists (list_byte_of_string Reference.stray_body), Reference.stray_body.
    split; [|split; vm_compute; reflexivity].
    sample_received. }
  assert (Hin : In (PyInt 7)
                  [PyDict [("role", PyStr "user"); ("content", PyStr "x")];
                   PyInt 7]) by (right; left; reflexivity).
  split; [exact Hp|]. split; [exact Hj|]. split; [exact Hin|].
  exact (stray_message_is_500 Reference.library Reference.clock
           Reference.stray_request fresh _ _ (PyInt 7) Hp Hj eq_refl Hin
           ltac:(discriminate)).
Defined.

(** ** The scenarios of the specification, run on the reference runtime *)

(** Scenario 1: the greeting, the model echoed; the total (27) is not the
    sum of the two truncated counts (2 and 24). *)
Example scenario_hello :
  content_of (Reference.body_sent Reference.hello_run)
  = Some (PyStr Reply.greeting)
  /\ field "model" (Reference.body_sent Reference.hello_run)
     = Some (PyStr "test-model")
  /\ usage_of "prompt_tokens" (Reference.body_sent Reference.hello_run)
     = Some (PyInt 2)
  /\ usage_of "completion_tokens" (Reference.body_sent Reference.hello_run)
     = Some (PyInt 24)
  /\ usage_of "total_tokens" (Reference.body_sent Reference.hello_run)
     = Some (PyInt 27).
Proof. repeat split; vm_compute; reflexivity. Qed.

(** Scenario 4: no messages, the fallback reply with an empty echo. *)
Example scenario_no_messages :
  content_of (Reference.body_sent
                (do_POST Reference.library Reference.clock
                   Reference.empty_request fresh))
  = Some (PyStr (Reply.fallback "" "gpt-3.5-turbo" "2023-11-14 22:13:20")).
Proof. vm_compute. reflexivity. Qed.

(** Scenarios 5 and 6, and a request that the server drops, served one
    after the other. *)
Example scenario_errors_in_a_row :
  serve_forever Reference.library Reference.clock
    [Reference.unknown_request; Reference.unsized_request;
     Reference.malformed_request] fresh
  = ([Handled; Dropped TypeError; Handled],
     {| ticks := 0; consumed := 8; logged := [];
        wire := [send_error 404 "Not Found";
                 send_error 400 "Invalid JSON"] |}).
Proof. vm_compute. reflexivity. Qed.

(** A query, a fragment and parameters are not part of the path. *)
Example target_with_query :
  Reference.urlparse_path "/chat/completions?stream=0#top"
  = Some "/chat/completions".
Proof. vm_compute. reflexivity. Qed.

(** * Further properties *)

(** ** What was logged and sent before a request *)

Module Frame.

Lemma behind_sent l x evs w :
  sent evs (behind l x w) = behind l x (sent evs w).
Proof. unfold sent, behind. simpl. now rewrite app_assoc. Qed.

Lemma behind_noted l x recs w :
  noted recs (behind l x w) = behind l x (noted recs w).
Proof. unfold noted, behind. simpl. now rewrite app_assoc. Qed.

Lemma framed_ret {A} (a : A) : framed (ret a).
Proof. now intros l x w. Qed.

Lemma framed_raise {A} e : framed (@raise A e).
Proof. now intros l x w. Qed.

Lemma framed_lift {A} (r : result A) : framed (lift r).
Proof. now intros l x w. Qed.

Lemma framed_put ev : framed (put steady ev).
Proof. intros l x w. rewrite !put_steady. simpl. now rewrite behind_sent. Qed.

Lemma framed_logger_info msg : framed (logger_info msg).
Proof. intros l x w. unfold logger_info. simpl. now rewrite behind_noted. Qed.

Lemma framed_logger_error msg e : framed (logger_error msg e).
Proof. intros l x w. unfold logger_error. simpl. now rewrite behind_noted. Qed.

Lemma framed_bind {A B} (c : M A) (k : A -> M B) :
  framed c -> (forall a, framed (k a)) -> framed (bind c k).
Proof.
  intros Hc Hk l x w. unfold bind. rewrite Hc.
  destruct (c w) as [[a|e] w1]; simpl; [apply Hk | reflexivity].
Qed.

Lemma framed_try_except body handler :
  framed body -> (forall e, framed (handler e)) ->
  framed (try_except body handler).
Proof.
  intros Hb Hh l x w. unfold try_except. rewrite Hb.
  destruct (body w) as [[a|e] w1]; simpl; [reflexivity | apply Hh].
Qed.

Section FramedHandler.

Variable lib : Library.
Variable clock : nat -> Reading.

Lemma framed_read_clock : framed (read_clock clock).
Proof. now intros l x w. Qed.

Lemma framed_int_of_header self name : framed (int_of_header lib self name).
Proof.
  unfold int_of_header. destruct (Py.header _ _); [|apply framed_raise].
  destruct (int_of_str _ _); [apply framed_ret | apply framed_raise].
Qed.

Lemma framed_rfile_read self n : framed (rfile_read lib self n).
Proof.
  intros l x w. unfold rfile_read.
  repeat match goal with
         | |- context [if ?c then _ else _] => destruct c
         end; reflexivity.
Qed.

Ltac frame :=
  repeat first
    [ apply framed_bind; [|intro]
    | apply framed_ret | apply framed_raise | apply framed_lift
    | apply framed_put | apply framed_logger_info
    | apply framed_logger_error | apply framed_read_clock
    | apply framed_int_of_header | apply framed_rfile_read ].

Lemma framed_generate prompt model :
  framed (generate_mock_response lib clock prompt model).
Proof.
  unfold generate_mock_response, time_strftime. cbv zeta.
  repeat match goal with
         | |- framed (if ?c then _ else _) => destruct c
         end; frame.
Qed.

Lemma framed_process post_data : framed (process lib clock post_data).
Proof.
  unfold process, process_on, time_time_int. frame. apply framed_generate.
Qed.

Lemma framed_on_exception e : framed (on_exception e).
Proof.
  unfold on_exception, on_exception_on. destruct (is_JSONDecodeError e); frame.
Qed.

Lemma framed_do_POST self : framed (do_POST lib clock self).
Proof.
  unfold do_POST, do_POST_on.
  apply framed_bind; [apply framed_lift|]. intros parsed_path.
  destruct (negb _); frame.
  apply framed_try_except; [apply framed_process | apply framed_on_exception].
Qed.

End FramedHandler.

End Frame.

(** ** Sessions *)

Section Session.

Variable lib : Library.
Variable clock : nat -> Reading.

(** The handler keeps no state of its own: a session does not depend on
    what was logged and sent before it, which it leaves as it was. *)
Lemma serve_forever_ignores_history incoming l x w :
  serve_forever lib clock incoming (behind l x w)
  = (fst (serve_forever lib clock incoming w),
     behind l x (snd (serve_forever lib clock incoming w))).
Proof.
  revert w. induction incoming as [|self rest IH]; intros w; [reflexivity|].
  simpl.
  change {| ticks := ticks w; consumed := 0;
            logged := l ++ logged w; wire := x ++ wire w |}
    with (behind l x {| ticks := ticks w; consumed := 0;
                        logged := logged w; wire := wire w |}).
  rewrite Frame.framed_do_POST.
  destruct (do_POST lib clock self _) as [r w1]. simpl.
  rewrite IH. now destruct (serve_forever lib clock rest w1).
Qed.

(** X4.  [main] adds to a session its three start-up records before
    and, on the interrupt, the record that the server was stopped after
    the records of the handlers: the outcomes and what is sent to the
    clients are those of the session alone. *)
Theorem main_frames_the_session args incoming :
  fst (main lib clock args incoming fresh)
  = fst (serve_forever lib clock incoming fresh)
  /\ wire (snd (main lib clock args incoming fresh))
     = wire (snd (serve_forever lib clock incoming fresh))
  /\ logged (snd (main lib clock args incoming fresh))
     = ([INFO ("Mock LLM Server starting on http://" ++ host args ++ ":"
               ++ Str.of_Z (port args));
         INFO "Endpoint: POST /chat/completions";
         INFO "Press Ctrl+C to stop the server"]
        ++ logged (snd (serve_forever lib clock incoming fresh))
        ++ [INFO "Server stopped by user"])%list.
Proof.
  unfold main.
  change (noted ?recs fresh) with (behind recs [] fresh).
  rewrite serve_forever_ignores_history.
  destruct (serve_forever lib clock incoming fresh) as [out w2]. simpl.
  repeat split.
Qed.

End Session.


(** ** Every outcome of the handler *)

Section Outcomes.

Variable lib : Library.
Variable clock : nat -> Reading.

(** The ways a run of the handler can end. *)
Lemma do_POST_outcomes self w :
  (exists e, do_POST lib clock self w = (Raise e, w)
             /\ (e = TypeError \/ e = ValueError
                 \/ e = OverflowError \/ e = MemoryError))
  \/ (exists w',
        do_POST lib clock self w = (Return tt, w')
        /\ (answers_error w w' 404 "Not Found"
            \/ answers_error w w' 400 "Invalid JSON"
            \/ answers_error w w' 500 "Internal Server Error"
            \/ exists response, answers_200 w w' response)).
Proof.
  destruct (urlparse_path lib (path self)) as [p|] eqn:Hu.
  2:{ left. exists ValueError. split; [|auto].
      unfold do_POST, do_POST_on, bind, lift. now rewrite Hu. }
  destruct (String.eqb_spec p "/chat/completions") as [->|Hp].
  2:{ right. exists (sent [send_error 404 "Not Found"] w).
      split; [|left; reflexivity].
      apply String.eqb_neq in Hp.
      unfold do_POST, do_POST_on, bind, lift. rewrite Hu, Hp. cbn [negb].
      apply put_steady. }
  assert (B : do_POST lib clock self w
              = bind (int_of_header lib self "Content-Length")
                  (fun content_length =>
                     bind (rfile_read lib self content_length)
                       (fun post_data =>
                          try_except (process lib clock post_data)
                            on_exception)) w).
  { unfold do_POST, do_POST_on at 1. unfold bind at 1, lift. now rewrite Hu. }
  destruct (Py.header "Content-Length" (headers self)) as [h|] eqn:Hh.
  2:{ left. exists TypeError. split; [|auto].
      rewrite B. unfold bind, int_of_header. now rewrite Hh. }
  destruct (int_of_str lib h) as [n|] eqn:Hi.
  2:{ left. exists ValueError. split; [|auto].
      rewrite B. unfold bind, int_of_header. now rewrite Hh, Hi. }
  destruct (rfile_read_cases lib self n w)
    as [(_ & Hn & Hg)|(e & Hr & He)].
  2:{ left. exists e. split; [|intuition].
      rewrite B. unfold bind, int_of_header. rewrite Hh, Hi. unfold ret.
      now rewrite Hr. }
  right.
  assert (Hr : received lib self w (read_span self (consumed w) n)).
  { exists h, n. repeat split; auto; lia. }
  rewrite (do_POST_body lib clock _ _ _ Hu Hr). unfold try_except.
  set (post_data := read_span self (consumed w) n) in *.
  destruct (process lib clock post_data (taken (List.length post_data) w))
    as [[[]|e] w1] eqn:P.
  - exists w1. split; [reflexivity|]. right. right. right.
    destruct (process_returns _ _ _ _ _ P)
      as (? & ? & ? & ? & ? & ? & ? & ? & ? & ? & _ & _ & _ & _ & _ & _ & _
          & _ & _ & _ & A & _).
    eexists. exact A.
  - destruct (process_raises _ _ _ _ _ _ P) as (Hw & _ & _).
    destruct (wire_on_exception e w1) as (Hx & Hf).
    destruct (on_exception e w1) as [r w2] eqn:O. simpl in Hx, Hf. subst r.
    exists w2. split; [reflexivity|]. right.
    unfold answers_error. rewrite Hx, Hw. simpl.
    destruct (is_JSONDecodeError e); [left | right; left]; reflexivity.
Qed.

(** X5.  Every run of the handler, on a line that takes what is written,
    ends in one of two ways: it raises before the [try] statement, with
    nothing read, logged or sent, a ValueError ([urlparse], [int] or
    [read]), a TypeError ([int] of a missing header), an OverflowError or
    a MemoryError ([read]); or it returns after sending exactly one
    answer: 404, 400, 500, or a 200 response. *)
Theorem do_POST_answers_once_or_escapes self w :
  (exists e, do_POST lib clock self w = (Raise e, w)
             /\ (e = TypeError \/ e = ValueError
                 \/ e = OverflowError \/ e = MemoryError))
  \/ (exists w',
        do_POST lib clock self w = (Return tt, w')
        /\ (answers_error w w' 404 "Not Found"
            \/ answers_error w w' 400 "Invalid JSON"
            \/ answers_error w w' 500 "Internal Server Error"
            \/ exists response, answers_200 w w' response)).
Proof. apply do_POST_outcomes. Qed.

End Outcomes.


(** ** Malformed requests *)

Section Malformed.

Variable lib : Library.
Variable clock : nat -> Reading.

(** An exception raised in the [try] statement that is no JSON parse
    error is logged and answered with 500. *)
Lemma do_POST_caught self w post_data e w1 :
  urlparse_path lib (path self) = Some "/chat/completions" ->
  received lib self w post_data ->
  process lib clock post_data (taken (List.length post_data) w)
  = (Raise e, w1) ->
  is_JSONDecodeError e = false ->
  do_POST lib clock self w
  = (Return tt,
     sent [send_error 500 "Internal Server Error"]
       (noted [ERROR "Error processing request: " e] w1)).
Proof.
  intros Hp Hr P He.
  rewrite (do_POST_body lib clock _ _ _ Hp Hr). unfold try_except.
  rewrite P. unfold on_exception, on_exception_on. rewrite He.
  unfold bind, logger_error. now rewrite put_steady.
Qed.

(** X6.  A Content-Length that cannot be read from escapes the
    handler, outside the [try] statement, with nothing sent and nothing
    logged: as a ValueError when [int] rejects the text or the number is
    from -2^63 to -2; as an OverflowError when the number is below -2^63
    or above 2^63 - 34, the longest bytes object; as a MemoryError when
    the number is in range and the buffer is refused. *)
Theorem bad_content_length_escapes self w h :
  urlparse_path lib (path self) = Some "/chat/completions" ->
  Py.header "Content-Length" (headers self) = Some h ->
  (int_of_str lib h = None \/
   exists n, int_of_str lib h = Some n
             /\ (n < -1 \/ 2 ^ 63 - 34 < n \/ (0 <= n /\ grants lib n = false))%Z) ->
  exists e,
    do_POST lib clock self w = (Raise e, w)
    /\ (int_of_str lib h = None -> e = ValueError)
    /\ (forall n, int_of_str lib h = Some n ->
        ((- 2 ^ 63 <= n < -1)%Z -> e = ValueError)
        /\ ((n < - 2 ^ 63 \/ 2 ^ 63 - 34 < n)%Z -> e = OverflowError)
        /\ ((0 <= n <= 2 ^ 63 - 34)%Z -> e = MemoryError)).
Proof.
  intros Hp Hh Hi.
  assert (B : do_POST lib clock self w
              = bind (int_of_header lib self "Content-Length")
                  (fun content_length =>
                     bind (rfile_read lib self content_length)
                       (fun post_data =>
                          try_except (process lib clock post_data)
                            on_exception)) w).
  { unfold do_POST, do_POST_on at 1. unfold bind at 1, lift. rewrite Hp.
    reflexivity. }
  rewrite B. unfold bind, int_of_header. rewrite Hh.
  destruct Hi as [Hi|(n & Hi & Hn)]; rewrite Hi.
  { exists ValueError. split; [reflexivity|]. split; [reflexivity|].
    intros n; discriminate. }
  unfold ret, rfile_read.
  destruct (Z.ltb_spec n (- 2 ^ 63)); cbn [orb].
  { exists OverflowError. split; [reflexivity|]. split; [discriminate|].
    intros n' E; injection E as <-. repeat split; intros; auto; lia. }
  destruct (Z.ltb_spec (2 ^ 63 - 1) n).
  { exists OverflowError. split; [reflexivity|]. split; [discriminate|].
    intros n' E; injection E as <-. repeat split; intros; auto; lia. }
  destruct (Z.ltb_spec n (-1)).
  { exists ValueError. split; [reflexivity|]. split; [discriminate|].
    intros n' E; injection E as <-. repeat split; intros; auto; lia. }
  destruct (Z.ltb_spec (2 ^ 63 - 34) n).
  { exists OverflowError. split; [reflexivity|]. split; [discriminate|].
    intros n' E; injection E as <-. repeat split; intros; auto; lia. }
  destruct Hn as [Hn|[Hn|(Hn & Hg)]]; try lia.
  destruct (Z.leb_spec 0 n); [|lia]. rewrite Hg. cbn [andb negb].
  exists MemoryError. split; [reflexivity|]. split; [discriminate|].
  intros n' E; injection E as <-. repeat split; intros; auto; lia.
Qed.

(** X7.  A body that is valid JSON but not an object (a list, a
    number, a string, ...) is answered with 500, not 400: [get] raises an
    AttributeError, which is logged. *)
Theorem non_object_body_is_500 self w v :
  urlparse_path lib (path self) = Some "/chat/completions" ->
  json_body lib self w v ->
  (forall d, v <> PyDict d) ->
  exists post_data,
    received lib self w post_data
    /\ do_POST lib clock self w
       = (Return tt,
          sent [send_error 500 "Internal Server Error"]
            (noted [ERROR "Error processing request: " AttributeError]
               (taken (List.length post_data) w))).
Proof.
  intros Hp (post_data & text & Hr & Hd & Hl) Hv.
  exists post_data. split; [assumption|].
  apply (do_POST_caught _ _ _ _ _ Hp Hr); [|reflexivity].
  unfold process, process_on, bind, lift. rewrite Hd, Hl.
  destruct v; try reflexivity. now destruct (Hv items).
Qed.

(** A user message whose content is no string makes the loop raise a
    TypeError, unless an item before it raises first. *)
Lemma collect_prompt_raises_on_content msgs acc m c :
  In (PyDict m) msgs ->
  Rules.from_user m = true ->
  Py.lookup "content" m = Some c ->
  (forall s, c <> PyStr s) ->
  exists e, collect_prompt msgs acc = Raise e
            /\ is_JSONDecodeError e = false.
Proof.
  intros Hin Hu Hc Hs. revert acc.
  induction msgs as [|msg rest IH]; intros acc; [contradiction|].
  simpl. destruct Hin as [->|Hin].
  - simpl. unfold Rules.from_user in Hu.
    destruct (Py.lookup "role" m) as [[| | | |r| |]|]; try discriminate.
    simpl. rewrite Hu, Hc.
    destruct c; simpl; eauto. now destruct (Hs s).
  - destruct msg; simpl; eauto.
    destruct (Py.eq_str _ "user"); [|now apply IH].
    destruct (match Py.lookup "content" items with
              | Some v => v
              | None => PyStr ""
              end); simpl; eauto.
Qed.

(** X8.  A user message whose content is present and is not a string
    is answered with 500. *)
Theorem non_string_content_is_500 self w d msgs m c :
  urlparse_path lib (path self) = Some "/chat/completions" ->
  json_body lib self w (PyDict d) ->
  Py.lookup "messages" d = Some (PyList msgs) ->
  In (PyDict m) msgs ->
  Rules.from_user m = true ->
  Py.lookup "content" m = Some c ->
  (forall s, c <> PyStr s) ->
  exists w',
    do_POST lib clock self w = (Return tt, w')
    /\ answers_error w w' 500 "Internal Server Error".
Proof.
  intros Hp (post_data & text & Hr & Hd & Hl) Hm Hin Hu Hc Hs.
  destruct (collect_prompt_raises_on_content msgs "" m c Hin Hu Hc Hs)
    as (e & Hraise & He).
  destruct (process_loop_raises lib clock _ _ _ _ _
              (taken (List.length post_data) w) Hd Hl Hm Hraise) as (w1 & P).
  destruct (process_raises _ _ _ _ _ _ P) as (Hw & _ & _).
  eexists. split; [exact (do_POST_caught _ _ _ _ _ Hp Hr P He)|].
  unfold answers_error. simpl. now rewrite Hw.
Qed.

(** X9.  When [messages] is a value without a length (a number, a
    boolean, null), the request is answered with 500 after the handler
    logged the model: the TypeError comes from the [len] of the second
    log line, and is logged in its turn. *)
Theorem messages_without_length_is_500 self w d v e :
  urlparse_path lib (path self) = Some "/chat/completions" ->
  json_body lib self w (PyDict d) ->
  Py.lookup "messages" d = Some v ->
  Py.len v = Raise e ->
  exists post_data,
    received lib self w post_data
    /\ e = TypeError
    /\ do_POST lib clock self w
       = (Return tt,
          sent [send_error 500 "Internal Server Error"]
            (noted [INFO ("Received request for model: "
                          ++ str lib (match Py.lookup "model" d with
                                      | Some model => model
                                      | None => PyStr "unknown"
                                      end));
                    ERROR "Error processing request: " TypeError]
               (taken (List.length post_data) w))).
Proof.
  intros Hp (post_data & text & Hr & Hd & Hl) Hm He.
  assert (e = TypeError) as -> by (destruct v; simpl in He; congruence).
  exists post_data. split; [assumption|]. split; [reflexivity|].
  assert (P : process lib clock post_data (taken (List.length post_data) w)
              = (Raise TypeError,
                 noted [INFO ("Received request for model: "
                              ++ str lib (match Py.lookup "model" d with
                                          | Some model => model
                                          | None => PyStr "unknown"
                                          end))]
                   (taken (List.length post_data) w))).
  { unfold process, process_on, bind, lift, logger_info. rewrite Hd, Hl.
    cbn [Py.get]. rewrite Hm, He. reflexivity. }
  rewrite (do_POST_caught _ _ _ _ _ Hp Hr P eq_refl).
  unfold sent, noted. simpl. now rewrite <- app_assoc.
Qed.

End Malformed.


(** ** Well-formed requests *)

(** The loop over message objects returns, with the user contents
    joined, exactly when every message is acceptable. *)
Lemma loop_returns_iff_acceptable ms acc :
  (forallb acceptable ms = true ->
   collect_prompt (map PyDict ms) acc = Return (acc ++ Rules.user_text ms))
  /\ (forallb acceptable ms = false ->
      exists e, collect_prompt (map PyDict ms) acc = Raise e).
Proof.
  revert acc. induction ms as [|m rest IH]; intros acc.
  - split; [|discriminate]. intros _. simpl.
    now rewrite StrFacts.append_nil_r.
  - cbn [forallb map collect_prompt Rules.user_text].
    unfold acceptable at 1 3, Rules.from_user, Rules.content. cbn [Py.get].
    destruct (Py.lookup "role" m) as [role|]; cbn [negb orb andb Py.eq_str].
    2:{ apply IH. }
    destruct role; cbn [negb orb andb Py.eq_str]; try apply IH.
    destruct (s =? "user")%string; cbn [negb orb andb]; [|apply IH].
    destruct (Py.lookup "content" m) as [c|]; cbn [Py.iadd_str].
    2:{ rewrite StrFacts.append_nil_r.
        destruct (IH (acc ++ "")) as (I1 & I2).
        rewrite StrFacts.append_nil_r in I1, I2. now split. }
    destruct c; cbn [Py.iadd_str andb];
      try (split; [discriminate | intros _; eauto]).
    destruct (IH (acc ++ s0)) as (I1 & I2).
    rewrite StrFacts.append_assoc in I1. now split.
Qed.

(** ** Requests that are answered with 200 *)

Section Answered.

Variable lib : Library.
Variable clock : nat -> Reading.

(** What [len] takes is what [for] takes. *)
Lemma iter_has_len v items :
  Py.iter v = Return items -> exists count, Py.len v = Return count.
Proof. destruct v; simpl; intros H; try discriminate; eauto. Qed.

(** The [try] statement on a well-formed body runs to its end. *)
Lemma process_runs post_data w text d ms :
  decode_utf8 lib post_data = Some text ->
  json_loads lib text = Return (PyDict d) ->
  message_objects (PyDict d) ms ->
  forallb acceptable ms = true ->
  (word_count (Rules.user_text ms) < 2 ^ 47)%Z ->
  (word_count
     (reply_for lib clock (ticks w) ms
        (match Py.lookup "model" d with
         | Some model => model
         | None => PyStr "gpt-3.5-turbo"
         end)) < 2 ^ 47)%Z ->
  exists w' response,
    process lib clock post_data w = (Return tt, w')
    /\ answers_200 w w' response.
Proof.
  intros Hd Hl (messages & Hg & Hit) Hacc Hn Hm.
  destruct (loop_returns_iff_acceptable ms "") as (Hloop & _).
  specialize (Hloop Hacc). cbn [append] in Hloop.
  destruct (iter_has_len _ _ Hit) as (count & Hlen).
  cbn [Py.get] in Hg. injection Hg as Hg.
  set (model := match Py.lookup "model" d with
                | Some model => model
                | None => PyStr "gpt-3.5-turbo"
                end) in *.
  destruct (FloatFacts.total_is_sum_or_one_more
              (word_count (Rules.user_text ms))
              (word_count (reply_for lib clock (ticks w) ms model)))
    as (a & b & total & Ea & Eb & Ta & Tb & Tt & _);
    [unfold word_count in *; lia | unfold word_count in *; lia |].
  unfold process, process_on, bind, lift, logger_info.
  rewrite Hd, Hl. cbn [Py.get]. rewrite Hg, Hlen, Hit, Hloop.
  rewrite generate_run. fold model.
  unfold estimate. fold (word_count (Rules.user_text ms)).
  rewrite Ea.
  change (ticks (noted _ (noted _ w))) with (ticks w).
  fold (reply_for lib clock (ticks w) ms model).
  fold (word_count (reply_for lib clock (ticks w) ms model)).
  rewrite Eb, Tt. unfold time_time_int, bind, read_clock, ret.
  rewrite Ta, Tb.
  eexists.
  exists (response_dict
            (epoch (clock (id_tick (ticks w) (Rules.user_text ms))))
            (epoch (clock (S (id_tick (ticks w) (Rules.user_text ms)))))
            model (reply_for lib clock (ticks w) ms model)
            (floor_1_3 (word_count (Rules.user_text ms)))
            (floor_1_3 (word_count (reply_for lib clock (ticks w) ms model)))
            total).
  rewrite !put_steady.
  split; [reflexivity|].
  unfold answers_200, id_tick.
  destruct (select (Rules.user_text ms));
    cbn [wire ticks consumed logged noted sent tick fst snd];
    rewrite <- ?app_assoc; reflexivity.
Qed.

(** X10.  A POST to /chat/completions whose body is a JSON object, with
    messages that are objects whose user contents are strings (or are
    missing), is answered with 200, for texts below 2^47 words. *)
Theorem well_formed_request_is_answered_200 self w d ms :
  urlparse_path lib (path self) = Some "/chat/completions" ->
  json_body lib self w (PyDict d) ->
  message_objects (PyDict d) ms ->
  forallb acceptable ms = true ->
  (word_count (Rules.user_text ms) < 2 ^ 47)%Z ->
  (word_count
     (reply_for lib clock (ticks w) ms
        (match Py.lookup "model" d with
         | Some model => model
         | None => PyStr "gpt-3.5-turbo"
         end)) < 2 ^ 47)%Z ->
  exists w' response,
    do_POST lib clock self w = (Return tt, w')
    /\ answers_200 w w' response.
Proof.
  intros Hp (post_data & text & Hr & Hd & Hl) Hms Hacc Hn Hm.
  destruct (process_runs post_data (taken (List.length post_data) w)
              text d ms Hd Hl Hms Hacc Hn Hm) as (w' & response & P & A).
  exists w', response. split; [|exact A].
  rewrite (do_POST_body lib clock _ _ _ Hp Hr). unfold try_except.
  now rewrite P.
Qed.

(** X11.  The usage counts of a 200 answer, for texts below 2^47 words:
    prompt_tokens and completion_tokens are the exact floor(13 n / 10)
    and floor(13 m / 10), and total_tokens is their sum or one more. *)
Theorem usage_total_within_one self w r w' response :
  do_POST lib clock self w = (r, w') ->
  answers_200 w w' response ->
  exists request_data ms reply,
    json_body lib self w request_data
    /\ message_objects request_data ms
    /\ content_of response = Some (PyStr reply)
    /\ ((word_count (Rules.user_text ms) < 2 ^ 47)%Z ->
        (word_count reply < 2 ^ 47)%Z ->
        exists total,
          usage_of "prompt_tokens" response
          = Some (PyInt (floor_1_3 (word_count (Rules.user_text ms))))
          /\ usage_of "completion_tokens" response
             = Some (PyInt (floor_1_3 (word_count reply)))
          /\ usage_of "total_tokens" response = Some (PyInt total)
          /\ (floor_1_3 (word_count (Rules.user_text ms))
              + floor_1_3 (word_count reply) <= total
              <= floor_1_3 (word_count (Rules.user_text ms))
                 + floor_1_3 (word_count reply) + 1)%Z).
Proof.
  intros H A.
  destruct (exchange _ _ _ _ _ _ _ H A)
    as (request_data & model & ms & pt & ct & total & up & uc
        & _ & _ & Hj & _ & Hms & Ept & Ect & Et & Eup & Euc & -> & _).
  exists request_data, ms, (reply_for lib clock (ticks w) ms model).
  split; [assumption|]. split; [assumption|]. split; [reflexivity|].
  intros Hn Hm. exists total.
  destruct (FloatFacts.total_is_sum_or_one_more
              (word_count (Rules.user_text ms))
              (word_count (reply_for lib clock (ticks w) ms model)))
    as (a & b & t & Ea & Eb & Ta & Tb & Tt & Bt);
    [unfold word_count in *; lia | unfold word_count in *; lia |].
  unfold estimate in Ept, Ect.
  fold (word_count (Rules.user_text ms)) in Ept.
  fold (word_count (reply_for lib clock (ticks w) ms model)) in Ect.
  rewrite Ea in Ept. rewrite Eb in Ect.
  injection Ept as <-. injection Ect as <-.
  rewrite Ta in Eup. rewrite Tb in Euc. rewrite Tt in Et.
  injection Eup as <-. injection Euc as <-. injection Et as <-.
  split; [reflexivity|]. split; [reflexivity|]. split; [reflexivity|].
  exact Bt.
Qed.

End Answered.

(** ** What a 200 answer leaves in the log *)

Section Logs.

Variable lib : Library.
Variable clock : nat -> Reading.

Ltac run_effects H :=
  unfold process, process_on, time_time_int, read_clock in H;
  unfold bind, lift, ret, raise, logger_info, put, steady, writes in H;
  cbn beta iota in H; cbn [andb negb] in H; cbn beta iota in H.

Ltac case_step H :=
  match type of H with
  | match ?x with _ => _ end = _ =>
      let E := fresh "E" in destruct x eqn:E
  end.

(** When the body of the [try] returns, it has logged three records:
    the model, with [unknown] for a request that names none, the number
    of items of [messages], and the total of the usage counts. *)
Lemma process_logs post_data w w' :
  process lib clock post_data w = (Return tt, w') ->
  exists text request_data logged_model messages count msgs prompt
         response total,
    decode_utf8 lib post_data = Some text
    /\ json_loads lib text = Return request_data
    /\ Py.get request_data "model" (PyStr "unknown") = Return logged_model
    /\ Py.get request_data "messages" (PyList []) = Return messages
    /\ Py.len messages = Return count
    /\ Py.iter messages = Return msgs
    /\ collect_prompt msgs "" = Return prompt
    /\ answers_200 w w' response
    /\ usage_of "total_tokens" response = Some (PyInt total)
    /\ logged w'
       = (logged w
          ++ [INFO ("Received request for model: " ++ str lib logged_model);
              INFO ("Prompt length: " ++ Str.of_Z (Z.of_nat count));
              INFO ("Sent mock response with " ++ Str.of_Z total
                    ++ " tokens")])%list.
Proof.
  intros H. run_effects H.
  repeat (first [ rewrite generate_run in H; cbn beta iota in H
                | case_step H; try discriminate ]).
  destruct (decode_utf8 lib post_data) as [text|] eqn:Ed; [|discriminate].
  subst.
  repeat match goal with
         | Ht : Return _ = Return _ |- _ => inversion Ht; subst; clear Ht
         end.
  inversion H; subst; clear H.
  match goal with
  | |- context [select ?p] => destruct (select p)
  end;
    (do 7 eexists; eexists (response_dict _ _ _ _ _ _ _); eexists;
     repeat match goal with |- _ /\ _ => split end; try eassumption;
     try reflexivity;
     unfold answers_200;
     cbn [wire ticks consumed logged noted sent tick];
     rewrite <- ?app_assoc; reflexivity).
Qed.

(** X12.  In an exchange that is answered with 200 the handler logs
    three records of its own (the access-log line of [send_response] is
    outside the model): the model of the request, [unknown] when it names
    none although the response then says gpt-3.5-turbo; the number of
    items of [messages]; and the total_tokens of the response. *)
Theorem success_is_logged self w r w' response :
  do_POST lib clock self w = (r, w') ->
  answers_200 w w' response ->
  exists request_data logged_model messages count total,
    json_body lib self w request_data
    /\ Py.get request_data "model" (PyStr "unknown") = Return logged_model
    /\ Py.get request_data "messages" (PyList []) = Return messages
    /\ Py.len messages = Return count
    /\ usage_of "total_tokens" response = Some (PyInt total)
    /\ logged w'
       = (logged w
          ++ [INFO ("Received request for model: " ++ str lib logged_model);
              INFO ("Prompt length: " ++ Str.of_Z (Z.of_nat count));
              INFO ("Sent mock response with " ++ Str.of_Z total
                    ++ " tokens")])%list.
Proof.
  intros H A.
  destruct (do_POST_answers_200 _ _ _ _ _ _ _ H A)
    as (Hr & Hp & post_data & Hrec & P).
  destruct (process_logs _ _ _ P)
    as (text & request_data & logged_model & messages & count & msgs & prompt
        & response' & total & Hd & Hl & Hm & Hms & Hlen & _ & _ & A' & Ht
        & Hlog).
  exists request_data, logged_model, messages, count, total.
  assert (response' = response) as <-.
  { unfold answers_200 in A, A'. simpl in A'. rewrite A in A'.
    apply app_inv_head in A'. now injection A'. }
  split; [now exists post_data, text|].
  repeat match goal with |- _ /\ _ => split end; assumption.
Qed.

(** X15.  Only a well-formed request is answered with 200: its body is
    a JSON object, the items of its messages are objects, and the content
    of every user message is a string or is missing. *)
Theorem answered_200_only_if_well_formed self w r w' response :
  do_POST lib clock self w = (r, w') ->
  answers_200 w w' response ->
  exists d ms,
    json_body lib self w (PyDict d)
    /\ message_objects (PyDict d) ms
    /\ forallb acceptable ms = true.
Proof.
  intros H A.
  destruct (do_POST_answers_200 _ _ _ _ _ _ _ H A)
    as (_ & _ & post_data & Hrec & P).
  destruct (process_logs _ _ _ P)
    as (text & request_data & logged_model & messages & count & msgs & prompt
        & _ & _ & Hd & Hl & Hm & Hms & _ & Hit & Hc & _).
  destruct request_data as [| | | | | |d]; try discriminate.
  destruct (collect_prompt_returns _ _ _ Hc) as (ms & -> & _).
  exists d, ms.
  split; [now exists post_data, text|]. split; [now exists messages|].
  destruct (forallb acceptable ms) eqn:Hacc; [reflexivity|].
  destruct (loop_returns_iff_acceptable ms "") as (_ & Hraise).
  destruct (Hraise Hacc) as (e & He). congruence.
Qed.

End Logs.

(** ** What of a request the answer depends on *)

Module Blind.

Lemma blind_ret {A} (a : A) : blind (ret a).
Proof. now intros n w. Qed.

Lemma blind_lift {A} (r : result A) : blind (lift r).
Proof. now intros n w. Qed.

Lemma blind_put ev : blind (put steady ev).
Proof. intros n w. now rewrite !put_steady. Qed.

Lemma blind_logger_info msg : blind (logger_info msg).
Proof. now intros n w. Qed.

Lemma blind_logger_error msg e : blind (logger_error msg e).
Proof. now intros n w. Qed.

Lemma blind_bind {A B} (c : M A) (k : A -> M B) :
  blind c -> (forall a, blind (k a)) -> blind (bind c k).
Proof.
  intros Hc Hk n w. unfold bind. rewrite Hc.
  destruct (c w) as [[a|e] w1]; simpl; [apply Hk | reflexivity].
Qed.

Lemma blind_try_except body handler :
  blind body -> (forall e, blind (handler e)) ->
  blind (try_except body handler).
Proof.
  intros Hb Hh n w. unfold try_except. rewrite Hb.
  destruct (body w) as [[a|e] w1]; simpl; [reflexivity | apply Hh].
Qed.

Section BlindHandler.

Variable lib : Library.
Variable clock : nat -> Reading.

Lemma blind_read_clock : blind (read_clock clock).
Proof. now intros n w. Qed.

Ltac blind :=
  repeat first
    [ apply blind_bind; [|intro]
    | apply blind_ret | apply blind_lift
    | apply blind_put | apply blind_logger_info
    | apply blind_logger_error | apply blind_read_clock ].

Lemma blind_generate prompt model :
  blind (generate_mock_response lib clock prompt model).
Proof.
  unfold generate_mock_response, time_strftime. cbv zeta.
  repeat match goal with
         | |- blind (if ?c then _ else _) => destruct c
         end; blind.
Qed.

Lemma blind_process post_data : blind (process lib clock post_data).
Proof.
  unfold process, process_on, time_time_int. blind. apply blind_generate.
Qed.

Lemma blind_on_exception e : blind (on_exception e).
Proof.
  unfold on_exception, on_exception_on. destruct (is_JSONDecodeError e); blind.
Qed.

(** The [try] statement uses the model and the messages of the request
    object, and nothing else of it. *)
Lemma process_same_fields pd1 pd2 t1 t2 d1 d2 w :
  decode_utf8 lib pd1 = Some t1 -> json_loads lib t1 = Return (PyDict d1) ->
  decode_utf8 lib pd2 = Some t2 -> json_loads lib t2 = Return (PyDict d2) ->
  Py.lookup "model" d1 = Py.lookup "model" d2 ->
  Py.lookup "messages" d1 = Py.lookup "messages" d2 ->
  process lib clock pd1 w = process lib clock pd2 w.
Proof.
  intros D1 L1 D2 L2 Hmodel Hmsgs.
  unfold process, process_on, bind, lift. rewrite D1, L1, D2, L2.
  cbn [Py.get]. rewrite Hmodel, Hmsgs. reflexivity.
Qed.

End BlindHandler.

End Blind.

Section Irrelevant.

Variable lib : Library.
Variable clock : nat -> Reading.

(** X13.  Two requests whose bodies are JSON objects with the same
    model and the same messages get the same answer, log records and
    clock readings, whatever else the objects hold: max_tokens and
    temperature are read and have no effect. *)
Theorem only_model_and_messages_matter self1 self2 w d1 d2 :
  urlparse_path lib (path self1) = Some "/chat/completions" ->
  urlparse_path lib (path self2) = Some "/chat/completions" ->
  json_body lib self1 w (PyDict d1) ->
  json_body lib self2 w (PyDict d2) ->
  Py.lookup "model" d1 = Py.lookup "model" d2 ->
  Py.lookup "messages" d1 = Py.lookup "messages" d2 ->
  fst (do_POST lib clock self1 w) = fst (do_POST lib clock self2 w)
  /\ wire (snd (do_POST lib clock self1 w))
     = wire (snd (do_POST lib clock self2 w))
  /\ logged (snd (do_POST lib clock self1 w))
     = logged (snd (do_POST lib clock self2 w))
  /\ ticks (snd (do_POST lib clock self1 w))
     = ticks (snd (do_POST lib clock self2 w)).
Proof.
  intros P1 P2 (pd1 & t1 & R1 & D1 & L1) (pd2 & t2 & R2 & D2 & L2) Hmodel Hmsgs.
  rewrite (do_POST_body lib clock _ _ _ P1 R1).
  rewrite (do_POST_body lib clock _ _ _ P2 R2).
  assert (B : forall pd, blind (try_except (process lib clock pd) on_exception)).
  { intros pd. apply Blind.blind_try_except;
      [apply Blind.blind_process | apply Blind.blind_on_exception]. }
  change (taken (List.length pd1) w)
    with (reset (consumed w + List.length pd1) w).
  change (taken (List.length pd2) w)
    with (reset (consumed w + List.length pd2) w).
  rewrite !B. cbn [fst snd reset wire logged ticks].
  unfold try_except.
  rewrite (Blind.process_same_fields lib clock pd1 pd2 t1 t2 d1 d2 w D1 L1 D2 L2 Hmodel Hmsgs).
  repeat split.
Qed.

(** X14.  The handler takes from the body the bytes that Content-Length
    counts, and no more: what the client sends after them changes
    nothing. *)
Theorem bytes_past_content_length_are_ignored self w h n k :
  Py.header "Content-Length" (headers self) = Some h ->
  int_of_str lib h = Some n ->
  (0 <= n)%Z ->
  (consumed w + Z.to_nat n <= k)%nat ->
  do_POST lib clock (cut_body k self) w = do_POST lib clock self w.
Proof.
  intros Hh Hi Hn Hk. unfold do_POST, do_POST_on, bind, lift.
  change (path (cut_body k self)) with (path self).
  destruct (urlparse_path lib (path self)) as [p|]; [|reflexivity].
  destruct (negb _); [reflexivity|].
  unfold int_of_header.
  change (headers (cut_body k self)) with (headers self).
  rewrite Hh, Hi. unfold ret, rfile_read.
  assert (E : read_span (cut_body k self) (consumed w) n
              = read_span self (consumed w) n).
  { unfold read_span. cbv zeta.
    change (rfile (cut_body k self)) with (firstn k (rfile self)).
    destruct (Z.ltb_spec n 0); [lia|].
    rewrite skipn_firstn_comm, firstn_firstn. f_equal. lia. }
  now rewrite E.
Qed.

End Irrelevant.

(** ** One answer for each request that is handled *)

Section Answers.

Variable lib : Library.
Variable clock : nat -> Reading.

Lemma answers_after_one w w' evs :
  wire w' = (wire w ++ evs)%list ->
  List.length (filter is_answer evs) = 1 ->
  answers w' = S (answers w).
Proof.
  intros Hw He. unfold answers. rewrite Hw, filter_app, length_app, He. lia.
Qed.

(** A run of the handler that returns has sent one answer; a run that
    raises has sent none. *)
Lemma do_POST_answers self w :
  answers (snd (do_POST lib clock self w))
  = (answers w + handled [served_of (fst (do_POST lib clock self w))])%nat.
Proof.
  destruct (do_POST_outcomes lib clock self w)
    as [(e & -> & _)|(w' & -> & H)]; unfold handled;
    cbn [fst snd served_of filter List.length]; [lia|].
  rewrite Nat.add_1_r.
  destruct H as [H|[H|[H|(response & H)]]];
    apply (answers_after_one _ _ _ H); reflexivity.
Qed.

(** X16.  In a session the server sends exactly one answer for each
    connection whose handler returns, and none for a connection whose
    handler raises. *)
Theorem one_answer_per_handled_request incoming w :
  answers (snd (serve_forever lib clock incoming w))
  = (answers w + handled (fst (serve_forever lib clock incoming w)))%nat.
Proof.
  revert w. induction incoming as [|self rest IH]; intros w.
  - unfold handled. simpl. lia.
  - cbn [serve_forever].
    pose proof (do_POST_answers self
                  {| ticks := ticks w; consumed := 0;
                     logged := logged w; wire := wire w |}) as H1.
    destruct (do_POST lib clock self _) as [r w1].
    specialize (IH w1).
    destruct (serve_forever lib clock rest w1) as [out w2].
    cbn [fst snd] in *. rewrite IH, H1.
    change (answers {| ticks := ticks w; consumed := 0;
                       logged := logged w; wire := wire w |})
      with (answers w).
    unfold handled, served_of. destruct r; simpl; lia.
Qed.

End Answers.

(** ** The properties at work on the sample requests *)

Ltac sample_body body :=
  exists (list_byte_of_string body), body;
  split; [sample_received | split; vm_compute; reflexivity].

Lemma bad_content_length_escapes_witness :
  int_of_str Reference.library "9223372036854775808"
  = Some 9223372036854775808%Z
  /\ exists e,
       do_POST Reference.library Reference.clock Samples.oversized_request
         fresh = (Raise e, fresh)
       /\ (int_of_str Reference.library "9223372036854775808" = None ->
           e = ValueError)
       /\ (forall n,
             int_of_str Reference.library "9223372036854775808" = Some n ->
             ((- 2 ^ 63 <= n < -1)%Z -> e = ValueError)
             /\ ((n < - 2 ^ 63 \/ 2 ^ 63 - 34 < n)%Z -> e = OverflowError)
             /\ ((0 <= n <= 2 ^ 63 - 34)%Z -> e = MemoryError)).
Proof.
  split; [vm_compute; reflexivity|].
  apply (bad_content_length_escapes Reference.library Reference.clock
           Samples.oversized_request fresh "9223372036854775808"
           eq_refl eq_refl).
  right. exists 9223372036854775808%Z.
  split; [vm_compute; reflexivity|]. right. left. lia.
Defined.

(** The other ways a Content-Length escapes. *)
Example content_lengths_that_escape :
  do_POST Reference.library Reference.clock Samples.unparsable_length_request
    fresh = (Raise ValueError, fresh)
  /\ do_POST Reference.library Reference.clock Samples.negative_request fresh
     = (Raise ValueError, fresh)
  /\ do_POST Reference.library Reference.clock Samples.oversized_request fresh
     = (Raise OverflowError, fresh)
  /\ do_POST Reference.library Reference.clock Samples.greedy_request fresh
     = (Raise MemoryError, fresh).
Proof. repeat split; vm_compute; reflexivity. Qed.

Lemma non_object_body_is_500_witness :
  json_body Reference.library Reference.list_request fresh
    (PyList [PyInt 1; PyInt 2])
  /\ exists post_data,
       received Reference.library Reference.list_request fresh post_data
       /\ do_POST Reference.library Reference.clock Reference.list_request
            fresh
          = (Return tt,
             sent [send_error 500 "Internal Server Error"]
               (noted [ERROR "Error processing request: " AttributeError]
                  (taken (List.length post_data) fresh))).
Proof.
  assert (Hj : json_body Reference.library Reference.list_request fresh
                 (PyList [PyInt 1; PyInt 2]))
    by (sample_body "[1, 2]"%string).
  split; [exact Hj|].
  exact (non_object_body_is_500 Reference.library Reference.clock
           Reference.list_request fresh _ eq_refl Hj
           ltac:(discriminate)).
Defined.

Lemma non_string_content_is_500_witness :
  json_body Reference.library Samples.null_content_request fresh
    (PyDict [("messages",
              PyList [PyDict [("role", PyStr "user"); ("content", PyNone)]])])
  /\ exists w',
       do_POST Reference.library Reference.clock
         Samples.null_content_request fresh
       = (Return tt, w')
       /\ answers_error fresh w' 500 "Internal Server Error".
Proof.
  assert (Hj : json_body Reference.library Samples.null_content_request fresh
                 (PyDict [("messages",
                           PyList [PyDict [("role", PyStr "user");
                                           ("content", PyNone)]])]))
    by (sample_body Samples.null_content_body).
  split; [exact Hj|].
  exact (non_string_content_is_500 Reference.library Reference.clock
           Samples.null_content_request fresh _ _
           [("role", PyStr "user"); ("content", PyNone)] PyNone
           eq_refl Hj eq_refl (or_introl eq_refl) eq_refl eq_refl
           ltac:(discriminate)).
Defined.

Lemma messages_without_length_is_500_witness :
  json_body Reference.library Samples.number_messages_request fresh
    (PyDict [("messages", PyInt 5)])
  /\ exists post_data,
       received Reference.library Samples.number_messages_request fresh
         post_data
       /\ TypeError = TypeError
       /\ do_POST Reference.library Reference.clock
            Samples.number_messages_request fresh
          = (Return tt,
             sent [send_error 500 "Internal Server Error"]
               (noted [INFO ("Received request for model: "
                             ++ str Reference.library (PyStr "unknown"));
                       ERROR "Error processing request: " TypeError]
                  (taken (List.length post_data) fresh))).
Proof.
  assert (Hj : json_body Reference.library Samples.number_messages_request
                 fresh (PyDict [("messages", PyInt 5)]))
    by (sample_body Samples.number_messages_body).
  split; [exact Hj|].
  exact (messages_without_length_is_500 Reference.library Reference.clock
           Samples.number_messages_request fresh _ (PyInt 5) TypeError
           eq_refl Hj eq_refl eq_refl).
Defined.

Lemma well_formed_request_is_answered_200_witness :
  json_body Reference.library Reference.hello_request fresh
    (PyDict Samples.hello_object)
  /\ message_objects (PyDict Samples.hello_object) Samples.hello_messages
  /\ forallb acceptable Samples.hello_messages = true
  /\ exists w' response,
       do_POST Reference.library Reference.clock Reference.hello_request fresh
       = (Return tt, w')
       /\ answers_200 fresh w' response.
Proof.
  assert (Hj : json_body Reference.library Reference.hello_request fresh
                 (PyDict Samples.hello_object))
    by (sample_body Reference.hello_body).
  assert (Hm : message_objects (PyDict Samples.hello_object)
                 Samples.hello_messages)
    by (eexists; split; reflexivity).
  split; [exact Hj|]. split; [exact Hm|]. split; [reflexivity|].
  exact (well_formed_request_is_answered_200 Reference.library Reference.clock
           Reference.hello_request fresh Samples.hello_object
           Samples.hello_messages eq_refl Hj Hm eq_refl
           ltac:(vm_compute; reflexivity) ltac:(vm_compute; reflexivity)).
Defined.

Lemma usage_total_within_one_witness :
  answers_200 fresh (snd Reference.hello_run)
    (Reference.body_sent Reference.hello_run)
  /\ exists request_data ms reply,
       json_body Reference.library Reference.hello_request fresh request_data
       /\ message_objects request_data ms
       /\ content_of (Reference.body_sent Reference.hello_run)
          = Some (PyStr reply)
       /\ ((word_count (Rules.user_text ms) < 2 ^ 47)%Z ->
           (word_count reply < 2 ^ 47)%Z ->
           exists total,
             usage_of "prompt_tokens" (Reference.body_sent Reference.hello_run)
             = Some (PyInt (floor_1_3 (word_count (Rules.user_text ms))))
             /\ usage_of "completion_tokens"
                  (Reference.body_sent Reference.hello_run)
                = Some (PyInt (floor_1_3 (word_count reply)))
             /\ usage_of "total_tokens"
                  (Reference.body_sent Reference.hello_run)
                = Some (PyInt total)
             /\ (floor_1_3 (word_count (Rules.user_text ms))
                 + floor_1_3 (word_count reply) <= total
                 <= floor_1_3 (word_count (Rules.user_text ms))
                    + floor_1_3 (word_count reply) + 1)%Z).
Proof.
  assert (A : answers_200 fresh (snd Reference.hello_run)
                (Reference.body_sent Reference.hello_run))
    by (vm_compute; reflexivity).
  split; [exact A|].
  exact (usage_total_within_one Reference.library Reference.clock
           Reference.hello_request fresh (fst Reference.hello_run)
           (snd Reference.hello_run) _ (surjective_pairing _) A).
Defined.

Lemma success_is_logged_witness :
  answers_200 fresh (snd Reference.hello_run)
    (Reference.body_sent Reference.hello_run)
  /\ exists request_data logged_model messages count total,
       json_body Reference.library Reference.hello_request fresh request_data
       /\ Py.get request_data "model" (PyStr "unknown") = Return logged_model
       /\ Py.get request_data "messages" (PyList []) = Return messages
       /\ Py.len messages = Return count
       /\ usage_of "total_tokens" (Reference.body_sent Reference.hello_run)
          = Some (PyInt total)
       /\ logged (snd Reference.hello_run)
          = (logged fresh
             ++ [INFO ("Received request for model: "
                       ++ str Reference.library logged_model);
                 INFO ("Prompt length: " ++ Str.of_Z (Z.of_nat count));
                 INFO ("Sent mock response with " ++ Str.of_Z total
                       ++ " tokens")])%list.
Proof.
  assert (A : answers_200 fresh (snd Reference.hello_run)
                (Reference.body_sent Reference.hello_run))
    by (vm_compute; reflexivity).
  split; [exact A|].
  exact (success_is_logged Reference.library Reference.clock
           Reference.hello_request fresh (fst Reference.hello_run)
           (snd Reference.hello_run) _ (surjective_pairing _) A).
Defined.

Lemma only_model_and_messages_matter_witness :
  json_body Reference.library Reference.hello_request fresh
    (PyDict Samples.hello_object)
  /\ json_body Reference.library Samples.capped_request fresh
       (PyDict Samples.capped_object)
  /\ fst (do_POST Reference.library Reference.clock Reference.hello_request
            fresh)
     = fst (do_POST Reference.library Reference.clock Samples.capped_request
              fresh)
  /\ wire (snd (do_POST Reference.library Reference.clock
                  Reference.hello_request fresh))
     = wire (snd (do_POST Reference.library Reference.clock
                    Samples.capped_request fresh))
  /\ logged (snd (do_POST Reference.library Reference.clock
                    Reference.hello_request fresh))
     = logged (snd (do_POST Reference.library Reference.clock
                      Samples.capped_request fresh))
  /\ ticks (snd (do_POST Reference.library Reference.clock
                   Reference.hello_request fresh))
     = ticks (snd (do_POST Reference.library Reference.clock
                     Samples.capped_request fresh)).
Proof.
  assert (H1 : json_body Reference.library Reference.hello_request fresh
                 (PyDict Samples.hello_object))
    by (sample_body Reference.hello_body).
  assert (H2 : json_body Reference.library Samples.capped_request fresh
                 (PyDict Samples.capped_object))
    by (sample_body Samples.capped_body).
  split; [exact H1|]. split; [exact H2|].
  exact (only_model_and_messages_matter Reference.library
           Reference.clock Reference.hello_request Samples.capped_request
           fresh _ _ eq_refl eq_refl H1 H2 eq_refl eq_refl).
Defined.

Lemma bytes_past_content_length_are_ignored_witness :
  cut_body 75 Samples.padded_request <> Samples.padded_request
  /\ do_POST Reference.library Reference.clock
       (cut_body 75 Samples.padded_request) fresh
     = do_POST Reference.library Reference.clock Samples.padded_request fresh.
Proof.
  split; [vm_compute; discriminate|].
  exact (bytes_past_content_length_are_ignored Reference.library
           Reference.clock Samples.padded_request fresh "75" 75%Z 75%nat
           eq_refl eq_refl ltac:(lia) ltac:(vm_compute; lia)).
Defined.

Lemma answered_200_only_if_well_formed_witness :
  answers_200 fresh (snd Reference.hello_run)
    (Reference.body_sent Reference.hello_run)
  /\ exists d ms,
       json_body Reference.library Reference.hello_request fresh (PyDict d)
       /\ message_objects (PyDict d) ms
       /\ forallb acceptable ms = true.
Proof.
  assert (A : answers_200 fresh (snd Reference.hello_run)
                (Reference.body_sent Reference.hello_run))
    by (vm_compute; reflexivity).
  split; [exact A|].
  exact (answered_200_only_if_well_formed Reference.library Reference.clock
           Reference.hello_request fresh (fst Reference.hello_run)
           (snd Reference.hello_run) _ (surjective_pairing _) A).
Defined.
